(** * Visualizer of the dengue forecasting pipeline

    A shallow embedding of [src/utils/visualizer.py] (class [Visualizer]) and
    of the forecast contract exercised by [data_quality/test_data_quality.py].

    Python objects that the methods share with their callers (data frames and
    series) live in an explicit heap, matplotlib's pyplot keeps its stack of
    open figures in the same world, and every method is a computation in a
    state-and-exception monad over that world. *)

From Stdlib Require Import ZArith String Ascii List Bool Lia Floats Sorted
  DecimalString.
Import ListNotations.

Open Scope string_scope.
Open Scope list_scope.
Open Scope Z_scope.

(** ** Python [str] built-ins

    A [str] is a sequence of code points; the model covers the code points
    U+0000..U+00FF, one [ascii] each.  On that range [str.lower] maps one code
    point to one code point, so it is a [map]. *)
Module PyStr.

Definition ord (c : ascii) : Z := Z.of_N (N_of_ascii c).

Definition between (lo hi x : Z) : bool := (lo <=? x) && (x <=? hi).

Definition is_ascii_upper (c : ascii) : bool := between 65 90 (ord c).
Definition is_ascii_lower (c : ascii) : bool := between 97 122 (ord c).
Definition is_ascii_digit (c : ascii) : bool := between 48 57 (ord c).

(** [c.isalnum()]: letters and digits of Basic Latin, and in Latin-1 the
    ordinal indicators, the micro sign, the superscript digits, the vulgar
    fractions and every letter of U+00C0..U+00FF (which leaves out the
    multiplication and the division sign). *)
Definition isalnum (c : ascii) : bool :=
  let n := ord c in
  is_ascii_upper c || is_ascii_lower c || is_ascii_digit c
  || (n =? 170) || (n =? 178) || (n =? 179) || (n =? 181) || (n =? 185)
  || (n =? 186) || between 188 190 n
  || between 192 214 n || between 216 246 n || between 248 255 n.

(** [c.isspace()], which is what [str.strip()] removes. *)
Definition isspace (c : ascii) : bool :=
  let n := ord c in
  between 9 13 n || between 28 32 n || (n =? 133) || (n =? 160).

(** [c.lower()] *)
Definition lower_char (c : ascii) : ascii :=
  let n := ord c in
  if is_ascii_upper c || between 192 214 n || between 216 222 n
  then ascii_of_N (Z.to_N (n + 32))
  else c.

Definition chars (s : string) : list ascii := list_ascii_of_string s.
Definition of_chars (l : list ascii) : string := string_of_list_ascii l.

(** [s.lower()] *)
Definition lower (s : string) : string := of_chars (map lower_char (chars s)).

Fixpoint lstrip_chars (l : list ascii) : list ascii :=
  match l with
  | c :: l' => if isspace c then lstrip_chars l' else l
  | [] => []
  end.

Definition rstrip_chars (l : list ascii) : list ascii :=
  rev (lstrip_chars (rev l)).

(** [s.strip()] *)
Definition strip (s : string) : string :=
  of_chars (rstrip_chars (lstrip_chars (chars s))).

(** [s * n]: the empty string when [n <= 0]. *)
Definition repeat_str (s : string) (n : Z) : string :=
  String.concat "" (repeat s (Z.to_nat n)).

(** [len(s)] *)
Definition len (s : string) : Z := Z.of_nat (String.length s).

(** [format(s, "<w")]: left-aligned in a field of [w] columns, never cut. *)
Definition ljust (w : Z) (s : string) : string :=
  (s ++ repeat_str " " (w - len s))%string.

(** [str(n)] for an [int]. *)
Definition of_int (n : Z) : string := NilZero.string_of_int (Z.to_int n).

End PyStr.

(** ** Python [float] built-ins, on binary64 *)
Module PyFloat.

(** The two ways [int(x)] fails on a float. *)
Inductive int_error := IntOfNaN | IntOfInfinity.

(** [int(x)]: truncation towards zero. *)
Definition to_int (x : float) : int_error + Z :=
  match Prim2SF x with
  | S754_zero _ => inr 0
  | S754_infinity _ => inl IntOfInfinity
  | S754_nan => inl IntOfNaN
  | S754_finite s m e =>
      let mag := if 0 <=? e then Z.pos m * 2 ^ e else Z.pos m / 2 ^ (- e) in
      inr (if s then - mag else mag)
  end.

(** [math.floor(x)] *)
Definition floor (x : float) : int_error + Z :=
  match Prim2SF x with
  | S754_zero _ => inr 0
  | S754_infinity _ => inl IntOfInfinity
  | S754_nan => inl IntOfNaN
  | S754_finite s m e =>
      if 0 <=? e then inr (if s then - (Z.pos m * 2 ^ e) else Z.pos m * 2 ^ e)
      else
        let den := 2 ^ (- e) in
        inr (if s then - ((Z.pos m + den - 1) / den) else Z.pos m / den)
  end.

(** The magnitude of [m * 2^e] in units of 10^-4, rounded to nearest, ties
    to even: the digits [format(x, ".4f")] prints. *)
Definition scaled4 (m : positive) (e : Z) : Z :=
  if 0 <=? e then Z.pos m * 10000 * 2 ^ e
  else
    let num := Z.pos m * 10000 in
    let den := 2 ^ (- e) in
    let q := num / den in
    let r := num mod den in
    if (den <? 2 * r) || ((2 * r =? den) && Z.odd q) then q + 1 else q.

Definition pad4 (n : Z) : string :=
  let d := PyStr.of_int n in
  (PyStr.repeat_str "0" (4 - PyStr.len d) ++ d)%string.

Definition fixed4 (n : Z) : string :=
  (PyStr.of_int (n / 10000) ++ "." ++ pad4 (n mod 10000))%string.

Definition sign_str (s : bool) : string := if s then "-" else "".

(** [format(x, ".4f")] *)
Definition format_4f (x : float) : string :=
  match Prim2SF x with
  | S754_zero s => (sign_str s ++ fixed4 0)%string
  | S754_infinity s => (sign_str s ++ "inf")%string
  | S754_nan => "nan"
  | S754_finite s m e => (sign_str s ++ fixed4 (scaled4 m e))%string
  end.

End PyFloat.

(** ** Python values, exceptions and the world the methods run in *)
Module Py.

(** The exceptions of Python and pandas that the methods can meet, and
    [Unsupported]: the model stops with it where a value is outside the
    types and spellings this development covers, and says nothing of what
    Python does there. *)
Inductive exn :=
| KeyError (key : string)
| IndexError
| ValueError
| TypeError
| OverflowError
| OutOfBoundsDatetime
| FileNotFoundError
| ConversionError
| Unsupported.

Inductive result (A : Type) :=
| Ok (a : A)
| Raise (e : exn).
Arguments Ok {A} a.
Arguments Raise {A} e.

(** A cell of a frame.  A [pandas.Timestamp] is its count of nanoseconds
    since 1970-01-01T00:00; [VNaT] is the missing timestamp, and the missing
    number is the float [nan]. *)
Inductive value :=
| VStr (s : string)
| VInt (n : Z)
| VFloat (x : float)
| VTimestamp (ns : Z)
| VNaT.

Record Series := mkSeries {
  s_index : list Z;
  s_values : list value
}.

(** A frame is its row labels and its named columns.  pandas keeps every
    column as long as the index; the model relies on that and does not
    check it again. *)
Record DataFrame := mkDataFrame {
  df_index : list Z;
  df_columns : list (string * list value)
}.

Inductive pyobj :=
| ODataFrame (d : DataFrame)
| OSeries (s : Series).

(** A reference to an object of the heap. *)
Definition ref := nat.

(** What has been drawn on a figure's axes, call by call. *)
Inductive draw :=
| Plot (x y : list value) (fmt label : string)
| AxVLine (x : value) (label : string)
| BarH (y width : list value) (color : string)
| SetTitle (s : string)
| SetXLabel (s : string)
| SetYLabel (s : string)
| Legend
| Grid (axis : string)
| InvertYAxis
| XTicks (rotation : Z)
| TightLayout.

Record Figure := mkFigure {
  fig_num : nat;
  fig_size : option (Z * Z);      (* [None]: the size pyplot defaults to *)
  fig_drawn : list draw
}.

Record Image := mkImage {
  img_dpi : Z;
  img_bbox_inches : string;
  img_figure : Figure
}.

Record World := mkWorld {
  heap : list pyobj;              (* objects, by reference *)
  figures : list Figure;          (* open figures, the current one first *)
  shown : list nat;               (* figures handed to [plt.show()] *)
  dirs : list string;             (* directories that exist *)
  files : list (string * Image);  (* image files, by path *)
  stdout : list string            (* one entry per [print] call *)
}.

Definition with_heap (h : list pyobj) (w : World) : World :=
  mkWorld h (figures w) (shown w) (dirs w) (files w) (stdout w).
Definition with_figures (f : list Figure) (w : World) : World :=
  mkWorld (heap w) f (shown w) (dirs w) (files w) (stdout w).
Definition with_shown (s : list nat) (w : World) : World :=
  mkWorld (heap w) (figures w) s (dirs w) (files w) (stdout w).
Definition with_dirs (d : list string) (w : World) : World :=
  mkWorld (heap w) (figures w) (shown w) d (files w) (stdout w).
Definition with_files (f : list (string * Image)) (w : World) : World :=
  mkWorld (heap w) (figures w) (shown w) (dirs w) f (stdout w).
Definition with_stdout (o : list string) (w : World) : World :=
  mkWorld (heap w) (figures w) (shown w) (dirs w) (files w) o.

(** A computation changes the world and returns or raises; the world it
    leaves behind is there in both cases. *)
Definition M (A : Type) : Type := World -> result A * World.

Definition ret {A} (a : A) : M A := fun w => (Ok a, w).
Definition bind {A B} (m : M A) (k : A -> M B) : M B :=
  fun w =>
    match m w with
    | (Ok a, w') => k a w'
    | (Raise e, w') => (Raise e, w')
    end.
Definition lift {A} (r : result A) : M A := fun w => (r, w).
Definition modify (f : World -> World) : M unit := fun w => (Ok tt, f w).

(** A pure [for] loop over a list that stops at the first exception. *)
Fixpoint traverse {A B} (f : A -> result B) (l : list A) : result (list B) :=
  match l with
  | [] => Ok []
  | a :: l' =>
      match f a with
      | Raise e => Raise e
      | Ok b =>
          match traverse f l' with
          | Raise e => Raise e
          | Ok bs => Ok (b :: bs)
          end
      end
  end.

(** A [for] loop with effects. *)
Fixpoint for_each {A} (l : list A) (body : A -> M unit) : M unit :=
  match l with
  | [] => ret tt
  | a :: l' => bind (body a) (fun _ => for_each l' body)
  end.

Fixpoint lookup {A} (k : string) (l : list (string * A)) : option A :=
  match l with
  | [] => None
  | (k', a) :: l' => if String.eqb k k' then Some a else lookup k l'
  end.

(** [d[k] = a] on an ordered mapping: in place when the key is there, at
    the end when it is new. *)
Fixpoint assign {A} (k : string) (a : A) (l : list (string * A))
  : list (string * A) :=
  match l with
  | [] => [(k, a)]
  | (k', a') :: l' =>
      if String.eqb k k' then (k, a) :: l' else (k', a') :: assign k a l'
  end.

(** [l[i] = x] on the heap. *)
Fixpoint update {A} (i : nat) (x : A) (l : list A) {struct l} : list A :=
  match l, i with
  | [], _ => []
  | _ :: l', O => x :: l'
  | y :: l', S i' => y :: update i' x l'
  end.

End Py.

Export Py.

Declare Scope py_scope.
Delimit Scope py_scope with py.
Notation "x <- m ;; k" := (bind m (fun x => k))
  (at level 61, m at next level, right associativity) : py_scope.
Notation "m ;; k" := (bind m (fun _ => k))
  (at level 61, right associativity) : py_scope.
Open Scope py_scope.

(** ** The pandas operations the visualizer calls *)
Module Pandas.

(** The missing number. *)
Definition NaN : value := VFloat nan.

Definition alloc (o : pyobj) : M ref :=
  fun w => (Ok (length (heap w)), with_heap (heap w ++ [o]) w).

(** The frame a reference stands for.  Python has no reference to nothing,
    and an object of another class answers the frame's methods in its own
    way: the model stops on both. *)
Definition frame_at (r : ref) : M DataFrame :=
  fun w =>
    match nth_error (heap w) r with
    | Some (ODataFrame d) => (Ok d, w)
    | _ => (Raise Unsupported, w)
    end.

Definition series_at (r : ref) : M Series :=
  fun w =>
    match nth_error (heap w) r with
    | Some (OSeries s) => (Ok s, w)
    | _ => (Raise Unsupported, w)
    end.

Definition store (r : ref) (o : pyobj) : M unit :=
  modify (fun w => with_heap (update r o (heap w)) w).

(** [df.copy()]: a new object with the same rows. *)
Definition copy (df : ref) : M ref :=
  d <- frame_at df ;;
  alloc (ODataFrame d).

Definition column (d : DataFrame) (name : string) : result Series :=
  match lookup name (df_columns d) with
  | Some vs => Ok (mkSeries (df_index d) vs)
  | None => Raise (KeyError name)
  end.

(** [df[name]] *)
Definition getitem (df : ref) (name : string) : M Series :=
  d <- frame_at df ;;
  lift (column d name).

Definition set_column (name : string) (vs : list value) (d : DataFrame)
  : DataFrame :=
  mkDataFrame (df_index d) (assign name vs (df_columns d)).

(** [df[name] = values] for an array of values, taken by position: the
    object [df] itself changes. *)
Definition setitem (df : ref) (name : string) (vs : list value) : M unit :=
  d <- frame_at df ;;
  store df (ODataFrame (set_column name vs d)).

(** *** Quarterly periods *)

Record Period := mkPeriod { p_year : Z; p_quarter : Z }.

Definition digit (c : ascii) : option Z :=
  if PyStr.is_ascii_digit c then Some (PyStr.ord c - 48) else None.

(** The letter of a quarter: pandas puts the string in upper case first. *)
Definition is_q (c : ascii) : bool := Ascii.eqb c "Q" || Ascii.eqb c "q".

(** The quarter [n] of the year [abcd], for a year from 1 on (the first year
    of [datetime]) and a quarter from 1 to 4. *)
Definition quarter_of (a b c d n : ascii) : result Period :=
  match digit a, digit b, digit c, digit d, digit n with
  | Some a, Some b, Some c, Some d, Some n =>
      let year := 1000 * a + 100 * b + 10 * c + d in
      if (1 <=? year) && (1 <=? n) && (n <=? 4)
      then Ok (mkPeriod year n)
      else Raise Unsupported
  | _, _, _, _, _ => Raise Unsupported
  end.

(** The spellings of a quarter with the year first: four digits, a hyphen
    or none, [Q] or [q], and a digit from 1 to 4, as in [2025Q1], [2025q1]
    and [2025-Q1].  pandas reads other spellings too and raises on what it
    cannot read; the model stops with [Unsupported] on all of them, the
    year 0000 among them. *)
Definition parse_quarter (s : string) : result Period :=
  match PyStr.chars s with
  | [a; b; c; d; q; n] =>
      if is_q q then quarter_of a b c d n else Raise Unsupported
  | [a; b; c; d; h; q; n] =>
      if Ascii.eqb h "-" && is_q q then quarter_of a b c d n
      else Raise Unsupported
  | _ => Raise Unsupported
  end.

(** The quarter that a cell spells, when the cell is there; a missing cell
    is seen to by [period_of_cell] below. *)
Definition period_of_value (v : value) : result Period :=
  match v with
  | VStr s => parse_quarter s
  | _ => Raise Unsupported
  end.

(** [pd.isna(v)]: the missing number and the missing timestamp. *)
Definition isna (v : value) : bool :=
  match v with
  | VFloat x => PrimFloat.is_nan x
  | VNaT => true
  | _ => false
  end.

Definition is_str (v : value) : bool :=
  match v with
  | VStr _ => true
  | _ => false
  end.

(** The period of a cell: a missing cell has none ([NaT]). *)
Definition period_of_cell (v : value) : result (option Period) :=
  if isna v then Ok None
  else
    match period_of_value v with
    | Ok p => Ok (Some p)
    | Raise e => Raise e
    end.

(** The periods of the cells of a column of strings, of which some may be
    missing.  A column without a string has another type for pandas (of
    numbers it makes no periods, of timestamps and of integers it makes
    them in other ways): the model leaves these out, but for the column
    without cells. *)
Definition periods_of (cells : list value) : result (list (option Period)) :=
  match cells with
  | [] => Ok []
  | _ :: _ =>
      if existsb is_str cells then traverse period_of_cell cells
      else Raise Unsupported
  end.

(** [pd.PeriodIndex(series, freq="Q")] *)
Definition PeriodIndex (s : Series) : result (list (option Period)) :=
  periods_of (s_values s).

(** Days from 1970-01-01 to the given day of the proleptic Gregorian
    calendar. *)
Definition days_from_civil (y m d : Z) : Z :=
  let y' := if m <=? 2 then y - 1 else y in
  let era := y' / 400 in
  let yoe := y' - era * 400 in
  let mp := (m + 9) mod 12 in
  let doy := (153 * mp + 2) / 5 + d - 1 in
  let doe := yoe * 365 + yoe / 4 - yoe / 100 + doy in
  era * 146097 + doe - 719468.

Definition ns_per_day : Z := 86400 * 1000000000.

(** Midnight of a calendar day as a timestamp. *)
Definition midnight (y m d : Z) : Z := days_from_civil y m d * ns_per_day.

(** The first month of a quarter. *)
Definition first_month (q : Z) : Z := 3 * (q - 1) + 1.

(** A timestamp is a signed 64-bit count of nanoseconds whose least value
    is kept for [NaT]. *)
Definition timestamp_in_bounds (ns : Z) : bool :=
  (- 2 ^ 63 <? ns) && (ns <? 2 ^ 63).

(** [period.to_timestamp()]: the start of the period. *)
Definition period_start (p : Period) : result value :=
  let ns := midnight (p_year p) (first_month (p_quarter p)) 1 in
  if timestamp_in_bounds ns then Ok (VTimestamp ns)
  else Raise OutOfBoundsDatetime.

(** The start of a period, or [NaT] where there is none. *)
Definition timestamp_of (p : option Period) : result value :=
  match p with
  | Some p => period_start p
  | None => Ok VNaT
  end.

(** [index.to_timestamp()] *)
Definition to_timestamp (ps : list (option Period)) : result (list value) :=
  traverse timestamp_of ps.

(** *** Comparisons and masks *)

(** An [int] as a float, rounded to nearest. *)
Definition float_of_int (n : Z) : float :=
  SF2Prim (binary_normalize prec emax n 0 false).

(** [v <= n] and [v >= n] for an [int] [n]: a string or a timestamp does
    not compare with an int. *)
Definition le_int (n : Z) (v : value) : result bool :=
  match v with
  | VInt z => Ok (z <=? n)
  | VFloat x => Ok (PrimFloat.leb x (float_of_int n))
  | _ => Raise TypeError
  end.

Definition ge_int (n : Z) (v : value) : result bool :=
  match v with
  | VInt z => Ok (n <=? z)
  | VFloat x => Ok (PrimFloat.leb (float_of_int n) x)
  | _ => Raise TypeError
  end.

(** [series <= n], [series >= n] *)
Definition series_le (s : Series) (n : Z) : result (list bool) :=
  traverse (le_int n) (s_values s).
Definition series_ge (s : Series) (n : Z) : result (list bool) :=
  traverse (ge_int n) (s_values s).


(** [(v <= hi) & (v >= lo)] for a cell [v] that holds a number: an integer
    is compared as an integer, and a float with the bounds as floats. *)
Definition between (lo hi : Z) (v : value) : bool :=
  match le_int hi v, ge_int lo v with
  | Ok a, Ok b => a && b
  | _, _ => false
  end.

(** [mask1 & mask2] *)
Fixpoint mask_and (a b : list bool) : list bool :=
  match a, b with
  | x :: a', y :: b' => (x && y) :: mask_and a' b'
  | _, _ => []
  end.

(** The entries of [l] at the positions where the mask holds. *)
Fixpoint select {A} (mask : list bool) (l : list A) : list A :=
  match mask, l with
  | b :: mask', a :: l' =>
      if b then a :: select mask' l' else select mask' l'
  | _, _ => []
  end.

Definition filter_rows (mask : list bool) (d : DataFrame) : DataFrame :=
  mkDataFrame (select mask (df_index d))
              (map (fun c => (fst c, select mask (snd c))) (df_columns d)).

(** [df[mask]]: a new frame with the rows where the mask holds. *)
Definition getitem_mask (df : ref) (mask : list bool) : M ref :=
  d <- frame_at df ;;
  alloc (ODataFrame (filter_rows mask d)).

(** [series.iloc[-1]] *)
Definition iloc_last (s : Series) : result value :=
  match rev (s_values s) with
  | v :: _ => Ok v
  | [] => Raise IndexError
  end.

(** The labels of a default index: 0, 1, ..., n-1. *)
Definition RangeIndex (n : nat) : list Z := map Z.of_nat (seq 0 n).

(** [pd.DataFrame({name: values, ...})] *)
Definition new_frame (cols : list (string * list value)) : M ref :=
  let n := match cols with (_, vs) :: _ => length vs | [] => O end in
  alloc (ODataFrame (mkDataFrame (RangeIndex n) cols)).

Definition pick (d : DataFrame) (name : string)
  : result (string * list value) :=
  match lookup name (df_columns d) with
  | Some vs => Ok (name, vs)
  | None => Raise (KeyError name)
  end.

(** [df[[name, ...]]]: a new frame with the named columns. *)
Definition getitem_columns (df : ref) (names : list string) : M ref :=
  d <- frame_at df ;;
  cols <- lift (traverse (pick d) names) ;;
  alloc (ODataFrame (mkDataFrame (df_index d) cols)).

Definition mem (k : string) (l : list string) : bool :=
  existsb (String.eqb k) l.

Fixpoint union_names (seen : list string) (ds : list DataFrame)
  : list string :=
  match ds with
  | [] => seen
  | d :: ds' =>
      let fresh :=
        filter (fun k => negb (mem k seen)) (map fst (df_columns d)) in
      union_names (seen ++ fresh) ds'
  end.

(** The cells of a column, or as many missing numbers when the frame does
    not have the column. *)
Definition cells (name : string) (d : DataFrame) : list value :=
  match lookup name (df_columns d) with
  | Some vs => vs
  | None => repeat NaN (length (df_index d))
  end.

Definition concat_frames (ds : list DataFrame) : DataFrame :=
  let n := fold_right (fun d n => (length (df_index d) + n)%nat) O ds in
  mkDataFrame (RangeIndex n)
    (map (fun k => (k, flat_map (cells k) ds)) (union_names [] ds)).

Fixpoint frames_at (rs : list ref) : M (list DataFrame) :=
  match rs with
  | [] => ret []
  | r :: rs' =>
      d <- frame_at r ;;
      ds <- frames_at rs' ;;
      ret (d :: ds)
  end.

(** [pd.concat(frames, ignore_index=True)]: the rows of the frames one
    after the other in a new frame with a default index. *)
Definition concat (frames : list ref) : M ref :=
  ds <- frames_at frames ;;
  alloc (ODataFrame (concat_frames ds)).

Fixpoint min_timestamp (acc : option Z) (vs : list value)
  : result (option Z) :=
  match vs with
  | [] => Ok acc
  | VTimestamp t :: vs' =>
      min_timestamp
        (Some match acc with Some a => Z.min a t | None => t end) vs'
  | VNaT :: vs' => min_timestamp acc vs'
  | _ :: _ => Raise Unsupported
  end.

(** [series.min()] of a column of timestamps: missing ones are skipped,
    and the minimum of none is [NaT].  Columns of other types are left
    out of the model. *)
Definition min (s : Series) : result value :=
  match min_timestamp None (s_values s) with
  | Ok (Some t) => Ok (VTimestamp t)
  | Ok None => Ok VNaT
  | Raise e => Raise e
  end.

(** A row as [iterrows] yields it: its label and a cell per column. *)
Definition Row : Type := Z * list (string * value).

Fixpoint rows (idx : list Z) (cols : list (string * list value))
  : list Row :=
  match idx with
  | [] => []
  | i :: idx' =>
      (i, map (fun c => (fst c, hd NaN (snd c))) cols)
        :: rows idx' (map (fun c => (fst c, tl (snd c))) cols)
  end.

(** [df.iterrows()] *)
Definition iterrows (df : ref) : M (list Row) :=
  d <- frame_at df ;;
  ret (rows (df_index d) (df_columns d)).

(** [row[name]] *)
Definition row_get (r : Row) (name : string) : result value :=
  match lookup name (snd r) with
  | Some v => Ok v
  | None => Raise (KeyError name)
  end.

End Pandas.

(** ** The little of [os] that is used, on POSIX *)
Module Os.

Definition starts_with_sep (s : string) : bool :=
  match s with
  | String c _ => Ascii.eqb c "/"
  | EmptyString => false
  end.

Definition ends_with_sep (s : string) : bool :=
  match rev (PyStr.chars s) with
  | c :: _ => Ascii.eqb c "/"
  | [] => false
  end.

(** [os.path.join(a, b)] on POSIX *)
Definition path_join (a b : string) : string :=
  if starts_with_sep b then b
  else if String.eqb a "" || ends_with_sep a then (a ++ b)%string
  else (a ++ "/" ++ b)%string.

(** [path.split("/")] on the characters of a path. *)
Fixpoint split_sep (l : list ascii) : list (list ascii) :=
  match l with
  | [] => [[]]
  | c :: l' =>
      if Ascii.eqb c "/" then [] :: split_sep l'
      else
        match split_sep l' with
        | first :: rest => (c :: first) :: rest
        | [] => [[c]]
        end
  end.

Definition components (path : string) : list string :=
  map PyStr.of_chars (split_sep (PyStr.chars path)).

(** A name that the file system takes as it is: not empty, not [.] or
    [..], without the character of code 0, and of at most 127 characters,
    which are at most 255 bytes. *)
Definition plain_component (c : string) : bool :=
  negb (String.eqb c "" || String.eqb c "." || String.eqb c "..")
  && negb (existsb (Ascii.eqb Ascii.zero) (PyStr.chars c))
  && (length (PyStr.chars c) <=? 127)%nat.

(** A clean path goes down from the working directory step by step: it is
    relative, every component of it is a plain name, and it is of at most
    2000 characters.  A clean path is the one spelling of its target; the
    world names its directories and its files by their clean paths, and the
    model stops with [Unsupported] where it is to make or to write another
    path. *)
Definition clean (path : string) : bool :=
  forallb plain_component (components path)
  && (length (PyStr.chars path) <=? 2000)%nat.

Fixpoint descend (parent : string) (cs : list string) : list string :=
  match cs with
  | [] => []
  | c :: cs' =>
      let p := if String.eqb parent "" then c
               else (parent ++ "/" ++ c)%string in
      p :: descend p cs'
  end.

(** The directories on the way to a clean path, from the first down to the
    path itself. *)
Definition lineage (path : string) : list string :=
  descend "" (components path).

(** [os.path.dirname] and [os.path.basename] of a clean path; the working
    directory is the empty path. *)
Definition dirname (path : string) : string :=
  match rev (lineage path) with
  | _ :: parent :: _ => parent
  | _ => ""
  end.

Definition basename (path : string) : string :=
  last (components path) "".

Definition is_file (path : string) (w : World) : bool :=
  match lookup path (files w) with
  | Some _ => true
  | None => false
  end.

Definition is_dir (path : string) (w : World) : bool :=
  String.eqb path "" || Pandas.mem path (dirs w).

(** [os.mkdir(path)] unless the directory is there. *)
Definition create (ds : list string) (path : string) : list string :=
  if Pandas.mem path ds then ds else ds ++ [path].

(** [os.makedirs(path, exist_ok=True)]: nothing when the directory is there
    (its parents are there then); else its parents that are missing are
    made, the first first, and then the directory itself.  Python raises
    when a file is in the way; the model stops there. *)
Definition makedirs (path : string) : M unit :=
  fun w =>
    if Pandas.mem path (dirs w) then (Ok tt, w)
    else if clean path && negb (existsb (fun p => is_file p w) (lineage path))
    then
      let parents := removelast (lineage path) in
      (Ok tt, with_dirs (create (fold_left create parents (dirs w)) path) w)
    else (Raise Unsupported, w).

End Os.

(** ** matplotlib's pyplot: a stack of open figures, the current one on top *)
Module Pyplot.

Definition next_num (figs : list Figure) : nat :=
  S (fold_right (fun f m => Nat.max (fig_num f) m) O figs).

Definition open_figure (figsize : option (Z * Z)) : M Figure :=
  fun w =>
    let f := mkFigure (next_num (figures w)) figsize [] in
    (Ok f, with_figures (f :: figures w) w).

(** A figure size, in inches, that matplotlib takes and can draw at the
    resolutions used here: both sides positive and at most 50.  What it
    makes of other sizes (it refuses a negative side when the figure is
    made, and an image of 2^16 pixels a side when it is drawn) is left out
    of the model. *)
Definition drawable (figsize : Z * Z) : bool :=
  (0 <? fst figsize) && (fst figsize <=? 50)
  && (0 <? snd figsize) && (snd figsize <=? 50).

(** [fig, ax = plt.subplots(figsize=...)]: a new figure, which becomes the
    current one; the axes are known by the number of their figure. *)
Definition subplots (figsize : Z * Z) : M nat :=
  if drawable figsize
  then f <- open_figure (Some figsize) ;; ret (fig_num f)
  else lift (Raise Unsupported).

Definition draw_on (n : nat) (d : draw) (f : Figure) : Figure :=
  if Nat.eqb (fig_num f) n
  then mkFigure (fig_num f) (fig_size f) (fig_drawn f ++ [d])
  else f.

(** A drawing method of the axes [ax]. *)
Definition ax_call (ax : nat) (d : draw) : M unit :=
  modify (fun w => with_figures (map (draw_on ax d) (figures w)) w).

(** [plt.gcf()]: the current figure, a new one of the default size when
    none is open. *)
Definition gcf : M Figure :=
  fun w =>
    match figures w with
    | f :: _ => (Ok f, w)
    | [] => open_figure None w
    end.

(** *** The texts of a figure

    matplotlib lays out the texts of a figure when it is asked for a tight
    layout and when it writes the figure; a text with a dollar sign may be
    mathematics, which it parses, and raises [ValueError] on what it cannot
    parse.  The model knows the texts without a dollar sign, which are laid
    out as they are, and stops with [Unsupported] on the others. *)

Definition plain (s : string) : bool :=
  negb (existsb (Ascii.eqb "$") (PyStr.chars s)).

Definition text_of (v : value) : list string :=
  match v with
  | VStr s => [s]
  | _ => []
  end.

(** The title, the labels, the legend entries and the tick labels that a
    drawing call brings. *)
Definition texts (d : draw) : list string :=
  match d with
  | Plot x y _ label => flat_map text_of x ++ flat_map text_of y ++ [label]
  | AxVLine _ label => [label]
  | BarH y width _ => flat_map text_of y ++ flat_map text_of width
  | SetTitle s => [s]
  | SetXLabel s => [s]
  | SetYLabel s => [s]
  | _ => []
  end.

Definition renders (f : Figure) : bool :=
  forallb plain (flat_map texts (fig_drawn f)).

(** A pyplot function that works on the current figure; the tight layout
    lays out its texts. *)
Definition plt_call (d : draw) : M unit :=
  f <- gcf ;;
  match d with
  | TightLayout =>
      if renders f then ax_call (fig_num f) d else lift (Raise Unsupported)
  | _ => ax_call (fig_num f) d
  end.

(** *** Lines and bars

    The lines of the visualizer are dates against numbers, as many of the
    ones as of the others, and its bars are numbers against names.  What
    matplotlib makes of other data (it takes strings for categories, and
    raises on columns of mixed types and of different lengths) is left out
    of the model. *)

Definition is_date (v : value) : bool :=
  match v with
  | VTimestamp t => Pandas.timestamp_in_bounds t
  | VNaT => true
  | _ => false
  end.

(** A float, or an integer of 64 bits. *)
Definition is_number (v : value) : bool :=
  match v with
  | VInt n => (- 2 ^ 63 <=? n) && (n <? 2 ^ 63)
  | VFloat _ => true
  | _ => false
  end.

Definition plottable (x y : list value) : bool :=
  forallb is_date x && forallb is_number y
  && Nat.eqb (length x) (length y).

Definition barrable (y width : list value) : bool :=
  forallb Pandas.is_str y && forallb is_number width
  && Nat.eqb (length y) (length width).

(** [ax.plot(x, y, fmt, label=...)] *)
Definition plot (ax : nat) (x y : Series) (fmt label : string) : M unit :=
  if plottable (s_values x) (s_values y)
  then ax_call ax (Plot (s_values x) (s_values y) fmt label)
  else lift (Raise Unsupported).

(** [ax.axvline(x=..., label=...)] on axes of dates: the missing timestamp
    cannot be converted to a place on the axis. *)
Definition axvline (ax : nat) (x : value) (label : string) : M unit :=
  match x with
  | VTimestamp _ => ax_call ax (AxVLine x label)
  | VNaT => lift (Raise ConversionError)
  | _ => lift (Raise Unsupported)
  end.

(** [ax.barh(y, width, color=...)] *)
Definition barh (ax : nat) (y width : Series) (color : string) : M unit :=
  if barrable (s_values y) (s_values width)
  then ax_call ax (BarH (s_values y) (s_values width) color)
  else lift (Raise Unsupported).

(** *** Writing a figure *)

(** Whether the name of the file asks for a PNG image: it ends in a dot and
    [png], in upper or lower case, after a stem that is not of dots
    only. *)
Definition is_png (path : string) : bool :=
  match rev (PyStr.chars (Os.basename path)) with
  | g :: n :: p :: dot :: stem =>
      Ascii.eqb (PyStr.lower_char p) "p" && Ascii.eqb (PyStr.lower_char n) "n"
      && Ascii.eqb (PyStr.lower_char g) "g" && Ascii.eqb dot "."
      && existsb (fun c => negb (Ascii.eqb c ".")) stem
  | _ => false
  end.

(** The parents of a clean path that are files, or the path that is a
    directory: what stands in the way of a file at the path. *)
Definition blocked (path : string) (w : World) : bool :=
  Os.is_dir path w
  || existsb (fun p => Os.is_file p w) (removelast (Os.lineage path)).

(** [plt.savefig(path, dpi=..., bbox_inches=...)]: the current figure as
    it is now, written as a PNG image over whatever the path held;
    [FileNotFoundError] when the directory of the path is not there.  Other
    formats, texts that may be mathematics, paths that are not clean and
    paths with something in the way are left out of the model. *)
Definition savefig (path : string) (dpi : Z) (bbox_inches : string)
  : M unit :=
  f <- gcf ;;
  fun w =>
    if is_png path && renders f && Os.clean path && negb (blocked path w)
    then
      if Os.is_dir (Os.dirname path) w
      then (Ok tt,
            with_files (assign path (mkImage dpi bbox_inches f) (files w)) w)
      else (Raise FileNotFoundError, w)
    else (Raise Unsupported, w).

(** [plt.show()]: the open figures are displayed and stay open. *)
Definition show : M unit :=
  modify (fun w => with_shown (shown w ++ map fig_num (figures w)) w).

(** [plt.close()]: the current figure is closed, if there is one. *)
Definition close : M unit :=
  modify (fun w => with_figures (tl (figures w)) w).

End Pyplot.

(** ** The little of [builtins] that is used *)
Module Builtins.

Definition newline : string := String (ascii_of_nat 10) EmptyString.

(** [print(s)] *)
Definition print (s : string) : M unit :=
  modify (fun w => with_stdout (stdout w ++ [s]) w).

(** [v * n] for an importance [v]: floats only. *)
Definition mul (v : value) (n : Z) : result value :=
  match v with
  | VFloat x => Ok (VFloat (x * Pandas.float_of_int n))
  | _ => Raise Unsupported
  end.

(** [int(v)] *)
Definition int (v : value) : result Z :=
  match v with
  | VFloat x =>
      match PyFloat.to_int x with
      | inr n => Ok n
      | inl PyFloat.IntOfNaN => Raise ValueError
      | inl PyFloat.IntOfInfinity => Raise OverflowError
      end
  | VInt n => Ok n
  | _ => Raise Unsupported
  end.

(** [format(v, "<25")] for a feature name: strings only. *)
Definition format_left (w : Z) (v : value) : result string :=
  match v with
  | VStr s => Ok (PyStr.ljust w s)
  | _ => Raise Unsupported
  end.

(** [format(v, ".4f")] for an importance: floats only. *)
Definition format_4f (v : value) : result string :=
  match v with
  | VFloat x => Ok (PyFloat.format_4f x)
  | _ => Raise Unsupported
  end.

End Builtins.

Infix "+++" := String.append (right associativity, at level 60).

(** ** [class Visualizer] *)
Module Visualizer.

Import Builtins.

(** The attributes [__init__] sets. *)
Record t := mk {
  figsize : Z * Z;
  show_plots : bool;
  output_dir : string
}.

Definition default_figsize : Z * Z := (12, 5).

(** [Visualizer(figsize, show_plots)] *)
Definition __init__ (figsize : Z * Z) (show_plots : bool) : t :=
  mk figsize show_plots (Os.path_join "outputs" "plots").

Definition _save_fig (self : t) (filename : string) : M unit :=
  Os.makedirs (output_dir self) ;;
  let path := Os.path_join (output_dir self) filename in
  Pyplot.savefig path 150 "tight".

Definition add_quarter_date (self : t) (df : ref) : M ref :=
  df_copy <- Pandas.copy df ;;
  year_quarter <- Pandas.getitem df_copy "year_quarter" ;;
  periods <- lift (Pandas.PeriodIndex year_quarter) ;;
  dates <- lift (Pandas.to_timestamp periods) ;;
  Pandas.setitem df_copy "date" dates ;;
  ret df_copy.

(** [if self.show_plots: plt.show() else: plt.close()] *)
Definition show_or_close (self : t) : M unit :=
  if show_plots self then Pyplot.show else Pyplot.close.

Section AlignedAssignment.

(** [frame[name] = series] aligns the series on the labels of the frame's
    index and yields the frame's new content, or raises.  The rules of
    that alignment are pandas' own and nothing below depends on them:
    they are a parameter. *)
Variable setitem_series : DataFrame -> string -> Series -> result DataFrame.

Definition setitem_aligned (df : ref) (name : string) (series : ref)
  : M unit :=
  s <- Pandas.series_at series ;;
  d <- Pandas.frame_at df ;;
  d' <- lift (setitem_series d name s) ;;
  Pandas.store df (ODataFrame d').

Definition plot_actual_vs_predicted
    (self : t) (test_df predictions : ref) (model_name : string)
    (year : Z) (historical_df : option ref) (hist_years : Z) : M unit :=
  (* prepare test data *)
  c <- Pandas.copy test_df ;;
  plot_df <- add_quarter_date self c ;;
  setitem_aligned plot_df "predicted" predictions ;;
  ax <- Pyplot.subplots (figsize self) ;;
  (* plot historical context if provided *)
  match historical_df with
  | Some historical_df =>
      c <- Pandas.copy historical_df ;;
      hist_df <- add_quarter_date self c ;;
      y1 <- Pandas.getitem hist_df "year" ;;
      m1 <- lift (Pandas.series_le y1 (year - 1)) ;;
      y2 <- Pandas.getitem hist_df "year" ;;
      m2 <- lift (Pandas.series_ge y2 (year - hist_years)) ;;
      train_hist <- Pandas.getitem_mask hist_df (Pandas.mask_and m1 m2) ;;
      x <- Pandas.getitem train_hist "date" ;;
      y <- Pandas.getitem train_hist "casos_est" ;;
      Pyplot.plot ax x y "b-" "Historical (train)"
  | None => ret tt
  end ;;
  (* plot actual and predicted *)
  x <- Pandas.getitem plot_df "date" ;;
  y <- Pandas.getitem plot_df "casos_est" ;;
  Pyplot.plot ax x y "g-o" ("Actual (" +++ PyStr.of_int year +++ ")") ;;
  x <- Pandas.getitem plot_df "date" ;;
  y <- Pandas.getitem plot_df "predicted" ;;
  Pyplot.plot ax x y "r--s" ("Predicted (" +++ PyStr.of_int year +++ ")") ;;
  (* add forecast start line *)
  d <- Pandas.getitem plot_df "date" ;;
  start <- lift (Pandas.min d) ;;
  Pyplot.axvline ax start "Forecast start" ;;
  (* formatting *)
  Pyplot.ax_call ax
    (SetTitle (PyStr.of_int year +++ ": Actual vs Predicted ("
               +++ model_name +++ ")")) ;;
  Pyplot.ax_call ax (SetXLabel "Quarter") ;;
  Pyplot.ax_call ax (SetYLabel "Quarterly Cases") ;;
  Pyplot.ax_call ax Legend ;;
  Pyplot.ax_call ax (Grid "both") ;;
  Pyplot.plt_call (XTicks 45) ;;
  Pyplot.plt_call TightLayout ;;
  _save_fig self ("actual_vs_predicted_" +++ PyStr.of_int year +++ "_"
                  +++ model_name +++ ".png") ;;
  show_or_close self.

End AlignedAssignment.

(** The truth value of an [Optional[int]]: [None] and [0] are false. *)
Definition truthy (x : option Z) : bool :=
  match x with
  | Some n => negb (n =? 0)
  | None => false
  end.

(** [series >= x] for an [Optional[int]]: nothing compares with [None]. *)
Definition series_ge_opt (s : Series) (x : option Z) : result (list bool) :=
  match x with
  | Some n => Pandas.series_ge s n
  | None => Raise TypeError
  end.

Definition plot_forecast
    (self : t) (forecast_df historical_df : ref) (forecast_year : Z)
    (model_name : string) (hist_start_year : option Z) : M unit :=
  (* prepare data *)
  c <- Pandas.copy forecast_df ;;
  forecast_plot <- add_quarter_date self c ;;
  c <- Pandas.copy historical_df ;;
  hist_plot <- add_quarter_date self c ;;
  (* filter historical data *)
  hist <- (if truthy hist_start_year then
             years <- Pandas.getitem hist_plot "year" ;;
             mask <- lift (series_ge_opt years hist_start_year) ;;
             kept <- Pandas.getitem_mask hist_plot mask ;;
             Pandas.copy kept
           else
             Pandas.copy hist_plot) ;;
  (* get last historical point for connection *)
  d <- Pandas.getitem hist "date" ;;
  last_hist_date <- lift (Pandas.iloc_last d) ;;
  v <- Pandas.getitem hist "casos_est" ;;
  last_hist_value <- lift (Pandas.iloc_last v) ;;
  (* create connected forecast *)
  point <- Pandas.new_frame [("date", [last_hist_date]);
                             ("predicted_casos_est", [last_hist_value])] ;;
  rest <- Pandas.getitem_columns forecast_plot
            ["date"; "predicted_casos_est"] ;;
  forecast_connected <- Pandas.concat [point; rest] ;;
  (* create plot *)
  ax <- Pyplot.subplots (figsize self) ;;
  (* plot historical *)
  x <- Pandas.getitem hist "date" ;;
  y <- Pandas.getitem hist "casos_est" ;;
  Pyplot.plot ax x y "blue" "Historical" ;;
  (* plot forecast *)
  x <- Pandas.getitem forecast_connected "date" ;;
  y <- Pandas.getitem forecast_connected "predicted_casos_est" ;;
  Pyplot.plot ax x y "r--o" ("Forecast " +++ PyStr.of_int forecast_year) ;;
  (* add forecast start line *)
  d <- Pandas.getitem forecast_plot "date" ;;
  start <- lift (Pandas.min d) ;;
  Pyplot.axvline ax start "Forecast start" ;;
  (* formatting *)
  Pyplot.ax_call ax
    (SetTitle (PyStr.of_int forecast_year +++ " Forecast ("
               +++ model_name +++ ")")) ;;
  Pyplot.ax_call ax (SetXLabel "Quarter") ;;
  Pyplot.ax_call ax (SetYLabel "Quarterly Cases") ;;
  Pyplot.ax_call ax (Grid "both") ;;
  Pyplot.ax_call ax Legend ;;
  Pyplot.plt_call (XTicks 45) ;;
  Pyplot.plt_call TightLayout ;;
  _save_fig self ("forecast_" +++ PyStr.of_int forecast_year +++ "_"
                  +++ model_name +++ ".png") ;;
  show_or_close self.

Definition safe_char (c : ascii) : ascii :=
  if PyStr.isalnum c || Ascii.eqb c "-" || Ascii.eqb c "_" then c else "_"%char.

(** The name [plot_feature_importance] derives from its title. *)
Definition safe_title (title : string) : string :=
  PyStr.of_chars
    (map safe_char (PyStr.chars (PyStr.lower (PyStr.strip title)))).

Definition default_title : string := "Feature Importance".

Definition plot_feature_importance
    (self : t) (importance_df : ref) (title : string) : M unit :=
  ax <- Pyplot.subplots (10, 6) ;;
  (* create horizontal bar chart *)
  y <- Pandas.getitem importance_df "Feature" ;;
  width <- Pandas.getitem importance_df "Importance" ;;
  Pyplot.barh ax y width "steelblue" ;;
  (* formatting *)
  Pyplot.ax_call ax (SetXLabel "Importance") ;;
  Pyplot.ax_call ax (SetTitle title) ;;
  Pyplot.ax_call ax InvertYAxis ;;
  Pyplot.ax_call ax (Grid "x") ;;
  Pyplot.plt_call TightLayout ;;
  _save_fig self ("feature_importance_" +++ safe_title title +++ ".png") ;;
  show_or_close self.

(** The glyph the bar repeats, as the source has it: the empty string. *)
Definition glyph : string := "".

(** [bar = glyph * int(row['Importance'] * 50)] *)
Definition bar (row : Pandas.Row) : result string :=
  match Pandas.row_get row "Importance" with
  | Raise e => Raise e
  | Ok importance =>
      match mul importance 50 with
      | Raise e => Raise e
      | Ok scaled =>
          match int scaled with
          | Raise e => Raise e
          | Ok n => Ok (PyStr.repeat_str glyph n)
          end
      end
  end.

Definition default_print_title : string := "Top 10 Feature Importance".

Definition print_feature_importance
    (self : t) (importance_df : ref) (title : string) : M unit :=
  print (newline +++ PyStr.repeat_str "=" 80) ;;
  print ("[SEARCH] " +++ title) ;;
  print (PyStr.repeat_str "=" 80) ;;
  rows <- Pandas.iterrows importance_df ;;
  for_each rows (fun row =>
    bar <- lift (bar row) ;;
    feature <- lift (Pandas.row_get row "Feature") ;;
    name <- lift (format_left 25 feature) ;;
    importance <- lift (Pandas.row_get row "Importance") ;;
    number <- lift (format_4f importance) ;;
    print ("   " +++ name +++ " " +++ number +++ " " +++ bar)).

End Visualizer.

(** ** The forecaster, from its contract *)
Module Forecaster.

(** Modelled from the spec: the capability of a model, whose classes are not
    part of the excerpt.  [fit(features, target)] hands back the fitted
    model and [predict(features)] gives one value per row of features. *)
Class Estimator (E : Type) := {
  fit : E -> list (list value) -> list value -> E;
  predict : E -> list (list value) -> list value;
  predict_length : forall m X, length (predict m X) = length X
}.

(** Modelled from the spec: the quarters of a calendar year, a forecast row
    for each. *)
Definition quarters : list Z := [1; 2; 3; 4].

(** Modelled from the spec: the identifier of a quarter, year then quarter,
    as in [2026Q1]. *)
Definition year_quarter (year quarter : Z) : string :=
  PyStr.of_int year +++ "Q" +++ PyStr.of_int quarter.

(** Modelled from the spec: a row of history may be trained on when its
    year is at most [train_max_year] and is not an excluded year. *)
Definition allowed (train_max_year : Z) (exclude_years : list Z)
    (row : Pandas.Row) : bool :=
  match lookup "year" (snd row) with
  | Some (VInt y) =>
      (y <=? train_max_year) && negb (existsb (Z.eqb y) exclude_years)
  | _ => false
  end.

Definition cell (row : Pandas.Row) (name : string) : value :=
  match lookup name (snd row) with
  | Some v => v
  | None => Pandas.NaN
  end.

Section Contract.

Context {E : Type} `{Estimator E}.

(** The predictors of a quarter to forecast.  How the forecaster derives
    them from the history is not part of the excerpt: a parameter. *)
Variable future_features : DataFrame -> list string -> Z -> Z -> list value.

(** Modelled from the spec: [Forecaster.refit_and_forecast], of which the
    repository excerpt holds the test and not the source.  The spec has it
    refit the model on the allowed history (no year after [train_max_year],
    no excluded year) and produce a forecast frame with one row per quarter
    of the forecast year, Q1 to Q4, with the columns [year_quarter] and
    [predicted_casos_est]. *)
Definition refit_and_forecast
    (model : E) (df_feat : DataFrame) (feature_cols : list string)
    (forecast_year train_max_year : Z) (exclude_years : list Z)
  : DataFrame :=
  let history :=
    filter (allowed train_max_year exclude_years)
           (Pandas.rows (df_index df_feat) (df_columns df_feat)) in
  let features := map (fun r => map (cell r) feature_cols) history in
  let target := map (fun r => cell r "casos_est") history in
  let fitted := fit model features target in
  let future :=
    map (future_features df_feat feature_cols forecast_year) quarters in
  mkDataFrame
    (Pandas.RangeIndex (length quarters))
    [("year_quarter",
      map (fun q => VStr (year_quarter forecast_year q)) quarters);
     ("predicted_casos_est", predict fitted future)].

End Contract.

End Forecaster.

(** ** The specification's wording, for comparison with the code *)
Module Spec.

(** The filename fragment as the specification words it: the title in lower
    case, with an underscore for every character that is not alphanumeric, a
    hyphen or an underscore. *)
Definition keeps (c : ascii) : bool :=
  PyStr.isalnum c || Ascii.eqb c "-" || Ascii.eqb c "_".

Definition fragment (title : string) : string :=
  PyStr.of_chars
    (map (fun c => if keeps c then PyStr.lower_char c else "_"%char)
         (PyStr.chars title)).

(** The length of the bar as the specification words it:
    [floor(importance * 50)] glyphs. *)
Definition bar_length (importance : float) : PyFloat.int_error + Z :=
  PyFloat.floor (importance * 50)%float.

(** A frame whose columns are all as long as its index. *)
Definition rectangular (d : DataFrame) : Prop :=
  Forall (fun c => length (snd c) = length (df_index d)) (df_columns d).

(** The rows of history that [plot_forecast] keeps: those of a year from
    [hist_start_year] on when that is given and is not zero, else all. *)
Definition kept_rows (hist_start_year : option Z) (d : DataFrame)
  : result DataFrame :=
  match hist_start_year with
  | None => Ok d
  | Some n =>
      if n =? 0 then Ok d
      else
        match Pandas.column d "year" with
        | Raise e => Raise e
        | Ok years =>
            match Pandas.series_ge years n with
            | Raise e => Raise e
            | Ok mask => Ok (Pandas.filter_rows mask d)
            end
        end
  end.



(** The timestamps [add_quarter_date] derives from the cells of the column
    [year_quarter]: the start of each quarter, and the missing timestamp
    for a missing cell. *)
Definition quarter_dates (cells : list value) : result (list value) :=
  match Pandas.periods_of cells with
  | Ok periods => Pandas.to_timestamp periods
  | Raise e => Raise e
  end.


(** The outcome of a plotting method called in [w]: when it returned, the
    open figures are those of [w]; when it raised, they are those of [w]
    with at most one more. *)
Definition closed_on_return (w : World) (out : result unit * World) : Prop :=
  match out with
  | (Ok _, w') => figures w' = figures w
  | (Raise _, w') =>
      figures w' = figures w \/ exists f, figures w' = f :: figures w
  end.

(** No object that was in the heap of [w] differs in the heap of [w']. *)
Definition unchanged (w w' : World) : Prop :=
  firstn (length (heap w)) (heap w') = heap w.

End Spec.

(** ** Sample data: a history, a forecast, a test year, importances *)
Module Sample.

Definition viz : Visualizer.t :=
  Visualizer.__init__ Visualizer.default_figsize false.

Definition history : DataFrame :=
  mkDataFrame [0; 1; 2; 3; 4]
    [("year_quarter",
      [VStr "2023Q3"; VStr "2023Q4"; VStr "2024Q1"; VStr "2024Q2";
       VStr "2024Q3"]);
     ("year", [VInt 2023; VInt 2023; VInt 2024; VInt 2024; VInt 2024]);
     ("casos_est", [VFloat 10; VFloat 20; VFloat 30; VFloat 40; VFloat 50])].

Definition forecast : DataFrame :=
  mkDataFrame [0; 1; 2; 3]
    [("year_quarter",
      [VStr "2026Q1"; VStr "2026Q2"; VStr "2026Q3"; VStr "2026Q4"]);
     ("predicted_casos_est", [VFloat 1; VFloat 2; VFloat 3; VFloat 4])].

Definition test_year : DataFrame :=
  mkDataFrame [0; 1; 2; 3]
    [("year_quarter",
      [VStr "2025Q1"; VStr "2025Q2"; VStr "2025Q3"; VStr "2025Q4"]);
     ("year", [VInt 2025; VInt 2025; VInt 2025; VInt 2025]);
     ("casos_est", [VFloat 60; VFloat 70; VFloat 80; VFloat 90])].

Definition predictions : Series :=
  mkSeries [0; 1; 2; 3] [VFloat 61; VFloat 72; VFloat 79; VFloat 88].

Definition importance : DataFrame :=
  mkDataFrame [0; 1]
    [("Feature", [VStr "sst_lag1"; VStr "casos_lag4"]);
     ("Importance", [VFloat 0.5; VFloat 0.25])].

(** A history with its columns and no row. *)
Definition no_history : DataFrame :=
  mkDataFrame [] [("year_quarter", []); ("year", []); ("casos_est", [])].

(** A history that lacks the column of cases. *)
Definition no_cases : DataFrame :=
  mkDataFrame [0] [("year_quarter", [VStr "2024Q4"]); ("year", [VInt 2024])].


Definition history_ref : ref := 0%nat.
Definition forecast_ref : ref := 1%nat.
Definition test_year_ref : ref := 2%nat.
Definition predictions_ref : ref := 3%nat.
Definition importance_ref : ref := 4%nat.
Definition no_history_ref : ref := 5%nat.
Definition no_cases_ref : ref := 6%nat.

Definition world : World :=
  mkWorld
    [ODataFrame history; ODataFrame forecast; ODataFrame test_year;
     OSeries predictions; ODataFrame importance; ODataFrame no_history;
     ODataFrame no_cases]
    [] [] [] [] [].



(** A model that predicts the last value it was fitted on. *)
#[global] Instance persistence : Forecaster.Estimator value := {
  fit := fun model _ target => last target model;
  predict := fun model features => map (fun _ => model) features;
  predict_length := fun model features => length_map _ features
}.

(** The alignment of a series whose labels are those of the frame: its
    values, by position. *)
Definition by_position (d : DataFrame) (name : string) (s : Series)
  : result DataFrame :=
  if Nat.eqb (length (s_values s)) (length (df_index d))
  then Ok (Pandas.set_column name (s_values s) d)
  else Raise ValueError.

End Sample.

(** ** Assertions on worlds *)
Module Logic.

(** [hoare P m Q E]: from a world where [P] holds, [m] returns a value and a
    world that [Q] holds of, or raises in a world where [E] holds. *)
Definition hoare {A} (P : World -> Prop) (m : M A)
    (Q : A -> World -> Prop) (E : World -> Prop) : Prop :=
  forall w, P w ->
    match m w with
    | (Ok a, w') => Q a w'
    | (Raise _, w') => E w'
    end.

(** The objects [h0] are still in the heap, at their places. *)
Definition kept (h0 : list pyobj) (w : World) : Prop :=
  firstn (length h0) (heap w) = h0.

(** A reference to an object created after [h0]. *)
Definition fresh (h0 : list pyobj) (r : ref) : Prop := (length h0 <= r)%nat.

(** [m] leaves the objects [h0] as they are, however it ends, and what it
    returns satisfies [G]. *)
Definition preserves {A} (h0 : list pyobj) (m : M A) (G : A -> Prop) : Prop :=
  hoare (kept h0) m (fun a w => kept h0 w /\ G a) (kept h0).

(** [m] does not touch the heap. *)
Definition keeps_heap {A} (m : M A) : Prop :=
  forall w, heap (snd (m w)) = heap w.

(** [m] does not touch the figures. *)
Definition keeps_figures {A} (m : M A) : Prop :=
  forall w, figures (snd (m w)) = figures w.

(** The open figures are [figs], as before the call. *)
Definition at_rest (figs : list Figure) (w : World) : Prop :=
  figures w = figs.

(** The call has opened the figure of the axes [ax] on top of [figs]. *)
Definition drawing (ax : nat) (figs : list Figure) (w : World) : Prop :=
  exists f, figures w = f :: figs /\ fig_num f = ax
            /\ ax = Pyplot.next_num figs.

(** The open figures are [figs], with at most one more on top. *)
Definition at_most_one_more (figs : list Figure) (w : World) : Prop :=
  figures w = figs \/ exists f, figures w = f :: figs.

(** The call has opened the figure of the axes [ax] on top of [figs] and
    has drawn [lines] on it, and maybe more after them. *)
Definition showing (ax : nat) (size : option (Z * Z)) (lines : list draw)
    (figs : list Figure) (w : World) : Prop :=
  ax = Pyplot.next_num figs
  /\ exists more, figures w = mkFigure ax size (lines ++ more) :: figs.

(** The figure has been saved at [path], with [lines] and maybe more. *)
Definition stored (path : string) (ax : nat) (size : option (Z * Z))
    (lines : list draw) (w : World) : Prop :=
  exists more,
    lookup path (files w)
    = Some (mkImage 150 "tight" (mkFigure ax size (lines ++ more))).

(** Both: the figure is open and a copy of it is saved. *)
Definition showing_stored (path : string) (ax : nat)
    (size : option (Z * Z)) (lines : list draw) (figs : list Figure)
    (w : World) : Prop :=
  showing ax size lines figs w /\ stored path ax size lines w.


End Logic.

(** ** Python's [repr] of a [str] and of a list of them, and [sorted] *)
Module PyRepr.

Definition quote : ascii := ascii_of_nat 39.
Definition double_quote : ascii := ascii_of_nat 34.
Definition backslash : ascii := ascii_of_nat 92.

(** [c.isprintable()] on U+0000..U+00FF. *)
Definition isprintable (c : ascii) : bool :=
  let n := PyStr.ord c in
  PyStr.between 32 126 n
  || (PyStr.between 161 255 n && negb (n =? 173)).

Definition hex_digit (n : Z) : ascii :=
  ascii_of_N (Z.to_N (if n <? 10 then 48 + n else 87 + n)).

(** A character between the quotes [q]. *)
Definition escape (q c : ascii) : list ascii :=
  let n := PyStr.ord c in
  if Ascii.eqb c q || Ascii.eqb c backslash then [backslash; c]
  else if n =? 9 then [backslash; "t"%char]
  else if n =? 10 then [backslash; "n"%char]
  else if n =? 13 then [backslash; "r"%char]
  else if isprintable c then [c]
  else [backslash; "x"%char; hex_digit (n / 16); hex_digit (n mod 16)].

(** [repr(s)]: between single quotes, or double ones when the string has a
    single quote and no double one. *)
Definition repr_str (s : string) : string :=
  let cs := PyStr.chars s in
  let q :=
    if existsb (Ascii.eqb quote) cs
       && negb (existsb (Ascii.eqb double_quote) cs)
    then double_quote else quote in
  PyStr.of_chars (q :: flat_map (escape q) cs ++ [q]).

(** [repr(l)] for a list of strings, which is what an f-string prints. *)
Definition repr_list (l : list string) : string :=
  "[" +++ String.concat ", " (map repr_str l) +++ "]".

Fixpoint insert (s : string) (l : list string) : list string :=
  match l with
  | [] => [s]
  | x :: l' => if String.leb s x then s :: l else x :: insert s l'
  end.

(** [sorted(l)] for strings: by code point, character by character. *)
Definition sorted (l : list string) : list string := fold_right insert [] l.

End PyRepr.


(** ** [data_quality/test_data_quality.py] *)
Module DataQuality.

(** How a test ends: it passes, an [assert] fails with its message, or an
    exception escapes it. *)
Inductive outcome :=
| Passed
| AssertionError (message : string)
| Raised (e : exn).

(** The files of the working directory, by path, each with what
    [pd.read_csv] makes of it: the columns of the frame it reads, or the
    exception it raises on a file it cannot read. *)
Definition Disk : Type := list (string * result (list string)).

Definition dengue_path : string := "data/infodengue_capitals_subsetBR.csv".
Definition sst_path : string := "data/sst_indices.csv".

Definition dengue_required : list string := ["data_iniSE"; "casos_est"].
Definition sst_required : list string :=
  ["YR"; "MON"; "NINO1+2"; "NINO3"; "NINO3.4"; "ANOM.3"].

(** [required - set(columns)] *)
Definition difference (required columns : list string) : list string :=
  filter (fun c => negb (Pandas.mem c columns)) required.

(** The assertions on the columns, once both files are read. *)
Definition assert_columns (dengue_columns sst_columns : list string)
  : outcome :=
  let missing_dengue := difference dengue_required dengue_columns in
  let missing_sst := difference sst_required sst_columns in
  match missing_dengue, missing_sst with
  | _ :: _, _ =>
      AssertionError
        ("[dengue] Missing columns: "
         +++ PyRepr.repr_list (PyRepr.sorted missing_dengue))
  | [], _ :: _ =>
      AssertionError
        ("[sst] Missing columns: "
         +++ PyRepr.repr_list (PyRepr.sorted missing_sst))
  | [], [] => Passed
  end.

(** The two files are looked for, then read, the dengue file first each
    time, and then their columns are looked at. *)
Definition test_data_quality (disk : Disk) : outcome :=
  match lookup dengue_path disk with
  | None => AssertionError ("Missing dengue dataset: " +++ dengue_path)
  | Some dengue_read =>
      match lookup sst_path disk with
      | None => AssertionError ("Missing SST dataset: " +++ sst_path)
      | Some sst_read =>
          match dengue_read with
          | Raise e => Raised e
          | Ok dengue_columns =>
              match sst_read with
              | Raise e => Raised e
              | Ok sst_columns => assert_columns dengue_columns sst_columns
              end
          end
      end
  end.

(** [pd.isna(v)] *)
Definition isna (v : value) : bool :=
  match v with
  | VFloat x => PrimFloat.is_nan x
  | VNaT => true
  | _ => false
  end.

(** [df[c].isna().all()] *)
Definition isna_all (d : DataFrame) (c : string) : result bool :=
  match Pandas.column d c with
  | Ok s => Ok (forallb isna (s_values s))
  | Raise e => Raise e
  end.

(** The assertions of [test_features_exist_and_not_all_nan] on the frame and
    the names of its feature columns.  The test gets the two from
    [FeatureEngineer.create_features], a class whose source is not here:
    they are parameters. *)
Definition test_features_exist_and_not_all_nan
    (df_feat : DataFrame) (feature_cols : list string) : outcome :=
  match feature_cols with
  | [] => AssertionError "No feature columns returned by FeatureEngineer"
  | _ :: _ =>
      let columns := map fst (df_columns df_feat) in
      let missing :=
        filter (fun c => negb (Pandas.mem c columns)) feature_cols in
      match missing with
      | _ :: _ =>
          AssertionError
            ("Missing engineered features: " +++ PyRepr.repr_list missing)
      | [] =>
          match traverse (isna_all df_feat) feature_cols with
          | Raise e => Raised e
          | Ok flags =>
              let all_nan := Pandas.select flags feature_cols in
              match all_nan with
              | _ :: _ =>
                  AssertionError
                    ("All-NaN feature columns: "
                     +++ PyRepr.repr_list all_nan)
              | [] => Passed
              end
          end
      end
  end.

End DataQuality.

(** ** The order of the quarters *)
Module Quarters.

(** One quarter comes before another: an earlier year, or the same year and
    an earlier quarter. *)
Definition before (p q : Pandas.Period) : Prop :=
  Pandas.p_year p < Pandas.p_year q
  \/ (Pandas.p_year p = Pandas.p_year q
      /\ Pandas.p_quarter p < Pandas.p_quarter q).

(** The quarters a year has. *)
Definition of_a_year (p : Pandas.Period) : Prop :=
  1 <= Pandas.p_quarter p <= 4.

(** The nanosecond a quarter starts at. *)
Definition start (p : Pandas.Period) : Z :=
  Pandas.midnight (Pandas.p_year p) (Pandas.first_month (Pandas.p_quarter p))
    1.

End Quarters.

(** ** What [print_feature_importance] writes, as values *)
Module Report.

(** The three lines above the rows. *)
Definition banner (title : string) : list string :=
  [Builtins.newline +++ PyStr.repeat_str "=" 80;
   "[SEARCH] " +++ title;
   PyStr.repeat_str "=" 80].



(** The line the loop body prints for a row, or the exception it raises. *)
Definition row_line (row : Pandas.Row) : result string :=
  match Visualizer.bar row with
  | Raise e => Raise e
  | Ok bar =>
      match Pandas.row_get row "Feature" with
      | Raise e => Raise e
      | Ok feature =>
          match Builtins.format_left 25 feature with
          | Raise e => Raise e
          | Ok name =>
              match Pandas.row_get row "Importance" with
              | Raise e => Raise e
              | Ok importance =>
                  match Builtins.format_4f importance with
                  | Raise e => Raise e
                  | Ok number =>
                      Ok ("   " +++ name +++ " " +++ number +++ " " +++ bar)
                  end
              end
          end
      end
  end.

(** The lines printed for the rows up to the first one that raises, and
    the exception of that row. *)
Fixpoint printed (rows : list Pandas.Row) : list string * option exn :=
  match rows with
  | [] => ([], None)
  | row :: rows' =>
      match row_line row with
      | Raise e => ([], Some e)
      | Ok s => let (ls, e) := printed rows' in (s :: ls, e)
      end
  end.

End Report.

(** ** What the feature test looks at, as values *)
Module Features.

(** Whether a column is there and holds nothing but missing values. *)
Definition all_missing (d : DataFrame) (c : string) : bool :=
  match lookup c (df_columns d) with
  | Some cells => forallb DataQuality.isna cells
  | None => false
  end.

End Features.

(** ** Assertions on what is written and printed *)
Module Effects.

(** [m] writes no file, makes no directory and prints nothing. *)
Definition silent {A} (m : M A) : Prop :=
  forall w, files (snd (m w)) = files w
            /\ dirs (snd (m w)) = dirs w
            /\ stdout (snd (m w)) = stdout w.

(** Since [w0] no file has been written and nothing printed; directories
    may have been made, none removed. *)
Definition untouched (w0 w : World) : Prop :=
  files w = files w0 /\ incl (dirs w0) (dirs w) /\ stdout w = stdout w0.

(** Since [w0] one image has been saved, as [filename] in the output
    directory, which is there; no other file has changed, no directory has
    been removed and nothing has been printed. *)
Definition saved (self : Visualizer.t) (filename : string) (w0 w : World)
  : Prop :=
  (exists image,
     files w
     = assign (Os.path_join (Visualizer.output_dir self) filename) image
         (files w0))
  /\ Pandas.mem (Visualizer.output_dir self) (dirs w) = true
  /\ incl (dirs w0) (dirs w)
  /\ stdout w = stdout w0.

(** The outcome of a plotting method called in [w0]: when it returned it
    has saved its chart, when it raised it has written no file.  Where the
    model stopped, nothing is said. *)
Definition all_or_nothing (self : Visualizer.t) (filename : string)
    (w0 : World) (out : result unit * World) : Prop :=
  match out with
  | (Ok _, w) => saved self filename w0 w
  | (Raise Unsupported, _) => True
  | (Raise _, w) => untouched w0 w
  end.

End Effects.

(** * Properties *)

(** ** The file name of the importance chart *)

Lemma chars_of_chars (l : list ascii) : PyStr.chars (PyStr.of_chars l) = l.
Proof. apply list_ascii_of_string_of_list_ascii. Qed.

Lemma length_of_chars (l : list ascii) :
  String.length (PyStr.of_chars l) = length l.
Proof.
  unfold PyStr.of_chars.
  induction l as [|c l IH]; simpl; [reflexivity | now rewrite IH].
Qed.

Lemma length_chars (s : string) : length (PyStr.chars s) = String.length s.
Proof.
  unfold PyStr.chars.
  induction s as [|c s IH]; simpl; [reflexivity | now rewrite IH].
Qed.

(** Lowering a character first and testing it then, as the code does, keeps
    and replaces the same characters as testing the character itself. *)
Lemma safe_char_lower (c : ascii) :
  Visualizer.safe_char (PyStr.lower_char c)
  = if Spec.keeps c then PyStr.lower_char c else "_"%char.
Proof.
  destruct c as [[] [] [] [] [] [] [] []]; vm_compute; reflexivity.
Qed.

Lemma safe_char_kept (c : ascii) : Spec.keeps (Visualizer.safe_char c) = true.
Proof.
  destruct c as [[] [] [] [] [] [] [] []]; vm_compute; reflexivity.
Qed.

Lemma safe_title_fragment (s : string) :
  PyStr.of_chars
    (map Visualizer.safe_char (PyStr.chars (PyStr.lower s)))
  = Spec.fragment s.
Proof.
  unfold Spec.fragment, PyStr.lower.
  rewrite chars_of_chars, map_map.
  f_equal. apply map_ext. intro c. apply safe_char_lower.
Qed.

(** C2, as the code has it: the title is stripped of the blanks around it
    first; what is left is put in lower case and every character that is not
    alphanumeric, a hyphen or an underscore becomes an underscore.  The
    fragment is as long as the stripped title, holds no other character than
    those three kinds, and is [top_10_] for the title [Top 10!]. *)
Theorem safe_title_of_stripped_title (title : string) :
  Visualizer.safe_title title = Spec.fragment (PyStr.strip title)
  /\ String.length (Visualizer.safe_title title)
     = String.length (PyStr.strip title)
  /\ Forall (fun c => Spec.keeps c = true)
            (PyStr.chars (Visualizer.safe_title title))
  /\ Visualizer.safe_title "Top 10!" = "top_10_".
Proof.
  unfold Visualizer.safe_title.
  repeat split.
  - apply safe_title_fragment.
  - rewrite length_of_chars, length_map.
    unfold PyStr.lower.
    now rewrite chars_of_chars, length_map, length_chars.
  - rewrite chars_of_chars.
    apply Forall_forall. intros c Hc.
    apply in_map_iff in Hc. destruct Hc as [c' [<- _]].
    apply safe_char_kept.
Qed.

(** C2, as the specification states it, fails on a title with a blank in
    front: the code drops the blank, the specification turns it into an
    underscore. *)
Lemma safe_title_drops_outer_blanks :
  Visualizer.safe_title " a" = "a"
  /\ Spec.fragment " a" = "_a"
  /\ Visualizer.safe_title " a" <> Spec.fragment " a".
Proof.
  repeat split. vm_compute. discriminate.
Qed.

(** ** The monad and the assertions *)

Import Logic.

Lemma bind_run {A B} (m : M A) (k : A -> M B) (w : World) :
  bind m k w
  = match m w with
    | (Ok a, w') => k a w'
    | (Raise e, w') => (Raise e, w')
    end.
Proof. reflexivity. Qed.

Lemma hoare_bind {A B} P (m : M A) (k : A -> M B) R Q E :
  hoare P m R E -> (forall a, hoare (R a) (k a) Q E) ->
  hoare P (bind m k) Q E.
Proof.
  intros Hm Hk w Hw. specialize (Hm w Hw). rewrite bind_run.
  destruct (m w) as [[a|e] w']; [now apply Hk | exact Hm].
Qed.

Lemma hoare_weaken {A} (P P' : World -> Prop) (m : M A)
    (Q Q' : A -> World -> Prop) (E E' : World -> Prop) :
  hoare P m Q E ->
  (forall w, P' w -> P w) -> (forall a w, Q a w -> Q' a w) ->
  (forall w, E w -> E' w) ->
  hoare P' m Q' E'.
Proof.
  intros H HP HQ HE w Hw. specialize (H w (HP w Hw)).
  destruct (m w) as [[a|e] w']; auto.
Qed.

(** *** Objects only ever get added *)

Lemma kept_length h0 w : kept h0 w -> (length h0 <= length (heap w))%nat.
Proof.
  unfold kept. intro H.
  rewrite <- H at 1. rewrite length_firstn. apply Nat.le_min_r.
Qed.

Lemma kept_app h0 w t :
  kept h0 w -> firstn (length h0) (heap w ++ t) = h0.
Proof.
  intro H. pose proof (kept_length _ _ H) as Hl.
  rewrite firstn_app.
  replace (length h0 - length (heap w))%nat with 0%nat by lia.
  simpl. rewrite app_nil_r. exact H.
Qed.

Lemma firstn_update {A} (n i : nat) (x : A) (l : list A) :
  (n <= i)%nat -> firstn n (update i x l) = firstn n l.
Proof.
  revert n i. induction l as [|y l IH]; intros n i Hni; simpl.
  - reflexivity.
  - destruct i as [|i]; destruct n as [|n]; simpl; try reflexivity; try lia.
    f_equal. apply IH. lia.
Qed.

Lemma preserves_bind {A B} h0 (m : M A) (k : A -> M B) G G' :
  preserves h0 m G -> (forall a, G a -> preserves h0 (k a) G') ->
  preserves h0 (bind m k) G'.
Proof.
  intros Hm Hk. eapply hoare_bind; [exact Hm |].
  intros a w [Hw Ha]. now apply Hk.
Qed.

Lemma preserves_weaken {A} h0 (m : M A) (G G' : A -> Prop) :
  preserves h0 m G -> (forall a, G a -> G' a) -> preserves h0 m G'.
Proof.
  intros H HG. eapply hoare_weaken; [exact H | auto | | auto].
  intros a w [Hw Ha]. auto.
Qed.

Lemma preserves_ret {A} h0 (a : A) (G : A -> Prop) :
  G a -> preserves h0 (ret a) G.
Proof. intros Ha w Hw. simpl. auto. Qed.

Lemma preserves_lift {A} h0 (r : result A) :
  preserves h0 (lift r) (fun _ => True).
Proof. intros w Hw. unfold lift. destruct r; auto. Qed.

Lemma preserves_keeps_heap {A} h0 (m : M A) :
  keeps_heap m -> preserves h0 m (fun _ => True).
Proof.
  intros H w Hw. specialize (H w). unfold kept in *.
  destruct (m w) as [[a|e] w']; simpl in H; rewrite H; auto.
Qed.

Lemma preserves_alloc h0 o : preserves h0 (Pandas.alloc o) (fresh h0).
Proof.
  intros w Hw. unfold Pandas.alloc, kept, fresh. simpl.
  split; [now apply kept_app | now apply kept_length].
Qed.

Lemma preserves_frame_at h0 r :
  preserves h0 (Pandas.frame_at r) (fun _ => True).
Proof.
  intros w Hw. unfold Pandas.frame_at.
  destruct (nth_error (heap w) r) as [[d|s]|]; auto.
Qed.

Lemma preserves_series_at h0 r :
  preserves h0 (Pandas.series_at r) (fun _ => True).
Proof.
  intros w Hw. unfold Pandas.series_at.
  destruct (nth_error (heap w) r) as [[d|s]|]; auto.
Qed.

Lemma preserves_store h0 r o :
  fresh h0 r -> preserves h0 (Pandas.store r o) (fun _ => True).
Proof.
  intros Hr w Hw. unfold Pandas.store, modify, kept in *. simpl.
  split; [| exact I]. now rewrite firstn_update.
Qed.

Create HintDb heap.
#[local] Hint Resolve preserves_alloc preserves_frame_at preserves_series_at
  preserves_store preserves_lift preserves_keeps_heap : heap.
#[local] Hint Extern 1 (preserves _ (ret _) _) =>
  apply preserves_ret; try exact I; try assumption : heap.

(** One statement of a method body. *)
Ltac preserve_step :=
  lazymatch goal with
  | |- preserves _ (bind (if ?c then _ else _) _) _ =>
      eapply preserves_bind; [destruct c | intros]
  | |- preserves _ (bind (match ?x with _ => _ end) _) _ =>
      eapply preserves_bind; [destruct x | intros]
  | |- preserves _ (bind _ _) _ =>
      eapply preserves_bind; [solve [eauto with heap] | intros]
  | |- preserves _ (if ?c then _ else _) _ => destruct c
  end.

Ltac preserve := repeat preserve_step; eauto with heap.

Lemma preserves_copy h0 df : preserves h0 (Pandas.copy df) (fresh h0).
Proof. unfold Pandas.copy. preserve. Qed.

Lemma preserves_getitem h0 df name :
  preserves h0 (Pandas.getitem df name) (fun _ => True).
Proof. unfold Pandas.getitem. preserve. Qed.

Lemma preserves_setitem h0 df name vs :
  fresh h0 df -> preserves h0 (Pandas.setitem df name vs) (fun _ => True).
Proof. intro H. unfold Pandas.setitem. preserve. Qed.

Lemma preserves_getitem_mask h0 df mask :
  preserves h0 (Pandas.getitem_mask df mask) (fresh h0).
Proof. unfold Pandas.getitem_mask. preserve. Qed.

Lemma preserves_new_frame h0 cols :
  preserves h0 (Pandas.new_frame cols) (fresh h0).
Proof. unfold Pandas.new_frame. preserve. Qed.

Lemma preserves_getitem_columns h0 df names :
  preserves h0 (Pandas.getitem_columns df names) (fresh h0).
Proof. unfold Pandas.getitem_columns. preserve. Qed.

Lemma preserves_frames_at h0 rs :
  preserves h0 (Pandas.frames_at rs) (fun _ => True).
Proof.
  induction rs as [|r rs IH]; simpl; preserve.
Qed.

#[local] Hint Resolve preserves_copy preserves_getitem preserves_setitem
  preserves_getitem_mask preserves_new_frame preserves_getitem_columns
  preserves_frames_at : heap.

Lemma preserves_concat h0 frames :
  preserves h0 (Pandas.concat frames) (fresh h0).
Proof. unfold Pandas.concat. preserve. Qed.

Lemma preserves_iterrows h0 df :
  preserves h0 (Pandas.iterrows df) (fun _ => True).
Proof. unfold Pandas.iterrows. preserve. Qed.

#[local] Hint Resolve preserves_concat preserves_iterrows : heap.

(** *** Drawing, saving and printing leave the heap alone *)

Lemma keeps_heap_bind {A B} (m : M A) (k : A -> M B) :
  keeps_heap m -> (forall a, keeps_heap (k a)) -> keeps_heap (bind m k).
Proof.
  intros Hm Hk w. rewrite bind_run. specialize (Hm w).
  destruct (m w) as [[a|e] w']; simpl in *; [| exact Hm].
  now rewrite Hk.
Qed.

Lemma keeps_heap_ret {A} (a : A) : keeps_heap (ret a).
Proof. intro w. reflexivity. Qed.

Lemma keeps_heap_modify (f : World -> World) :
  (forall w, heap (f w) = heap w) -> keeps_heap (modify f).
Proof. intros H w. simpl. apply H. Qed.

Lemma keeps_heap_open_figure size : keeps_heap (Pyplot.open_figure size).
Proof. intro w. reflexivity. Qed.

Lemma keeps_heap_gcf : keeps_heap Pyplot.gcf.
Proof. intro w. unfold Pyplot.gcf. now destruct (figures w). Qed.

Lemma keeps_heap_ax_call ax d : keeps_heap (Pyplot.ax_call ax d).
Proof. now apply keeps_heap_modify. Qed.

Lemma keeps_heap_show : keeps_heap Pyplot.show.
Proof. now apply keeps_heap_modify. Qed.

Lemma keeps_heap_close : keeps_heap Pyplot.close.
Proof. now apply keeps_heap_modify. Qed.

Lemma keeps_heap_lift {A} (r : result A) : keeps_heap (lift r).
Proof. intro w. reflexivity. Qed.

Lemma keeps_heap_makedirs path : keeps_heap (Os.makedirs path).
Proof.
  intro w. unfold Os.makedirs.
  destruct (Pandas.mem path (dirs w)); [reflexivity |].
  now destruct (_ && _).
Qed.

Lemma keeps_heap_print s : keeps_heap (Builtins.print s).
Proof. now apply keeps_heap_modify. Qed.

Create HintDb drawing.
#[local] Hint Resolve keeps_heap_ret keeps_heap_lift keeps_heap_open_figure
  keeps_heap_gcf keeps_heap_ax_call keeps_heap_show keeps_heap_close
  keeps_heap_makedirs keeps_heap_print : drawing.

Ltac keep_heap :=
  repeat first [ solve [eauto with drawing]
               | apply keeps_heap_bind; [| intros] ];
  eauto with drawing.

Lemma keeps_heap_subplots size : keeps_heap (Pyplot.subplots size).
Proof.
  unfold Pyplot.subplots. destruct (Pyplot.drawable size); keep_heap.
Qed.

Lemma keeps_heap_plt_call d : keeps_heap (Pyplot.plt_call d).
Proof.
  unfold Pyplot.plt_call. apply keeps_heap_bind; [auto with drawing |].
  intro f. destruct d; try destruct (Pyplot.renders f); auto with drawing.
Qed.

Lemma keeps_heap_plot ax x y fmt label :
  keeps_heap (Pyplot.plot ax x y fmt label).
Proof.
  unfold Pyplot.plot. destruct (Pyplot.plottable _ _); auto with drawing.
Qed.

Lemma keeps_heap_axvline ax x label : keeps_heap (Pyplot.axvline ax x label).
Proof. unfold Pyplot.axvline. destruct x; auto with drawing. Qed.

Lemma keeps_heap_barh ax y width color :
  keeps_heap (Pyplot.barh ax y width color).
Proof.
  unfold Pyplot.barh. destruct (Pyplot.barrable _ _); auto with drawing.
Qed.

Lemma keeps_heap_savefig path dpi bbox :
  keeps_heap (Pyplot.savefig path dpi bbox).
Proof.
  unfold Pyplot.savefig. apply keeps_heap_bind; [auto with drawing |].
  intros f w. destruct (_ && _); [| reflexivity].
  now destruct (Os.is_dir _ _).
Qed.

#[local] Hint Resolve keeps_heap_subplots keeps_heap_plt_call keeps_heap_plot
  keeps_heap_axvline keeps_heap_barh keeps_heap_savefig : drawing.

Lemma keeps_heap_save_fig self filename :
  keeps_heap (Visualizer._save_fig self filename).
Proof. unfold Visualizer._save_fig. keep_heap. Qed.

Lemma keeps_heap_show_or_close self :
  keeps_heap (Visualizer.show_or_close self).
Proof.
  unfold Visualizer.show_or_close. destruct (Visualizer.show_plots self);
    auto with drawing.
Qed.

#[local] Hint Resolve keeps_heap_save_fig keeps_heap_show_or_close : drawing.
#[local] Hint Extern 2 (preserves _ _ _) =>
  apply preserves_keeps_heap; solve [auto with drawing] : heap.

(** *** The methods of the visualizer *)

Lemma preserves_add_quarter_date h0 self df :
  preserves h0 (Visualizer.add_quarter_date self df) (fresh h0).
Proof. unfold Visualizer.add_quarter_date. preserve. Qed.

#[local] Hint Resolve preserves_add_quarter_date : heap.

Lemma preserves_setitem_aligned h0 align df name series :
  fresh h0 df ->
  preserves h0 (Visualizer.setitem_aligned align df name series)
            (fun _ => True).
Proof. intro H. unfold Visualizer.setitem_aligned. preserve. Qed.

#[local] Hint Resolve preserves_setitem_aligned : heap.

Lemma preserves_plot_actual_vs_predicted
    h0 align self test_df predictions model_name year historical_df
    hist_years :
  preserves h0
    (Visualizer.plot_actual_vs_predicted align self test_df predictions
       model_name year historical_df hist_years)
    (fun _ => True).
Proof. unfold Visualizer.plot_actual_vs_predicted. preserve. Qed.

Lemma preserves_plot_forecast
    h0 self forecast_df historical_df forecast_year model_name
    hist_start_year :
  preserves h0
    (Visualizer.plot_forecast self forecast_df historical_df forecast_year
       model_name hist_start_year)
    (fun _ => True).
Proof. unfold Visualizer.plot_forecast. preserve. Qed.

Lemma preserves_plot_feature_importance h0 self importance_df title :
  preserves h0 (Visualizer.plot_feature_importance self importance_df title)
            (fun _ => True).
Proof. unfold Visualizer.plot_feature_importance. preserve. Qed.

Lemma preserves_for_each {A} h0 (l : list A) (body : A -> M unit) :
  (forall a, preserves h0 (body a) (fun _ => True)) ->
  preserves h0 (for_each l body) (fun _ => True).
Proof.
  intro H. induction l as [|a l IH]; simpl; preserve.
Qed.

Lemma preserves_print_feature_importance h0 self importance_df title :
  preserves h0 (Visualizer.print_feature_importance self importance_df title)
            (fun _ => True).
Proof.
  unfold Visualizer.print_feature_importance. preserve.
  apply preserves_for_each. intro row. preserve.
Qed.

Lemma preserves_unchanged {A} (m : M A) G w :
  preserves (heap w) m G -> Spec.unchanged w (snd (m w)).
Proof.
  intro H. unfold Spec.unchanged.
  assert (kept (heap w) w) as Hw by apply firstn_all.
  specialize (H w Hw). destruct (m w) as [[a|e] w']; simpl;
    [apply H | exact H].
Qed.

(** ** What each operation does, as an equation *)

Lemma nth_error_last {A} (l : list A) (x : A) :
  nth_error (l ++ [x]) (length l) = Some x.
Proof. rewrite nth_error_app2, Nat.sub_diag by lia. reflexivity. Qed.

Lemma nth_error_old {A} (l t : list A) (i : nat) (x : A) :
  nth_error l i = Some x -> nth_error (l ++ t) i = Some x.
Proof.
  intro H. rewrite nth_error_app1; [exact H |].
  apply nth_error_Some. congruence.
Qed.

Lemma update_last {A} (l : list A) (x y : A) :
  update (length l) y (l ++ [x]) = l ++ [y].
Proof. induction l as [|a l IH]; simpl; [reflexivity | now rewrite IH]. Qed.

Lemma copy_run df w :
  Pandas.copy df w
  = match nth_error (heap w) df with
    | Some (ODataFrame d) =>
        (Ok (length (heap w)), with_heap (heap w ++ [ODataFrame d]) w)
    | _ => (Raise Unsupported, w)
    end.
Proof.
  unfold Pandas.copy, Pandas.frame_at. rewrite bind_run.
  destruct (nth_error (heap w) df) as [[d|s]|]; reflexivity.
Qed.

Lemma getitem_run df name w :
  Pandas.getitem df name w
  = match nth_error (heap w) df with
    | Some (ODataFrame d) => (Pandas.column d name, w)
    | _ => (Raise Unsupported, w)
    end.
Proof.
  unfold Pandas.getitem, Pandas.frame_at. rewrite bind_run.
  destruct (nth_error (heap w) df) as [[d|s]|]; reflexivity.
Qed.

Lemma setitem_run df name vs w :
  Pandas.setitem df name vs w
  = match nth_error (heap w) df with
    | Some (ODataFrame d) =>
        (Ok tt,
         with_heap
           (update df (ODataFrame (Pandas.set_column name vs d)) (heap w)) w)
    | _ => (Raise Unsupported, w)
    end.
Proof.
  unfold Pandas.setitem, Pandas.frame_at. rewrite bind_run.
  destruct (nth_error (heap w) df) as [[d|s]|]; reflexivity.
Qed.

Lemma getitem_mask_run df mask w :
  Pandas.getitem_mask df mask w
  = match nth_error (heap w) df with
    | Some (ODataFrame d) =>
        (Ok (length (heap w)),
         with_heap (heap w ++ [ODataFrame (Pandas.filter_rows mask d)]) w)
    | _ => (Raise Unsupported, w)
    end.
Proof.
  unfold Pandas.getitem_mask, Pandas.frame_at. rewrite bind_run.
  destruct (nth_error (heap w) df) as [[d|s]|]; reflexivity.
Qed.

(** [add_quarter_date] copies the frame and gives the copy the column
    [date]; when the quarters cannot be read the copy is there all the same,
    without the column. *)
Lemma add_quarter_date_run self df w :
  Visualizer.add_quarter_date self df w
  = match nth_error (heap w) df with
    | Some (ODataFrame d) =>
        match lookup "year_quarter" (df_columns d) with
        | Some cells =>
            match Spec.quarter_dates cells with
            | Ok dates =>
                (Ok (length (heap w)),
                 with_heap
                   (heap w ++ [ODataFrame (Pandas.set_column "date" dates d)])
                   w)
            | Raise e => (Raise e, with_heap (heap w ++ [ODataFrame d]) w)
            end
        | None =>
            (Raise (KeyError "year_quarter"),
             with_heap (heap w ++ [ODataFrame d]) w)
        end
    | _ => (Raise Unsupported, w)
    end.
Proof.
  unfold Visualizer.add_quarter_date. rewrite bind_run, copy_run.
  destruct (nth_error (heap w) df) as [[d|s]|]; try reflexivity.
  rewrite bind_run, getitem_run. simpl heap. rewrite nth_error_last.
  unfold Pandas.column.
  destruct (lookup "year_quarter" (df_columns d)) as [cells|];
    [| reflexivity].
  rewrite bind_run. unfold lift at 1.
  unfold Spec.quarter_dates, Pandas.PeriodIndex. simpl s_values.
  destruct (Pandas.periods_of cells) as [ps|e]; [| reflexivity].
  rewrite bind_run. unfold lift at 1.
  destruct (Pandas.to_timestamp ps) as [dates|e]; [| reflexivity].
  rewrite bind_run, setitem_run. simpl heap. rewrite nth_error_last.
  rewrite update_last. reflexivity.
Qed.

(** C8: no method of the visualizer changes an object that was in the heap
    when it was called, the frames and the series it was given among them,
    whether it returns or raises; what [add_quarter_date] returns is a new
    object, the copy with the column [date]. *)
Theorem visualizer_leaves_its_inputs_unchanged
    (align : DataFrame -> string -> Series -> result DataFrame)
    (self : Visualizer.t) (w : World) :
  (forall df, Spec.unchanged w (snd (Visualizer.add_quarter_date self df w)))
  /\ (forall test_df predictions model_name year historical_df hist_years,
        Spec.unchanged w
          (snd (Visualizer.plot_actual_vs_predicted align self test_df
                  predictions model_name year historical_df hist_years w)))
  /\ (forall forecast_df historical_df forecast_year model_name
             hist_start_year,
        Spec.unchanged w
          (snd (Visualizer.plot_forecast self forecast_df historical_df
                  forecast_year model_name hist_start_year w)))
  /\ (forall importance_df title,
        Spec.unchanged w
          (snd (Visualizer.plot_feature_importance self importance_df
                  title w)))
  /\ (forall importance_df title,
        Spec.unchanged w
          (snd (Visualizer.print_feature_importance self importance_df
                  title w)))
  /\ (forall df r w',
        Visualizer.add_quarter_date self df w = (Ok r, w') ->
        nth_error (heap w) r = None
        /\ exists d dates,
             nth_error (heap w) df = Some (ODataFrame d)
             /\ nth_error (heap w') df = Some (ODataFrame d)
             /\ nth_error (heap w') r
                = Some (ODataFrame (Pandas.set_column "date" dates d))).
Proof.
  repeat apply conj; intros.
  - eapply preserves_unchanged, preserves_add_quarter_date.
  - eapply preserves_unchanged, preserves_plot_actual_vs_predicted.
  - eapply preserves_unchanged, preserves_plot_forecast.
  - eapply preserves_unchanged, preserves_plot_feature_importance.
  - eapply preserves_unchanged, preserves_print_feature_importance.
  - rewrite add_quarter_date_run in H.
    destruct (nth_error (heap w) df) as [[d|s]|] eqn:Hd; try discriminate.
    destruct (lookup "year_quarter" (df_columns d)); try discriminate.
    destruct (Spec.quarter_dates l) as [dates|e]; try discriminate.
    inversion H; subst; clear H. split.
    + apply nth_error_None. lia.
    + exists d, dates. simpl heap. repeat split.
      * now apply nth_error_old.
      * apply nth_error_last.
Qed.

(** ** Columns, masks and loops *)

Lemma lookup_assign_same {A} (k : string) (a : A) (l : list (string * A)) :
  lookup k (assign k a l) = Some a.
Proof.
  induction l as [|[k' a'] l IH]; simpl.
  - now rewrite String.eqb_refl.
  - destruct (String.eqb k k') eqn:E; simpl.
    + now rewrite String.eqb_refl.
    + now rewrite E.
Qed.

Lemma lookup_assign_other {A} (k k' : string) (a : A)
    (l : list (string * A)) :
  String.eqb k k' = false -> lookup k (assign k' a l) = lookup k l.
Proof.
  intro N. induction l as [|[k'' a''] l IH]; simpl.
  - now rewrite N.
  - destruct (String.eqb k' k'') eqn:E; simpl.
    + apply String.eqb_eq in E. subst k''. now rewrite N.
    + now rewrite IH.
Qed.

Lemma lookup_filter_rows (k : string) (mask : list bool) (d : DataFrame) :
  lookup k (df_columns (Pandas.filter_rows mask d))
  = option_map (Pandas.select mask) (lookup k (df_columns d)).
Proof.
  unfold Pandas.filter_rows. simpl.
  induction (df_columns d) as [|[k' vs] l IH]; simpl; [reflexivity |].
  now destruct (String.eqb k k').
Qed.

Lemma traverse_length {A B} (f : A -> result B) (l : list A) (l' : list B) :
  traverse f l = Ok l' -> length l' = length l.
Proof.
  revert l'. induction l as [|a l IH]; simpl; intros l' H.
  - now inversion H.
  - destruct (f a) as [b|e]; [| discriminate].
    destruct (traverse f l) as [bs|e]; [| discriminate].
    inversion H; subst. simpl. f_equal. now apply IH.
Qed.

Lemma periods_of_length cells ps :
  Pandas.periods_of cells = Ok ps -> length ps = length cells.
Proof.
  unfold Pandas.periods_of. destruct cells as [|c cells].
  - intro H. now inversion H.
  - destruct (existsb _ _); [apply traverse_length | discriminate].
Qed.

Lemma quarter_dates_length cells dates :
  Spec.quarter_dates cells = Ok dates -> length dates = length cells.
Proof.
  unfold Spec.quarter_dates, Pandas.to_timestamp.
  destruct (Pandas.periods_of cells) as [ps|e] eqn:E; [| discriminate].
  intro H. apply traverse_length in H. apply periods_of_length in E.
  congruence.
Qed.

(** The start of a quarter is a timestamp, and a missing quarter gives a
    missing timestamp, so a column of quarter starts has a minimum (or
    none, when it has no timestamp). *)
Lemma min_timestamp_quarter_starts ps dates acc :
  Pandas.to_timestamp ps = Ok dates ->
  exists t, Pandas.min_timestamp acc dates = Ok t.
Proof.
  unfold Pandas.to_timestamp. revert dates acc.
  induction ps as [|p ps IH]; simpl; intros dates acc H.
  - inversion H. simpl. eauto.
  - destruct p as [p|]; simpl in H.
    + unfold Pandas.period_start at 1 in H.
      destruct (Pandas.timestamp_in_bounds _); [| discriminate].
      destruct (traverse Pandas.timestamp_of ps) as [ds|e];
        [| discriminate].
      inversion H; subst. simpl. now apply IH.
    + destruct (traverse Pandas.timestamp_of ps) as [ds|e];
        [| discriminate].
      inversion H; subst. simpl. now apply IH.
Qed.

Lemma min_quarter_dates cells dates idx :
  Spec.quarter_dates cells = Ok dates ->
  exists v, Pandas.min (mkSeries idx dates) = Ok v.
Proof.
  unfold Spec.quarter_dates, Pandas.min. simpl.
  destruct (Pandas.periods_of cells) as [ps|e]; [| discriminate].
  intro H. destruct (min_timestamp_quarter_starts ps dates None H) as [t Ht].
  rewrite Ht. destruct t; eauto.
Qed.

Lemma select_nil_of_same_length {A B} (mask : list bool)
    (l : list A) (l' : list B) :
  length l = length l' -> Pandas.select mask l = [] ->
  Pandas.select mask l' = [].
Proof.
  revert l l'. induction mask as [|b mask IH]; intros l l' Hlen H.
  - reflexivity.
  - destruct l as [|a l]; destruct l' as [|a' l']; simpl in *;
      try reflexivity; try discriminate.
    destruct b; [discriminate |]. eapply IH; [| exact H]. lia.
Qed.

Lemma getitem_columns_run df names w :
  Pandas.getitem_columns df names w
  = match nth_error (heap w) df with
    | Some (ODataFrame d) =>
        match traverse (Pandas.pick d) names with
        | Ok cols =>
            (Ok (length (heap w)),
             with_heap
               (heap w ++ [ODataFrame (mkDataFrame (df_index d) cols)]) w)
        | Raise e => (Raise e, w)
        end
    | _ => (Raise Unsupported, w)
    end.
Proof.
  unfold Pandas.getitem_columns, Pandas.frame_at. rewrite bind_run.
  destruct (nth_error (heap w) df) as [[d|s]|]; reflexivity.
Qed.


(** *** The figure on top of the stack *)

Lemma next_num_bounds figs :
  Forall (fun f => (fig_num f < Pyplot.next_num figs)%nat) figs.
Proof.
  unfold Pyplot.next_num.
  induction figs as [|f figs IH]; constructor; simpl.
  - lia.
  - eapply Forall_impl; [| exact IH]. simpl. intros g Hg. lia.
Qed.

Lemma draw_on_others n d figs :
  Forall (fun f => (fig_num f < n)%nat) figs ->
  map (Pyplot.draw_on n d) figs = figs.
Proof.
  induction 1 as [|f figs Hf _ IH]; simpl; [reflexivity |].
  rewrite IH. unfold Pyplot.draw_on.
  destruct (Nat.eqb_spec (fig_num f) n); [lia | reflexivity].
Qed.

Lemma subplots_run size w :
  Pyplot.drawable size = true ->
  Pyplot.subplots size w
  = (Ok (Pyplot.next_num (figures w)),
     with_figures
       (mkFigure (Pyplot.next_num (figures w)) (Some size) [] :: figures w)
       w).
Proof. intro H. unfold Pyplot.subplots. now rewrite H. Qed.

Lemma subplots_stops size w :
  Pyplot.drawable size = false ->
  Pyplot.subplots size w = (Raise Unsupported, w).
Proof. intro H. unfold Pyplot.subplots. now rewrite H. Qed.


Lemma ax_call_top figs size drawn d w :
  figures w = mkFigure (Pyplot.next_num figs) size drawn :: figs ->
  Pyplot.ax_call (Pyplot.next_num figs) d w
  = (Ok tt,
     with_figures
       (mkFigure (Pyplot.next_num figs) size (drawn ++ [d]) :: figs) w).
Proof.
  intro H. unfold Pyplot.ax_call, modify. rewrite H. simpl map.
  rewrite draw_on_others by apply next_num_bounds.
  unfold Pyplot.draw_on. simpl fig_num. now rewrite Nat.eqb_refl.
Qed.

Lemma plt_call_top figs size drawn d w :
  figures w = mkFigure (Pyplot.next_num figs) size drawn :: figs ->
  Pyplot.plt_call d w
  = if match d with
       | TightLayout =>
           Pyplot.renders (mkFigure (Pyplot.next_num figs) size drawn)
       | _ => true
       end
    then (Ok tt,
          with_figures
            (mkFigure (Pyplot.next_num figs) size (drawn ++ [d]) :: figs) w)
    else (Raise Unsupported, w).
Proof.
  intro H. unfold Pyplot.plt_call, Pyplot.gcf. rewrite bind_run, H.
  simpl fig_num.
  destruct d; try (now apply ax_call_top).
  destruct (Pyplot.renders _); [now apply ax_call_top | reflexivity].
Qed.

Lemma makedirs_run path w :
  Os.makedirs path w
  = (fst (Os.makedirs path w), with_dirs (dirs (snd (Os.makedirs path w))) w).
Proof.
  unfold Os.makedirs. destruct w as [H F S D Fi O]. cbn [dirs].
  destruct (Pandas.mem path D); [reflexivity |].
  now destruct (_ && _).
Qed.

Lemma savefig_top path dpi bbox f figs w :
  figures w = f :: figs ->
  Pyplot.savefig path dpi bbox w
  = if Pyplot.is_png path && Pyplot.renders f && Os.clean path
       && negb (Pyplot.blocked path w)
    then
      if Os.is_dir (Os.dirname path) w
      then (Ok tt,
            with_files (assign path (mkImage dpi bbox f) (files w)) w)
      else (Raise FileNotFoundError, w)
    else (Raise Unsupported, w).
Proof.
  intro H. unfold Pyplot.savefig, Pyplot.gcf. rewrite bind_run, H.
  reflexivity.
Qed.

Lemma show_or_close_run self w :
  Visualizer.show_or_close self w
  = (Ok tt,
     if Visualizer.show_plots self
     then with_shown (shown w ++ map fig_num (figures w)) w
     else with_figures (tl (figures w)) w).
Proof.
  unfold Visualizer.show_or_close.
  destruct (Visualizer.show_plots self); reflexivity.
Qed.

Lemma pick_found d name cells :
  lookup name (df_columns d) = Some cells ->
  Pandas.pick d name = Ok (name, cells).
Proof. intro H. unfold Pandas.pick. now rewrite H. Qed.


Lemma lookup_set_column_same name cells d :
  lookup name (df_columns (Pandas.set_column name cells d)) = Some cells.
Proof. apply lookup_assign_same. Qed.

Lemma lookup_set_column_other name name' cells d :
  String.eqb name name' = false ->
  lookup name (df_columns (Pandas.set_column name' cells d))
  = lookup name (df_columns d).
Proof. apply lookup_assign_other. Qed.


Ltac heap_lookup :=
  first [ apply nth_error_last
        | eassumption
        | apply nth_error_old; heap_lookup ].

Ltac world_simpl :=
  cbv beta iota delta [with_heap with_figures with_files with_dirs with_shown
                       with_stdout heap figures files dirs shown stdout].

(** ** The figure a plotting method opens *)

Lemma keeps_figures_bind {A B} (m : M A) (k : A -> M B) :
  keeps_figures m -> (forall a, keeps_figures (k a)) ->
  keeps_figures (bind m k).
Proof.
  intros Hm Hk w. rewrite bind_run. specialize (Hm w).
  destruct (m w) as [[a|e] w']; simpl in *; [| exact Hm].
  now rewrite Hk.
Qed.

Lemma keeps_figures_ret {A} (a : A) : keeps_figures (ret a).
Proof. intro w. reflexivity. Qed.

Lemma keeps_figures_lift {A} (r : result A) : keeps_figures (lift r).
Proof. intro w. reflexivity. Qed.

Lemma keeps_figures_alloc o : keeps_figures (Pandas.alloc o).
Proof. intro w. reflexivity. Qed.

Lemma keeps_figures_frame_at r : keeps_figures (Pandas.frame_at r).
Proof.
  intro w. unfold Pandas.frame_at.
  now destruct (nth_error (heap w) r) as [[d|s]|].
Qed.

Lemma keeps_figures_series_at r : keeps_figures (Pandas.series_at r).
Proof.
  intro w. unfold Pandas.series_at.
  now destruct (nth_error (heap w) r) as [[d|s]|].
Qed.

Lemma keeps_figures_store r o : keeps_figures (Pandas.store r o).
Proof. intro w. reflexivity. Qed.

Lemma keeps_figures_makedirs path : keeps_figures (Os.makedirs path).
Proof. intro w. now rewrite makedirs_run. Qed.

Create HintDb quiet.
#[local] Hint Resolve keeps_figures_ret keeps_figures_lift
  keeps_figures_alloc keeps_figures_frame_at keeps_figures_series_at
  keeps_figures_store keeps_figures_makedirs : quiet.

Ltac keep_figures :=
  repeat first [ solve [eauto with quiet]
               | apply keeps_figures_bind; [| intros] ];
  eauto with quiet.

Lemma keeps_figures_copy df : keeps_figures (Pandas.copy df).
Proof. unfold Pandas.copy. keep_figures. Qed.

Lemma keeps_figures_getitem df name : keeps_figures (Pandas.getitem df name).
Proof. unfold Pandas.getitem. keep_figures. Qed.

Lemma keeps_figures_setitem df name vs :
  keeps_figures (Pandas.setitem df name vs).
Proof. unfold Pandas.setitem. keep_figures. Qed.

Lemma keeps_figures_getitem_mask df mask :
  keeps_figures (Pandas.getitem_mask df mask).
Proof. unfold Pandas.getitem_mask. keep_figures. Qed.

Lemma keeps_figures_new_frame cols : keeps_figures (Pandas.new_frame cols).
Proof. unfold Pandas.new_frame. keep_figures. Qed.

Lemma keeps_figures_getitem_columns df names :
  keeps_figures (Pandas.getitem_columns df names).
Proof. unfold Pandas.getitem_columns. keep_figures. Qed.

Lemma keeps_figures_frames_at rs : keeps_figures (Pandas.frames_at rs).
Proof. induction rs as [|r rs IH]; simpl; keep_figures. Qed.

#[local] Hint Resolve keeps_figures_copy keeps_figures_getitem
  keeps_figures_setitem keeps_figures_getitem_mask keeps_figures_new_frame
  keeps_figures_getitem_columns keeps_figures_frames_at : quiet.

Lemma keeps_figures_concat frames : keeps_figures (Pandas.concat frames).
Proof. unfold Pandas.concat. keep_figures. Qed.

Lemma keeps_figures_add_quarter_date self df :
  keeps_figures (Visualizer.add_quarter_date self df).
Proof. unfold Visualizer.add_quarter_date. keep_figures. Qed.

Lemma keeps_figures_setitem_aligned align df name series :
  keeps_figures (Visualizer.setitem_aligned align df name series).
Proof. unfold Visualizer.setitem_aligned. keep_figures. Qed.

#[local] Hint Resolve keeps_figures_concat keeps_figures_add_quarter_date
  keeps_figures_setitem_aligned : quiet.

(** What does not touch the figures keeps an assertion on them. *)
Lemma hoare_at_rest {A} figs (m : M A) :
  keeps_figures m ->
  hoare (at_rest figs) m (fun _ => at_rest figs) (at_most_one_more figs).
Proof.
  intros K w Hw. specialize (K w). unfold at_rest, at_most_one_more in *.
  destruct (m w) as [[a|e] w']; simpl in K; rewrite K; auto.
Qed.

Lemma hoare_drawing {A} ax figs (m : M A) :
  keeps_figures m ->
  hoare (drawing ax figs) m (fun _ => drawing ax figs)
        (at_most_one_more figs).
Proof.
  intros K w [f [Hf Hax]]. specialize (K w).
  unfold drawing, at_most_one_more.
  destruct (m w) as [[a|e] w']; simpl in K; rewrite K; eauto.
Qed.

Lemma hoare_subplots figs size :
  hoare (at_rest figs) (Pyplot.subplots size) (fun ax => drawing ax figs)
        (at_most_one_more figs).
Proof.
  intros w Hw. unfold at_rest in Hw.
  destruct (Pyplot.drawable size) eqn:E.
  - rewrite (subplots_run _ _ E), Hw. eexists. simpl. repeat split.
  - rewrite (subplots_stops _ _ E). now left.
Qed.

Lemma hoare_ax_call ax figs d :
  hoare (drawing ax figs) (Pyplot.ax_call ax d) (fun _ => drawing ax figs)
        (at_most_one_more figs).
Proof.
  intros w [[n size drawn] [Hf [Hn Hax]]]. simpl in Hn. subst n ax.
  rewrite (ax_call_top _ _ _ _ _ Hf).
  eexists. simpl. repeat split.
Qed.

Lemma hoare_plot ax figs x y fmt label :
  hoare (drawing ax figs) (Pyplot.plot ax x y fmt label)
        (fun _ => drawing ax figs) (at_most_one_more figs).
Proof.
  unfold Pyplot.plot. destruct (Pyplot.plottable _ _);
    [apply hoare_ax_call | apply hoare_drawing; auto with quiet].
Qed.

Lemma hoare_axvline ax figs x label :
  hoare (drawing ax figs) (Pyplot.axvline ax x label)
        (fun _ => drawing ax figs) (at_most_one_more figs).
Proof.
  unfold Pyplot.axvline. destruct x;
    solve [apply hoare_ax_call | apply hoare_drawing; auto with quiet].
Qed.

Lemma hoare_barh ax figs y width color :
  hoare (drawing ax figs) (Pyplot.barh ax y width color)
        (fun _ => drawing ax figs) (at_most_one_more figs).
Proof.
  unfold Pyplot.barh. destruct (Pyplot.barrable _ _);
    [apply hoare_ax_call | apply hoare_drawing; auto with quiet].
Qed.

Lemma hoare_plt_call ax figs d :
  hoare (drawing ax figs) (Pyplot.plt_call d) (fun _ => drawing ax figs)
        (at_most_one_more figs).
Proof.
  intros w [[n size drawn] [Hf [Hn Hax]]]. simpl in Hn. subst n ax.
  rewrite (plt_call_top _ _ _ _ _ Hf).
  destruct (match d with TightLayout => _ | _ => true end).
  - eexists. simpl. repeat split.
  - right. eauto.
Qed.

Lemma hoare_save_fig ax figs self filename :
  hoare (drawing ax figs) (Visualizer._save_fig self filename)
        (fun _ => drawing ax figs) (at_most_one_more figs).
Proof.
  intros w [f [Hf Hax]]. unfold Visualizer._save_fig.
  rewrite bind_run, makedirs_run.
  destruct (fst (Os.makedirs _ w)) as [[]|e]; [| right; eauto].
  erewrite savefig_top by exact Hf.
  destruct (_ && _); [| right; eauto].
  destruct (Os.is_dir _ _); [| right; eauto].
  exists f. auto.
Qed.

Lemma hoare_close ax figs self :
  Visualizer.show_plots self = false ->
  hoare (drawing ax figs) (Visualizer.show_or_close self)
        (fun _ => at_rest figs) (at_most_one_more figs).
Proof.
  intros Hs w [f [Hf Hax]]. rewrite show_or_close_run, Hs.
  unfold at_rest. simpl. now rewrite Hf.
Qed.

Lemma hoare_drawing_ret ax figs (a : unit) :
  hoare (drawing ax figs) (ret a) (fun _ => drawing ax figs)
        (at_most_one_more figs).
Proof. intros w Hw. exact Hw. Qed.

Create HintDb figs.
#[local] Hint Resolve hoare_subplots hoare_ax_call hoare_plot hoare_axvline
  hoare_barh hoare_plt_call hoare_save_fig hoare_close hoare_drawing_ret
  : figs.
#[local] Hint Extern 3 (hoare (at_rest _) _ _ _) =>
  apply hoare_at_rest; solve [auto with quiet] : figs.
#[local] Hint Extern 3 (hoare (drawing _ _) _ _ _) =>
  apply hoare_drawing; solve [auto with quiet] : figs.

Ltac figure_step :=
  cbv beta;
  lazymatch goal with
  | |- hoare _ (bind (if ?c then _ else _) _) _ _ =>
      eapply hoare_bind; [destruct c | intros; cbv beta]
  | |- hoare _ (bind (match ?x with _ => _ end) _) _ _ =>
      eapply hoare_bind; [destruct x | intros; cbv beta]
  | |- hoare _ (bind _ _) _ _ =>
      eapply hoare_bind; [solve [eauto with figs] | intros; cbv beta]
  | |- hoare _ _ _ _ => solve [eauto with figs]
  end.

Ltac figure := repeat figure_step; eauto with figs.

Lemma closes_plot_forecast figs self forecast_df historical_df forecast_year
    model_name hist_start_year :
  Visualizer.show_plots self = false ->
  hoare (at_rest figs)
    (Visualizer.plot_forecast self forecast_df historical_df forecast_year
       model_name hist_start_year)
    (fun _ => at_rest figs) (at_most_one_more figs).
Proof. intro Hs. unfold Visualizer.plot_forecast. figure. Qed.

Lemma closes_plot_actual_vs_predicted figs align self test_df predictions
    model_name year historical_df hist_years :
  Visualizer.show_plots self = false ->
  hoare (at_rest figs)
    (Visualizer.plot_actual_vs_predicted align self test_df predictions
       model_name year historical_df hist_years)
    (fun _ => at_rest figs) (at_most_one_more figs).
Proof. intro Hs. unfold Visualizer.plot_actual_vs_predicted. figure. Qed.

Lemma closes_plot_feature_importance figs self importance_df title :
  Visualizer.show_plots self = false ->
  hoare (at_rest figs)
    (Visualizer.plot_feature_importance self importance_df title)
    (fun _ => at_rest figs) (at_most_one_more figs).
Proof. intro Hs. unfold Visualizer.plot_feature_importance. figure. Qed.

Lemma closed_on_return_of_hoare (m : M unit) (w : World) :
  hoare (at_rest (figures w)) m (fun _ => at_rest (figures w))
        (at_most_one_more (figures w)) ->
  Spec.closed_on_return w (m w).
Proof.
  intro H. specialize (H w eq_refl). unfold Spec.closed_on_return.
  destruct (m w) as [[a|e] w']; exact H.
Qed.

(** C9, as the code has it: with [show_plots] false a plotting method that
    returns has closed the figure it opened; one that raises leaves the open
    figures as they were or with the figure it opened on top of them. *)
Theorem plotting_closes_its_figure_on_return
    (align : DataFrame -> string -> Series -> result DataFrame)
    (self : Visualizer.t) (w : World) :
  Visualizer.show_plots self = false ->
  (forall test_df predictions model_name year historical_df hist_years,
     Spec.closed_on_return w
       (Visualizer.plot_actual_vs_predicted align self test_df predictions
          model_name year historical_df hist_years w))
  /\ (forall forecast_df historical_df forecast_year model_name
             hist_start_year,
        Spec.closed_on_return w
          (Visualizer.plot_forecast self forecast_df historical_df
             forecast_year model_name hist_start_year w))
  /\ (forall importance_df title,
        Spec.closed_on_return w
          (Visualizer.plot_feature_importance self importance_df title w)).
Proof.
  intro Hs. repeat apply conj; intros; apply closed_on_return_of_hoare.
  - now apply closes_plot_actual_vs_predicted.
  - now apply closes_plot_forecast.
  - now apply closes_plot_feature_importance.
Qed.

Lemma plotting_closes_on_the_sample :
  Spec.closed_on_return Sample.world
    (Visualizer.plot_actual_vs_predicted Sample.by_position Sample.viz
       Sample.test_year_ref Sample.predictions_ref "rf" 2025
       (Some Sample.history_ref) 2 Sample.world)
  /\ Spec.closed_on_return Sample.world
       (Visualizer.plot_forecast Sample.viz Sample.forecast_ref
          Sample.history_ref 2026 "rf" None Sample.world)
  /\ Spec.closed_on_return Sample.world
       (Visualizer.plot_feature_importance Sample.viz Sample.importance_ref
          "Top 10!" Sample.world).
Proof.
  destruct (plotting_closes_its_figure_on_return Sample.by_position
              Sample.viz Sample.world eq_refl) as [A [F I]].
  repeat apply conj.
  - exact (A Sample.test_year_ref Sample.predictions_ref "rf" 2025
             (Some Sample.history_ref) 2).
  - exact (F Sample.forecast_ref Sample.history_ref 2026 "rf" None).
  - exact (I Sample.importance_ref "Top 10!").
Defined.

(** On the sample the three methods return, so that the figure each has
    opened is closed again. *)
Example plotting_returns_on_the_sample :
  Visualizer.plot_actual_vs_predicted Sample.by_position Sample.viz
    Sample.test_year_ref Sample.predictions_ref "rf" 2025
    (Some Sample.history_ref) 2 Sample.world
  = (Ok tt,
     snd (Visualizer.plot_actual_vs_predicted Sample.by_position Sample.viz
            Sample.test_year_ref Sample.predictions_ref "rf" 2025
            (Some Sample.history_ref) 2 Sample.world))
  /\ fst (Visualizer.plot_forecast Sample.viz Sample.forecast_ref
            Sample.history_ref 2026 "rf" None Sample.world) = Ok tt
  /\ fst (Visualizer.plot_feature_importance Sample.viz
            Sample.importance_ref "Top 10!" Sample.world) = Ok tt.
Proof. vm_compute. repeat split. Qed.

(** C9, as the specification states it, fails: with [show_plots] false, a
    history without the column [casos_est] makes [plot_actual_vs_predicted]
    raise after it has opened its figure, and a frame without the column
    [Feature] does the same to [plot_feature_importance]; the figure stays
    open. *)
Lemma figure_left_open_when_plotting_raises :
  Visualizer.show_plots Sample.viz = false
  /\ figures Sample.world = []
  /\ Visualizer.plot_actual_vs_predicted Sample.by_position Sample.viz
       Sample.test_year_ref Sample.predictions_ref "rf" 2025
       (Some Sample.no_cases_ref) 2 Sample.world
     = (Raise (KeyError "casos_est"),
        with_figures
          [mkFigure 1 (Some (12, 5)) []]
          (with_heap
             (heap Sample.world
              ++ [ODataFrame Sample.test_year;
                  ODataFrame
                    (Pandas.set_column "predicted"
                       (s_values Sample.predictions)
                       (Pandas.set_column "date"
                          (map VTimestamp
                             [1735689600000000000; 1743465600000000000;
                              1751328000000000000; 1759276800000000000])
                          Sample.test_year));
                  ODataFrame Sample.no_cases;
                  ODataFrame
                    (Pandas.set_column "date"
                       [VTimestamp 1727740800000000000] Sample.no_cases);
                  ODataFrame
                    (Pandas.set_column "date"
                       [VTimestamp 1727740800000000000] Sample.no_cases)])
             Sample.world))
  /\ fst (Visualizer.plot_feature_importance Sample.viz Sample.history_ref
            "Top 10!" Sample.world)
     = Raise (KeyError "Feature")
  /\ figures
       (snd (Visualizer.plot_feature_importance Sample.viz
               Sample.history_ref "Top 10!" Sample.world))
     = [mkFigure 1 (Some (10, 6)) []].
Proof. vm_compute. repeat split. Qed.

(** ** The lines of a chart

    Once a method has drawn its lines, whatever it does next leaves them
    first on its figure: the figure is saved with them when the method
    returns and stays open with them when it raises. *)

Lemma hoare_showing {A} ax size lines figs (m : M A) :
  keeps_figures m ->
  hoare (showing ax size lines figs) m
        (fun _ => showing ax size lines figs) (showing ax size lines figs).
Proof.
  intros K w [Hax [more Hf]]. specialize (K w). unfold showing.
  destruct (m w) as [[a|e] w']; simpl in K; rewrite K; eauto.
Qed.

Lemma hoare_showing_ax_call ax size lines figs d :
  hoare (showing ax size lines figs) (Pyplot.ax_call ax d)
        (fun _ => showing ax size lines figs) (showing ax size lines figs).
Proof.
  intros w [Hax [more Hf]]. subst ax.
  rewrite (ax_call_top _ _ _ _ _ Hf).
  split; [reflexivity |]. exists (more ++ [d]). simpl.
  now rewrite app_assoc.
Qed.

Lemma hoare_showing_plot ax size lines figs x y fmt label :
  hoare (showing ax size lines figs) (Pyplot.plot ax x y fmt label)
        (fun _ => showing ax size lines figs) (showing ax size lines figs).
Proof.
  unfold Pyplot.plot. destruct (Pyplot.plottable _ _);
    [apply hoare_showing_ax_call | apply hoare_showing; auto with quiet].
Qed.

Lemma hoare_showing_axvline ax size lines figs x label :
  hoare (showing ax size lines figs) (Pyplot.axvline ax x label)
        (fun _ => showing ax size lines figs) (showing ax size lines figs).
Proof.
  unfold Pyplot.axvline. destruct x;
    solve [apply hoare_showing_ax_call
          | apply hoare_showing; auto with quiet].
Qed.

Lemma hoare_showing_barh ax size lines figs y width color :
  hoare (showing ax size lines figs) (Pyplot.barh ax y width color)
        (fun _ => showing ax size lines figs) (showing ax size lines figs).
Proof.
  unfold Pyplot.barh. destruct (Pyplot.barrable _ _);
    [apply hoare_showing_ax_call | apply hoare_showing; auto with quiet].
Qed.

Lemma hoare_showing_plt_call ax size lines figs d :
  hoare (showing ax size lines figs) (Pyplot.plt_call d)
        (fun _ => showing ax size lines figs) (showing ax size lines figs).
Proof.
  intros w [Hax [more Hf]]. subst ax.
  rewrite (plt_call_top _ _ _ _ _ Hf).
  destruct (match d with TightLayout => _ | _ => true end).
  - split; [reflexivity |]. exists (more ++ [d]). simpl.
    now rewrite app_assoc.
  - split; eauto.
Qed.

Lemma hoare_showing_save_fig ax size lines figs self filename :
  hoare (showing ax size lines figs) (Visualizer._save_fig self filename)
        (fun _ =>
           showing_stored
             (Os.path_join (Visualizer.output_dir self) filename)
             ax size lines figs)
        (showing ax size lines figs).
Proof.
  intros w [Hax [more Hf]]. unfold Visualizer._save_fig.
  rewrite bind_run, makedirs_run.
  destruct (fst (Os.makedirs _ w)) as [[]|e]; [| split; eauto].
  erewrite savefig_top by exact Hf.
  destruct (_ && _); [| split; eauto].
  destruct (Os.is_dir _ _); [| split; eauto].
  split; [split; eauto |]. exists more. apply lookup_assign_same.
Qed.

Lemma hoare_stored_show_or_close path ax size lines figs self :
  hoare (showing_stored path ax size lines figs)
        (Visualizer.show_or_close self)
        (fun _ => stored path ax size lines) (showing ax size lines figs).
Proof.
  intros w [_ [more Hs]]. rewrite show_or_close_run.
  exists more. now destruct (Visualizer.show_plots self).
Qed.

Lemma hoare_showing_ret ax size lines figs (a : unit) :
  hoare (showing ax size lines figs) (ret a)
        (fun _ => showing ax size lines figs) (showing ax size lines figs).
Proof. intros w Hw. exact Hw. Qed.

Create HintDb chart.
#[local] Hint Resolve hoare_showing_ax_call hoare_showing_plot
  hoare_showing_axvline hoare_showing_barh hoare_showing_plt_call
  hoare_showing_save_fig hoare_stored_show_or_close hoare_showing_ret
  : chart.
#[local] Hint Extern 3 (hoare (showing _ _ _ _) _ _ _) =>
  apply hoare_showing; solve [auto with quiet] : chart.

Ltac chart_step :=
  cbv beta;
  lazymatch goal with
  | |- hoare _ (bind (if ?c then _ else _) _) _ _ =>
      eapply hoare_bind; [destruct c | intros; cbv beta]
  | |- hoare _ (bind (match ?x with _ => _ end) _) _ _ =>
      eapply hoare_bind; [destruct x | intros; cbv beta]
  | |- hoare _ (bind _ _) _ _ =>
      eapply hoare_bind; [solve [eauto with chart] | intros; cbv beta]
  | |- hoare _ _ _ _ => solve [eauto with chart]
  end.

Ltac chart := repeat chart_step; eauto with chart.





(** ** [plot_forecast], step by step *)

(** The statements under [# filter historical data] leave a copy of the kept
    rows on top of the heap, or raise as the filter does. *)
Lemma history_block_run hist_plot hsy w hp :
  nth_error (heap w) hist_plot = Some (ODataFrame hp) ->
  (if Visualizer.truthy hsy then
     years <- Pandas.getitem hist_plot "year" ;;
     mask <- lift (Visualizer.series_ge_opt years hsy) ;;
     kept <- Pandas.getitem_mask hist_plot mask ;;
     Pandas.copy kept
   else Pandas.copy hist_plot) w
  = match Spec.kept_rows hsy hp with
    | Ok k =>
        let t := if Visualizer.truthy hsy then [ODataFrame k] else [] in
        (Ok (length (heap w ++ t)),
         with_heap ((heap w ++ t) ++ [ODataFrame k]) w)
    | Raise e => (Raise e, w)
    end.
Proof.
  intros Hh. unfold Spec.kept_rows.
  destruct hsy as [n|]; unfold Visualizer.truthy.
  - destruct (n =? 0) eqn:En; cbv beta iota delta [negb].
    + rewrite copy_run, Hh, app_nil_r. reflexivity.
    + rewrite bind_run, getitem_run, Hh.
      destruct (Pandas.column hp "year") as [years|e]; [| reflexivity].
      rewrite bind_run. unfold lift at 1. simpl Visualizer.series_ge_opt.
      destruct (Pandas.series_ge years n) as [mask|e]; [| reflexivity].
      rewrite bind_run, getitem_mask_run, Hh.
      rewrite copy_run. simpl heap. rewrite nth_error_last.
      reflexivity.
  - rewrite copy_run, Hh, app_nil_r. reflexivity.
Qed.




(** After its lines [plot_forecast] can still raise.  A model name with a
    slash names a directory that is not there: the directories of the
    output are made, the file cannot be written, and the chart stays open
    with all that was drawn.  A forecast without rows has no earliest date:
    the marker of the forecast start cannot be placed, and the chart stays
    open with its two lines, the forecast line being the last historical
    point alone. *)
Example plot_forecast_raises_after_its_lines :
  let out :=
    Visualizer.plot_forecast Sample.viz Sample.forecast_ref
      Sample.history_ref 2026 "a/b" None Sample.world in
  let no_forecast :=
    mkDataFrame [] [("year_quarter", []); ("predicted_casos_est", [])] in
  let out' :=
    Visualizer.plot_forecast Sample.viz 7%nat Sample.history_ref 2026 "rf"
      None
      (with_heap (heap Sample.world ++ [ODataFrame no_forecast])
         Sample.world) in
  fst out = Raise FileNotFoundError
  /\ files (snd out) = []
  /\ dirs (snd out) = ["outputs"; "outputs/plots"]
  /\ map (fun f => length (fig_drawn f)) (figures (snd out)) = [10%nat]
  /\ fst out' = Raise ConversionError
  /\ files (snd out') = []
  /\ dirs (snd out') = []
  /\ map fig_drawn (figures (snd out'))
     = [[Plot (map VTimestamp
                 [1688169600000000000; 1696118400000000000;
                  1704067200000000000; 1711929600000000000;
                  1719792000000000000])
              [VFloat 10; VFloat 20; VFloat 30; VFloat 40; VFloat 50]
              "blue" "Historical";
         Plot [VTimestamp 1719792000000000000] [VFloat 50] "r--o"
              "Forecast 2026"]].
Proof. vm_compute. repeat split. Qed.




(** ** [plot_forecast] on a history without rows *)

Lemma rectangular_column d name cells :
  Spec.rectangular d -> lookup name (df_columns d) = Some cells ->
  length cells = length (df_index d).
Proof.
  unfold Spec.rectangular. generalize (df_index d) as idx.
  induction (df_columns d) as [|[k vs] cols IH]; simpl; intros idx R H.
  - discriminate.
  - inversion R as [|? ? Hk Hcols]; subst.
    destruct (String.eqb name k).
    + inversion H; subst. exact Hk.
    + now apply IH.
Qed.

Lemma length_zero_nil {A} (l : list A) : length l = 0%nat -> l = [].
Proof. destruct l; [reflexivity | discriminate]. Qed.

Lemma kept_date_column_empty hsy hd dates k kd :
  length dates = length (df_index hd) ->
  (forall k', Spec.kept_rows hsy hd = Ok k' -> df_index k' = []) ->
  Spec.kept_rows hsy (Pandas.set_column "date" dates hd) = Ok k ->
  lookup "date" (df_columns k) = Some kd ->
  kd = [].
Proof.
  intros Hlen Hall Hk Hkd.
  assert (df_index hd = [] -> k = Pandas.set_column "date" dates hd ->
          kd = []) as Whole.
  { intros Hnil ->. rewrite lookup_set_column_same in Hkd.
    inversion Hkd; subst. apply length_zero_nil. now rewrite Hlen, Hnil. }
  unfold Spec.kept_rows in *.
  destruct hsy as [n|].
  - destruct (n =? 0) eqn:En.
    + apply Whole; [now apply Hall | now inversion Hk].
    + unfold Pandas.column in *.
      rewrite lookup_set_column_other in Hk by reflexivity.
      destruct (lookup "year" (df_columns hd)) as [years|]; [| discriminate].
      simpl df_index in Hk.
      destruct (Pandas.series_ge _ n) as [mask|e]; [| discriminate].
      inversion Hk; subst k.
      rewrite lookup_filter_rows, lookup_set_column_same in Hkd.
      inversion Hkd; subst kd.
      specialize (Hall _ eq_refl). simpl in Hall.
      eapply select_nil_of_same_length; [| exact Hall]. now symmetry.
  - apply Whole; [now apply Hall | now inversion Hk].
Qed.

Lemma plot_forecast_empty_history_run
    self forecast_df historical_df forecast_year model_name hist_start_year
    w hd :
  nth_error (heap w) historical_df = Some (ODataFrame hd) ->
  Spec.rectangular hd ->
  (forall k, Spec.kept_rows hist_start_year hd = Ok k -> df_index k = []) ->
  let (r, w') :=
    Visualizer.plot_forecast self forecast_df historical_df forecast_year
      model_name hist_start_year w in
  r <> Ok tt /\ figures w' = figures w /\ files w' = files w.
Proof.
  intros Hlh Hrect Hempty.
  destruct w as [H F S D Fi O]. simpl heap in Hlh. simpl figures. simpl files.
  unfold Visualizer.plot_forecast.
  rewrite bind_run, copy_run; world_simpl.
  destruct (nth_error H forecast_df) as [[fd|s]|];
    try (repeat split; discriminate).
  world_simpl.
  rewrite bind_run, add_quarter_date_run; world_simpl.
  rewrite nth_error_last.
  destruct (lookup "year_quarter" (df_columns fd)) as [cells_f|];
    [| repeat split; discriminate].
  destruct (Spec.quarter_dates cells_f) as [dates_f|e];
    [| repeat split; discriminate].
  world_simpl.
  rewrite bind_run, copy_run; world_simpl.
  erewrite (nth_error_old _ _ historical_df) by heap_lookup; world_simpl.
  rewrite bind_run, add_quarter_date_run; world_simpl.
  rewrite nth_error_last.
  destruct (lookup "year_quarter" (df_columns hd)) as [cells_h|] eqn:Hyh;
    [| repeat split; discriminate].
  destruct (Spec.quarter_dates cells_h) as [dates_h|e] eqn:Hdh;
    [| repeat split; discriminate].
  world_simpl.
  rewrite bind_run.
  erewrite history_block_run by (world_simpl; apply nth_error_last).
  destruct (Spec.kept_rows hist_start_year
              (Pandas.set_column "date" dates_h hd)) as [k|e] eqn:Hk;
    [| repeat split; discriminate].
  cbv zeta. world_simpl.
  rewrite bind_run, getitem_run; world_simpl.
  rewrite nth_error_last. unfold Pandas.column at 1.
  destruct (lookup "date" (df_columns k)) as [kd|] eqn:Hkd;
    [| repeat split; discriminate].
  assert (kd = []) as ->.
  { eapply kept_date_column_empty; [| exact Hempty | exact Hk | exact Hkd].
    rewrite (quarter_dates_length _ _ Hdh).
    now apply (rectangular_column hd "year_quarter"). }
  world_simpl. rewrite bind_run. unfold lift at 1.
  cbn [Pandas.iloc_last s_values rev].
  repeat split; discriminate.
Qed.

(** C4: when no row of the history is left after the filter on
    [hist_start_year], [plot_forecast] raises; it has not opened a figure
    and has not written a file by then. *)
Theorem plot_forecast_raises_on_empty_history
    self forecast_df historical_df forecast_year model_name hist_start_year
    w hd :
  nth_error (heap w) historical_df = Some (ODataFrame hd) ->
  Spec.rectangular hd ->
  (forall k, Spec.kept_rows hist_start_year hd = Ok k -> df_index k = []) ->
  exists e w',
    Visualizer.plot_forecast self forecast_df historical_df forecast_year
      model_name hist_start_year w = (Raise e, w')
    /\ figures w' = figures w /\ files w' = files w.
Proof.
  intros Hlh Hrect Hempty.
  pose proof (plot_forecast_empty_history_run self forecast_df historical_df
                forecast_year model_name hist_start_year w hd Hlh Hrect
                Hempty) as R.
  destruct (Visualizer.plot_forecast _ _ _ _ _ _ w) as [[[]|e] w'].
  - now destruct R.
  - exists e, w'. split; [reflexivity | apply R].
Qed.

Lemma plot_forecast_raises_on_the_empty_sample :
  exists e w',
    Visualizer.plot_forecast Sample.viz Sample.forecast_ref
      Sample.no_history_ref 2026 "rf" None Sample.world = (Raise e, w')
    /\ figures w' = figures Sample.world /\ files w' = files Sample.world.
Proof.
  apply (plot_forecast_raises_on_empty_history
           Sample.viz Sample.forecast_ref Sample.no_history_ref 2026 "rf"
           None Sample.world Sample.no_history).
  - reflexivity.
  - unfold Spec.rectangular. simpl. repeat constructor.
  - simpl. intros k E. inversion E. reflexivity.
Defined.

(** ** [plot_actual_vs_predicted], step by step *)

















(** ** The dates of the quarters *)

(** Within a year the quarters start one after the other. *)
Lemma quarter_starts_increase (y q q' : Z) :
  1 <= q -> q < q' -> q' <= 4 ->
  Pandas.midnight y (Pandas.first_month q) 1
  < Pandas.midnight y (Pandas.first_month q') 1.
Proof.
  intros H1 H2 H3.
  assert (forall m m', (m = 1 \/ m = 4 \/ m = 7 \/ m = 10) ->
                       (m' = 4 \/ m' = 7 \/ m' = 10) -> m < m' ->
                       Pandas.days_from_civil y m 1
                       < Pandas.days_from_civil y m' 1) as D.
  { intros m m' Hm Hm' Hlt. unfold Pandas.days_from_civil.
    destruct Hm as [-> | [-> | [-> | ->]]];
      destruct Hm' as [-> | [-> | ->]]; try lia;
      cbn [Z.leb Z.compare Pos.compare Pos.compare_cont];
      change ((1 + 9) mod 12) with 10; change ((4 + 9) mod 12) with 1;
      change ((7 + 9) mod 12) with 4; change ((10 + 9) mod 12) with 7;
      change ((153 * 10 + 2) / 5) with 306; change ((153 * 1 + 2) / 5) with 31;
      change ((153 * 4 + 2) / 5) with 122; change ((153 * 7 + 2) / 5) with 214;
      Z.div_mod_to_equations; lia. }
  unfold Pandas.midnight, Pandas.ns_per_day, Pandas.first_month.
  apply Z.mul_lt_mono_pos_r; [lia |].
  apply D; lia.
Qed.

(** C7: on a frame whose column [year_quarter] holds 2025Q1 to 2025Q4,
    [add_quarter_date] returns a copy whose column [date] holds the midnights
    that start the four quarters, 1 January, 1 April, 1 July and 1 October
    2025, each later than the one before. *)
Theorem add_quarter_date_of_2025_is_increasing self df w d :
  nth_error (heap w) df = Some (ODataFrame d) ->
  lookup "year_quarter" (df_columns d)
  = Some [VStr "2025Q1"; VStr "2025Q2"; VStr "2025Q3"; VStr "2025Q4"] ->
  let starts := [Pandas.midnight 2025 1 1; Pandas.midnight 2025 4 1;
                 Pandas.midnight 2025 7 1; Pandas.midnight 2025 10 1] in
  (exists r w' d',
     Visualizer.add_quarter_date self df w = (Ok r, w')
     /\ nth_error (heap w') r = Some (ODataFrame d')
     /\ lookup "date" (df_columns d') = Some (map VTimestamp starts))
  /\ StronglySorted Z.lt starts.
Proof.
  intros Hd Hq starts. split.
  - rewrite add_quarter_date_run, Hd, Hq.
    change (Spec.quarter_dates
              [VStr "2025Q1"; VStr "2025Q2"; VStr "2025Q3"; VStr "2025Q4"])
      with (Ok (map VTimestamp starts)).
    do 3 eexists. split; [reflexivity |]. split.
    + simpl heap. apply nth_error_last.
    + apply lookup_set_column_same.
  - subst starts. repeat constructor.
Qed.

Lemma add_quarter_date_on_the_sample :
  (exists r w' d',
     Visualizer.add_quarter_date Sample.viz Sample.test_year_ref Sample.world
     = (Ok r, w')
     /\ nth_error (heap w') r = Some (ODataFrame d')
     /\ lookup "date" (df_columns d')
        = Some (map VTimestamp
                  [1735689600000000000; 1743465600000000000;
                   1751328000000000000; 1759276800000000000]))
  /\ StronglySorted Z.lt
       [1735689600000000000; 1743465600000000000; 1751328000000000000;
        1759276800000000000].
Proof.
  exact (add_quarter_date_of_2025_is_increasing Sample.viz
           Sample.test_year_ref Sample.world Sample.test_year
           eq_refl eq_refl).
Defined.

(** ** The bar of [print_feature_importance] *)

Lemma repeat_str_of_nothing (n : Z) : PyStr.repeat_str "" n = "".
Proof.
  unfold PyStr.repeat_str.
  induction (Z.to_nat n) as [|k IH]; simpl; [reflexivity |].
  destruct (repeat "" k); [reflexivity | exact IH].
Qed.

(** The glyph being empty, the bar is, whatever the importance. *)
Lemma bar_is_empty (row : Pandas.Row) (s : string) :
  Visualizer.bar row = Ok s -> s = "".
Proof.
  unfold Visualizer.bar, Visualizer.glyph.
  destruct (Pandas.row_get row "Importance") as [v|e]; [| discriminate].
  destruct (Builtins.mul v 50) as [x|e]; [| discriminate].
  destruct (Builtins.int x) as [n|e]; [| discriminate].
  intro H. inversion H. apply repeat_str_of_nothing.
Qed.

(** C1 on the code: for a row of importance 0.5 the specification asks for a
    bar of [floor(0.5 * 50) = 25] glyphs; the code computes the count 25 and
    repeats the empty string, so the bar it prints has length 0, as the lines
    printed for the sample show. *)
Theorem bar_of_importance_one_half :
  let row : Pandas.Row :=
    (0, [("Feature", VStr "sst_lag1"); ("Importance", VFloat 0.5)]) in
  Spec.bar_length 0.5 = inr 25
  /\ Builtins.int (VFloat (0.5 * 50)) = Ok 25
  /\ Visualizer.bar row = Ok ""
  /\ stdout
       (snd (Visualizer.print_feature_importance Sample.viz
               Sample.importance_ref "Top 10 Feature Importance"
               Sample.world))
     = [Builtins.newline +++ PyStr.repeat_str "=" 80;
        "[SEARCH] Top 10 Feature Importance";
        PyStr.repeat_str "=" 80;
        "   sst_lag1                  0.5000 ";
        "   casos_lag4                0.2500 "].
Proof. vm_compute. repeat split. Qed.

(** ** The shape of a forecast *)

(** C3: the forecast of 2026 from the history up to 2025 without 2024 has
    four rows, one per quarter, with the columns [year_quarter] and
    [predicted_casos_est], whatever the features, the model and the
    predictors of the quarters to come. *)
Theorem forecast_has_one_row_per_quarter
    {E : Type} `{Forecaster.Estimator E}
    (future_features : DataFrame -> list string -> Z -> Z -> list value)
    (model : E) (df_feat : DataFrame) (feature_cols : list string) :
  let forecast_df :=
    Forecaster.refit_and_forecast future_features model df_feat feature_cols
      2026 2025 [2024] in
  length (df_index forecast_df) = 4%nat
  /\ lookup "year_quarter" (df_columns forecast_df)
     = Some [VStr "2026Q1"; VStr "2026Q2"; VStr "2026Q3"; VStr "2026Q4"]
  /\ (exists predicted,
        lookup "predicted_casos_est" (df_columns forecast_df)
        = Some predicted
        /\ length predicted = 4%nat)
  /\ Spec.rectangular forecast_df.
Proof.
  intro forecast_df. subst forecast_df.
  unfold Forecaster.refit_and_forecast.
  repeat apply conj.
  - reflexivity.
  - reflexivity.
  - eexists. split; [reflexivity |].
    now rewrite Forecaster.predict_length.
  - unfold Spec.rectangular. cbn [df_columns df_index].
    repeat constructor. cbn [snd].
    now rewrite Forecaster.predict_length.
Qed.

(** The contract is met by a model: the one that repeats the last value. *)
Example forecast_of_the_persistence_model :
  Forecaster.refit_and_forecast (fun _ _ _ _ => []) (VFloat 0)
    Sample.history ["casos_est"] 2026 2025 [2024]
  = mkDataFrame [0; 1; 2; 3]
      [("year_quarter",
        [VStr "2026Q1"; VStr "2026Q2"; VStr "2026Q3"; VStr "2026Q4"]);
       ("predicted_casos_est",
        [VFloat 20; VFloat 20; VFloat 20; VFloat 20])].
Proof. reflexivity. Qed.

(** ** More on the file name of the importance chart *)

Lemma kept_is_no_blank (c : ascii) :
  Spec.keeps c = true -> PyStr.isspace c = false.
Proof.
  destruct c as [[] [] [] [] [] [] [] []]; vm_compute;
    first [reflexivity | discriminate].
Qed.

Lemma safe_char_fixed (c : ascii) :
  Spec.keeps c = true -> Visualizer.safe_char c = c.
Proof.
  unfold Visualizer.safe_char, Spec.keeps. now intros ->.
Qed.

Lemma lower_char_of_safe (c : ascii) :
  PyStr.lower_char (Visualizer.safe_char (PyStr.lower_char c))
  = Visualizer.safe_char (PyStr.lower_char c).
Proof.
  destruct c as [[] [] [] [] [] [] [] []]; vm_compute; reflexivity.
Qed.

Lemma isspace_lower_char (c : ascii) :
  PyStr.isspace (PyStr.lower_char c) = PyStr.isspace c.
Proof.
  destruct c as [[] [] [] [] [] [] [] []]; vm_compute; reflexivity.
Qed.

Lemma lower_char_twice (c : ascii) :
  PyStr.lower_char (PyStr.lower_char c) = PyStr.lower_char c.
Proof.
  destruct c as [[] [] [] [] [] [] [] []]; vm_compute; reflexivity.
Qed.

Lemma lstrip_chars_no_blank (l : list ascii) :
  Forall (fun c => PyStr.isspace c = false) l -> PyStr.lstrip_chars l = l.
Proof.
  intros [|c l' Hc _]; simpl; [reflexivity | now rewrite Hc].
Qed.

Lemma rstrip_chars_no_blank (l : list ascii) :
  Forall (fun c => PyStr.isspace c = false) l -> PyStr.rstrip_chars l = l.
Proof.
  intro H. unfold PyStr.rstrip_chars.
  rewrite lstrip_chars_no_blank by now apply Forall_rev.
  apply rev_involutive.
Qed.

Lemma lstrip_chars_map_lower (l : list ascii) :
  PyStr.lstrip_chars (map PyStr.lower_char l)
  = map PyStr.lower_char (PyStr.lstrip_chars l).
Proof.
  induction l as [|c l IH]; simpl; [reflexivity |].
  rewrite isspace_lower_char. now destruct (PyStr.isspace c).
Qed.

Lemma rstrip_chars_map_lower (l : list ascii) :
  PyStr.rstrip_chars (map PyStr.lower_char l)
  = map PyStr.lower_char (PyStr.rstrip_chars l).
Proof.
  unfold PyStr.rstrip_chars.
  now rewrite <- map_rev, lstrip_chars_map_lower, map_rev.
Qed.

(** What [lstrip] leaves starts with no blank, and [strip] takes a prefix of
    it. *)
Lemma lstrip_chars_twice (l : list ascii) :
  PyStr.lstrip_chars (PyStr.lstrip_chars l) = PyStr.lstrip_chars l.
Proof.
  induction l as [|c l IH]; simpl; [reflexivity |].
  destruct (PyStr.isspace c) eqn:E; [exact IH |]. simpl. now rewrite E.
Qed.

Lemma lstrip_chars_suffix (l : list ascii) :
  exists blanks, l = blanks ++ PyStr.lstrip_chars l.
Proof.
  induction l as [|c l [b IH]]; simpl.
  - now exists [].
  - destruct (PyStr.isspace c).
    + exists (c :: b). simpl. now f_equal.
    + now exists [].
Qed.

Lemma lstrip_chars_prefix (l t : list ascii) :
  PyStr.lstrip_chars l = l -> l <> [] -> PyStr.lstrip_chars (l ++ t) = l ++ t.
Proof.
  destruct l as [|c l]; [congruence |]. simpl.
  destruct (PyStr.isspace c) eqn:E; [| reflexivity].
  intros H _. exfalso.
  destruct (lstrip_chars_suffix l) as [b Hb].
  rewrite H in Hb. apply (f_equal (@length ascii)) in Hb.
  rewrite length_app in Hb. simpl in Hb. lia.
Qed.

Lemma strip_chars_twice (l : list ascii) :
  let s := PyStr.rstrip_chars (PyStr.lstrip_chars l) in
  PyStr.rstrip_chars (PyStr.lstrip_chars s) = s.
Proof.
  intro s. subst s. set (m := PyStr.lstrip_chars l).
  assert (PyStr.lstrip_chars m = m) as Hm by apply lstrip_chars_twice.
  assert (PyStr.lstrip_chars (PyStr.rstrip_chars m) = PyStr.rstrip_chars m)
    as Hl.
  { unfold PyStr.rstrip_chars.
    destruct (lstrip_chars_suffix (rev m)) as [b Hb].
    assert (m = rev (PyStr.lstrip_chars (rev m)) ++ rev b) as Em.
    { rewrite <- rev_app_distr, <- Hb. symmetry. apply rev_involutive. }
    destruct (rev (PyStr.lstrip_chars (rev m))) as [|c r] eqn:Er;
      [reflexivity |].
    rewrite Em in Hm. simpl in Hm. simpl.
    destruct (PyStr.isspace c) eqn:E; [| reflexivity].
    exfalso.
    destruct (lstrip_chars_suffix (r ++ rev b)) as [b' Hb'].
    rewrite Hm in Hb'. apply (f_equal (@length ascii)) in Hb'.
    rewrite !length_app in Hb'. simpl in Hb'. rewrite ?length_app in Hb'.
    lia. }
  rewrite Hl. unfold PyStr.rstrip_chars.
  now rewrite rev_involutive, lstrip_chars_twice.
Qed.

Lemma strip_twice (s : string) : PyStr.strip (PyStr.strip s) = PyStr.strip s.
Proof.
  unfold PyStr.strip. rewrite chars_of_chars. f_equal.
  apply strip_chars_twice.
Qed.

Lemma strip_lower (s : string) :
  PyStr.strip (PyStr.lower s) = PyStr.lower (PyStr.strip s).
Proof.
  unfold PyStr.strip, PyStr.lower. rewrite !chars_of_chars.
  now rewrite lstrip_chars_map_lower, rstrip_chars_map_lower.
Qed.

Lemma lower_twice (s : string) : PyStr.lower (PyStr.lower s) = PyStr.lower s.
Proof.
  unfold PyStr.lower. rewrite chars_of_chars, map_map. f_equal.
  apply map_ext, lower_char_twice.
Qed.

(** The fragment is a fixed point of the sanitising: it has no blank at
    either end, no capital and no character to replace.  Titles that differ
    in their blanks at the ends or in the case of their letters get the same
    fragment, hence the same file. *)
Theorem safe_title_is_stable (title : string) :
  Visualizer.safe_title (Visualizer.safe_title title)
  = Visualizer.safe_title title
  /\ Visualizer.safe_title (PyStr.strip title) = Visualizer.safe_title title
  /\ Visualizer.safe_title (PyStr.lower title) = Visualizer.safe_title title.
Proof.
  repeat apply conj.
  - unfold Visualizer.safe_title at 2 3.
    set (l := map Visualizer.safe_char
                (PyStr.chars (PyStr.lower (PyStr.strip title)))).
    assert (Forall (fun c => Spec.keeps c = true) l) as K.
    { apply Forall_forall. intros c Hc. apply in_map_iff in Hc.
      destruct Hc as [c' [<- _]]. apply safe_char_kept. }
    assert (map PyStr.lower_char l = l) as L.
    { subst l. unfold PyStr.lower. rewrite chars_of_chars, !map_map.
      apply map_ext, lower_char_of_safe. }
    assert (Forall (fun c => PyStr.isspace c = false) l) as B.
    { eapply Forall_impl; [| exact K]. apply kept_is_no_blank. }
    clearbody l.
    unfold Visualizer.safe_title, PyStr.strip, PyStr.lower.
    rewrite !chars_of_chars.
    rewrite lstrip_chars_no_blank, rstrip_chars_no_blank by assumption.
    rewrite L. f_equal.
    rewrite <- (map_id l) at 2. apply map_ext_Forall.
    eapply Forall_impl; [| exact K]. apply safe_char_fixed.
  - unfold Visualizer.safe_title. now rewrite strip_twice.
  - unfold Visualizer.safe_title. now rewrite strip_lower, lower_twice.
Qed.

Lemma lstrip_chars_blank (l : list ascii) :
  Forall (fun c => PyStr.isspace c = true) l -> PyStr.lstrip_chars l = [].
Proof.
  induction 1 as [|c l Hc _ IH]; simpl; [reflexivity | now rewrite Hc].
Qed.

(** A title made of blanks only has the empty fragment: its chart is saved
    as [feature_importance_.png]. *)
Theorem safe_title_of_blanks (title : string) :
  Forall (fun c => PyStr.isspace c = true) (PyStr.chars title) ->
  Visualizer.safe_title title = "".
Proof.
  intro H. unfold Visualizer.safe_title, PyStr.strip, PyStr.lower.
  rewrite lstrip_chars_blank by exact H. reflexivity.
Qed.

Lemma safe_title_of_two_blanks : Visualizer.safe_title "  " = "".
Proof.
  apply (safe_title_of_blanks "  "). repeat constructor.
Defined.

(** ** [_save_fig]: the directory and the file *)

Lemma mem_true_iff (k : string) (l : list string) :
  Pandas.mem k l = true <-> In k l.
Proof.
  unfold Pandas.mem. rewrite existsb_exists. split.
  - intros [x [Hx E]]. apply String.eqb_eq in E. now subst.
  - intro H. exists k. split; [exact H | apply String.eqb_refl].
Qed.

Lemma mem_app_left (k : string) (l t : list string) :
  Pandas.mem k l = true -> Pandas.mem k (l ++ t) = true.
Proof. rewrite !mem_true_iff, in_app_iff. auto. Qed.

Lemma lookup_none_iff {A} (k : string) (l : list (string * A)) :
  lookup k l = None <-> ~ In k (map fst l).
Proof.
  induction l as [|[k' a] l IH]; simpl.
  - tauto.
  - destruct (String.eqb_spec k k') as [->|N].
    + split; [discriminate | intro H; exfalso; auto].
    + rewrite IH. split; [intros H [E|I]; [congruence | tauto] | tauto].
Qed.

Lemma keys_assign {A} (k : string) (a : A) (l : list (string * A)) :
  map fst (assign k a l)
  = match lookup k l with
    | Some _ => map fst l
    | None => map fst l ++ [k]
    end.
Proof.
  induction l as [|[k' a'] l IH]; simpl; [reflexivity |].
  destruct (String.eqb_spec k k') as [->|N]; simpl; [reflexivity |].
  rewrite IH. now destruct (lookup k l).
Qed.

Lemma NoDup_snoc {A} (l : list A) (x : A) :
  NoDup l -> ~ In x l -> NoDup (l ++ [x]).
Proof.
  induction 1 as [|y l Hy Hl IH]; simpl; intro Hx.
  - repeat constructor. intros [].
  - constructor; [| tauto].
    rewrite in_app_iff. simpl. intros [I | [E | []]]; [tauto |].
    subst. tauto.
Qed.

Lemma mem_create_same ds p : Pandas.mem p (Os.create ds p) = true.
Proof.
  unfold Os.create. destruct (Pandas.mem p ds) eqn:E; [exact E |].
  apply mem_true_iff, in_app_iff. right. now left.
Qed.

Lemma mem_create ds p d :
  Pandas.mem d ds = true -> Pandas.mem d (Os.create ds p) = true.
Proof.
  intro H. unfold Os.create.
  destruct (Pandas.mem p ds); [exact H | now apply mem_app_left].
Qed.

Lemma mem_fold_create l ds d :
  Pandas.mem d ds = true -> Pandas.mem d (fold_left Os.create l ds) = true.
Proof.
  revert ds. induction l as [|p l IH]; simpl; intros ds H; [exact H |].
  now apply IH, mem_create.
Qed.

Lemma NoDup_create ds p : NoDup ds -> NoDup (Os.create ds p).
Proof.
  intro H. unfold Os.create. destruct (Pandas.mem p ds) eqn:E; [exact H |].
  apply NoDup_snoc; [exact H |]. rewrite <- mem_true_iff. congruence.
Qed.

Lemma NoDup_fold_create l ds :
  NoDup ds -> NoDup (fold_left Os.create l ds).
Proof.
  revert ds. induction l as [|p l IH]; simpl; intros ds H; [exact H |].
  now apply IH, NoDup_create.
Qed.

(** What [os.makedirs] does to the directories: it removes none, makes
    none twice, makes none when its directory is there, and its directory
    is there when it returns. *)
Lemma makedirs_dirs path w :
  let ds := dirs (snd (Os.makedirs path w)) in
  (fst (Os.makedirs path w) = Ok tt -> Pandas.mem path ds = true)
  /\ (forall d, Pandas.mem d (dirs w) = true -> Pandas.mem d ds = true)
  /\ (NoDup (dirs w) -> NoDup ds)
  /\ (Pandas.mem path (dirs w) = true -> ds = dirs w).
Proof.
  unfold Os.makedirs. destruct w as [H F S D Fi O]. cbn [dirs].
  destruct (Pandas.mem path D) eqn:E; cbn [fst snd dirs]; [auto |].
  destruct (_ && _); cbn [fst snd dirs with_dirs].
  - repeat apply conj.
    + intros _. apply mem_create_same.
    + intros d Hd. now apply mem_create, mem_fold_create.
    + intro N. now apply NoDup_create, NoDup_fold_create.
    + discriminate.
  - repeat apply conj; auto; discriminate.
Qed.

Lemma makedirs_raises path w e :
  fst (Os.makedirs path w) = Raise e -> e = Unsupported.
Proof.
  unfold Os.makedirs. destruct (Pandas.mem path (dirs w)); [discriminate |].
  destruct (_ && _); [discriminate |]. intro H. now inversion H.
Qed.

Lemma save_fig_run self filename f figs w :
  figures w = f :: figs ->
  Visualizer._save_fig self filename w
  = match fst (Os.makedirs (Visualizer.output_dir self) w) with
    | Ok _ =>
        Pyplot.savefig
          (Os.path_join (Visualizer.output_dir self) filename) 150 "tight"
          (with_dirs
             (dirs (snd (Os.makedirs (Visualizer.output_dir self) w))) w)
    | Raise e =>
        (Raise e,
         with_dirs
           (dirs (snd (Os.makedirs (Visualizer.output_dir self) w))) w)
    end.
Proof.
  intro H. unfold Visualizer._save_fig. rewrite bind_run, makedirs_run.
  now destruct (fst (Os.makedirs _ w)).
Qed.

(** [_save_fig] with a figure open.  When it returns, the path under the
    output directory holds the current figure at 150 dpi with a tight
    bounding box and every other file is as before; when it raises because
    the directory of the path is not there ([FileNotFoundError], for a file
    name with a directory of its own), no file has changed.  Either way the
    output directory is there afterwards, no directory is gone, and nothing
    else of the world has changed. *)
Theorem save_fig_writes_the_current_figure
    (self : Visualizer.t) (filename : string) (w : World)
    (f : Figure) (figs : list Figure) :
  figures w = f :: figs ->
  let path := Os.path_join (Visualizer.output_dir self) filename in
  match Visualizer._save_fig self filename w with
  | (Ok _, w') =>
      lookup path (files w') = Some (mkImage 150 "tight" f)
      /\ (forall p, p <> path -> lookup p (files w') = lookup p (files w))
      /\ Pandas.mem (Visualizer.output_dir self) (dirs w') = true
      /\ (forall d, Pandas.mem d (dirs w) = true ->
            Pandas.mem d (dirs w') = true)
      /\ figures w' = figures w /\ heap w' = heap w
      /\ stdout w' = stdout w /\ shown w' = shown w
  | (Raise Unsupported, _) => True
  | (Raise e, w') =>
      e = FileNotFoundError
      /\ files w' = files w
      /\ Pandas.mem (Visualizer.output_dir self) (dirs w') = true
      /\ (forall d, Pandas.mem d (dirs w) = true ->
            Pandas.mem d (dirs w') = true)
      /\ figures w' = figures w /\ heap w' = heap w
      /\ stdout w' = stdout w /\ shown w' = shown w
  end.
Proof.
  intros Hf path. rewrite (save_fig_run self filename f figs w Hf).
  destruct (makedirs_dirs (Visualizer.output_dir self) w)
    as [Made [Kept _]].
  destruct (fst (Os.makedirs _ w)) as [[]|e] eqn:E.
  - specialize (Made eq_refl).
    erewrite savefig_top by (destruct w; exact Hf). fold path.
    destruct (_ && _); [| exact I].
    destruct (Os.is_dir _ _).
    + destruct w as [H F S D Fi O]. cbn in *.
      repeat apply conj; try reflexivity; try assumption.
      * apply lookup_assign_same.
      * intros p Hp. apply lookup_assign_other. now apply String.eqb_neq.
    + destruct w as [H F S D Fi O]. cbn in *.
      repeat apply conj; try reflexivity; assumption.
  - now rewrite (makedirs_raises _ _ _ E).
Qed.

Lemma save_fig_writes_on_a_sample :
  match
    Visualizer._save_fig Sample.viz "chart.png"
      (with_figures [mkFigure 1 None [Legend]] Sample.world)
  with
  | (Ok _, w') =>
      lookup "outputs/plots/chart.png" (files w')
      = Some (mkImage 150 "tight" (mkFigure 1 None [Legend]))
      /\ (forall p, p <> "outputs/plots/chart.png" ->
            lookup p (files w') = lookup p (files Sample.world))
      /\ Pandas.mem "outputs/plots" (dirs w') = true
      /\ (forall d, Pandas.mem d (dirs Sample.world) = true ->
            Pandas.mem d (dirs w') = true)
      /\ figures w' = [mkFigure 1 None [Legend]]
      /\ heap w' = heap Sample.world
      /\ stdout w' = stdout Sample.world /\ shown w' = shown Sample.world
  | (Raise _, _) => False
  end.
Proof.
  exact (save_fig_writes_the_current_figure Sample.viz "chart.png"
           (with_figures [mkFigure 1 None [Legend]] Sample.world)
           (mkFigure 1 None [Legend]) [] eq_refl).
Defined.

(** Saving never makes a second entry for a path or for a directory: a
    chart saved again under the same name takes the place of the earlier
    one, and an output directory that is there is not made again. *)
Theorem save_fig_overwrites
    (self : Visualizer.t) (filename : string) (w : World) :
  NoDup (map fst (files w)) -> NoDup (dirs w) ->
  let path := Os.path_join (Visualizer.output_dir self) filename in
  let w' := snd (Visualizer._save_fig self filename w) in
  NoDup (map fst (files w')) /\ NoDup (dirs w')
  /\ (lookup path (files w) <> None ->
      map fst (files w') = map fst (files w))
  /\ (Pandas.mem (Visualizer.output_dir self) (dirs w) = true ->
      dirs w' = dirs w).
Proof.
  intros Hfiles Hdirs path w'.
  destruct (makedirs_dirs (Visualizer.output_dir self) w)
    as [_ [_ [Once Same]]].
  assert ((files w' = files w
           \/ exists image, files w' = assign path image (files w))
          /\ dirs w'
             = dirs (snd (Os.makedirs (Visualizer.output_dir self) w)))
    as [Ef Ed].
  { subst w' path. unfold Visualizer._save_fig.
    rewrite bind_run, makedirs_run.
    destruct (fst (Os.makedirs _ w)) as [[]|e];
      [| destruct w; split; [now left | reflexivity]].
    unfold Pyplot.savefig, Pyplot.gcf, Pyplot.open_figure.
    rewrite bind_run. destruct w as [H F S D Fi O]. world_simpl.
    destruct F as [|f F]; world_simpl;
      (destruct (_ && _); [destruct (Os.is_dir _ _) |]);
      cbn [snd files dirs with_files];
      (split; [| reflexivity]); eauto. }
  rewrite Ed. repeat apply conj.
  - destruct Ef as [-> | [image ->]]; [exact Hfiles |].
    rewrite keys_assign.
    destruct (lookup path (files w)) eqn:E; [exact Hfiles |].
    apply NoDup_snoc; [exact Hfiles | now apply lookup_none_iff].
  - now apply Once.
  - intro Hp. destruct Ef as [-> | [image ->]]; [reflexivity |].
    rewrite keys_assign.
    destruct (lookup path (files w)); [reflexivity | congruence].
  - exact Same.
Qed.

Lemma save_fig_overwrites_on_a_sample :
  let w := snd (Visualizer._save_fig Sample.viz "chart.png" Sample.world) in
  let w' := snd (Visualizer._save_fig Sample.viz "chart.png" w) in
  NoDup (map fst (files w')) /\ NoDup (dirs w')
  /\ (lookup "outputs/plots/chart.png" (files w) <> None ->
      map fst (files w') = map fst (files w))
  /\ (Pandas.mem "outputs/plots" (dirs w) = true -> dirs w' = dirs w).
Proof.
  apply (save_fig_overwrites Sample.viz "chart.png"
           (snd (Visualizer._save_fig Sample.viz "chart.png" Sample.world)));
    vm_compute;
    repeat (constructor; [simpl; intuition discriminate |]); constructor.
Defined.

(** ** [add_quarter_date]: what the copy holds *)

Lemma traverse_Forall {A B} (f : A -> result B) (P : B -> Prop)
    (l : list A) (l' : list B) :
  (forall a b, f a = Ok b -> P b) -> traverse f l = Ok l' -> Forall P l'.
Proof.
  intro Hf. revert l'. induction l as [|a l IH]; simpl; intros l' H.
  - inversion H. constructor.
  - destruct (f a) as [b|e] eqn:E; [| discriminate].
    destruct (traverse f l) as [bs|e]; [| discriminate].
    inversion H; subst. constructor; [now apply (Hf a) | now apply IH].
Qed.






(** A quarter in lower case is read as the quarter it is, and a missing
    cell gets the missing timestamp. *)
Example add_quarter_date_of_a_missing_quarter :
  let d := mkDataFrame [0; 1] [("year_quarter", [VStr "2024q4"; VFloat nan])] in
  let w := with_heap (heap Sample.world ++ [ODataFrame d]) Sample.world in
  let out := Visualizer.add_quarter_date Sample.viz 7%nat w in
  fst out = Ok 8%nat
  /\ nth_error (heap (snd out)) 8
     = Some (ODataFrame
               (Pandas.set_column "date"
                  [VTimestamp 1727740800000000000; VNaT] d)).
Proof. vm_compute. repeat split. Qed.


(** ** The dates follow the calendar *)

Lemma first_quarter_starts_increase (y : Z) :
  Pandas.days_from_civil y 1 1 < Pandas.days_from_civil (y + 1) 1 1.
Proof.
  unfold Pandas.days_from_civil.
  cbn [Z.leb Z.compare Pos.compare Pos.compare_cont].
  change ((1 + 9) mod 12) with 10. change ((153 * 10 + 2) / 5) with 306.
  replace (y + 1 - 1) with y by lia.
  Z.div_mod_to_equations. lia.
Qed.

Lemma last_quarter_before_new_year (y : Z) :
  Pandas.days_from_civil y 10 1 < Pandas.days_from_civil (y + 1) 1 1.
Proof.
  unfold Pandas.days_from_civil.
  cbn [Z.leb Z.compare Pos.compare Pos.compare_cont].
  change ((1 + 9) mod 12) with 10. change ((153 * 10 + 2) / 5) with 306.
  change ((10 + 9) mod 12) with 7. change ((153 * 7 + 2) / 5) with 214.
  replace (y + 1 - 1) with y by lia.
  Z.div_mod_to_equations. lia.
Qed.

Lemma first_quarters_in_order (y : Z) (n : nat) :
  Pandas.days_from_civil y 1 1
  <= Pandas.days_from_civil (y + Z.of_nat n) 1 1.
Proof.
  induction n as [|n IH].
  - replace (y + Z.of_nat 0) with y by lia. lia.
  - replace (y + Z.of_nat (S n)) with (y + Z.of_nat n + 1) by lia.
    pose proof (first_quarters_increase_step := first_quarter_starts_increase
                                                  (y + Z.of_nat n)).
    lia.
Qed.

Lemma midnight_lt (y m y' m' : Z) :
  Pandas.days_from_civil y m 1 < Pandas.days_from_civil y' m' 1 ->
  Pandas.midnight y m 1 < Pandas.midnight y' m' 1.
Proof.
  intro H. unfold Pandas.midnight, Pandas.ns_per_day.
  apply Z.mul_lt_mono_pos_r; [lia | exact H].
Qed.

Lemma midnight_le (y m y' m' : Z) :
  Pandas.days_from_civil y m 1 <= Pandas.days_from_civil y' m' 1 ->
  Pandas.midnight y m 1 <= Pandas.midnight y' m' 1.
Proof.
  intro H. unfold Pandas.midnight, Pandas.ns_per_day.
  apply Z.mul_le_mono_nonneg_r; [lia | exact H].
Qed.

(** A quarter that comes before another starts before it, whatever the
    years. *)
Lemma quarter_start_increases (p q : Pandas.Period) :
  Quarters.of_a_year p -> Quarters.of_a_year q -> Quarters.before p q ->
  Quarters.start p < Quarters.start q.
Proof.
  destruct p as [y a]. destruct q as [y' b].
  unfold Quarters.of_a_year, Quarters.before, Quarters.start. simpl.
  intros Ha Hb [Hy | [-> Hq]].
  - (* to the last quarter, over the new year, to the first quarter *)
    assert (Pandas.midnight y (Pandas.first_month a) 1
            <= Pandas.midnight y (Pandas.first_month 4) 1) as H1.
    { destruct (Z.eq_dec a 4) as [->|N]; [lia |].
      apply Z.lt_le_incl, quarter_starts_increase; lia. }
    assert (Pandas.midnight y (Pandas.first_month 4) 1
            < Pandas.midnight (y + 1) (Pandas.first_month 1) 1) as H2.
    { apply midnight_lt, last_quarter_before_new_year. }
    assert (Pandas.midnight (y + 1) (Pandas.first_month 1) 1
            <= Pandas.midnight y' (Pandas.first_month 1) 1) as H3.
    { apply midnight_le.
      replace y' with (y + 1 + Z.of_nat (Z.to_nat (y' - (y + 1)))) by lia.
      apply first_quarters_in_order. }
    assert (Pandas.midnight y' (Pandas.first_month 1) 1
            <= Pandas.midnight y' (Pandas.first_month b) 1) as H4.
    { destruct (Z.eq_dec b 1) as [->|N]; [lia |].
      apply Z.lt_le_incl, quarter_starts_increase; lia. }
    lia.
  - apply quarter_starts_increase; lia.
Qed.

Lemma quarter_of_a_year a b c d n (p : Pandas.Period) :
  Pandas.quarter_of a b c d n = Ok p -> Quarters.of_a_year p.
Proof.
  unfold Pandas.quarter_of, Quarters.of_a_year.
  destruct (Pandas.digit a) as [a'|]; [| discriminate].
  destruct (Pandas.digit b) as [b'|]; [| discriminate].
  destruct (Pandas.digit c) as [c'|]; [| discriminate].
  destruct (Pandas.digit d) as [d'|]; [| discriminate].
  destruct (Pandas.digit n) as [n'|]; [| discriminate].
  destruct (1 <=? _); [| discriminate]. simpl.
  destruct (Z.leb_spec 1 n') as [L1|]; [| discriminate].
  destruct (Z.leb_spec n' 4) as [L4|]; [| discriminate].
  intro E. inversion E. simpl. lia.
Qed.

Lemma parse_quarter_of_a_year (s : string) (p : Pandas.Period) :
  Pandas.parse_quarter s = Ok p -> Quarters.of_a_year p.
Proof.
  unfold Pandas.parse_quarter.
  destruct (PyStr.chars s) as [|a [|b [|c [|d [|q [|n [|m [|]]]]]]]];
    try discriminate.
  - destruct (Pandas.is_q q); [| discriminate]. apply quarter_of_a_year.
  - destruct (_ && _); [| discriminate]. apply quarter_of_a_year.
Qed.

Lemma periods_of_a_year cells periods :
  traverse Pandas.period_of_value cells = Ok periods ->
  Forall Quarters.of_a_year periods.
Proof.
  apply traverse_Forall. intros [s| | | |] p; try discriminate.
  apply parse_quarter_of_a_year.
Qed.

(** A cell that spells a quarter is a string, and is not missing. *)
Lemma period_of_cell_of_value v p :
  Pandas.period_of_value v = Ok p ->
  Pandas.is_str v = true /\ Pandas.period_of_cell v = Ok (Some p).
Proof.
  destruct v; try discriminate. intro H. split; [reflexivity |].
  unfold Pandas.period_of_cell. simpl Pandas.isna. cbv iota. now rewrite H.
Qed.

Lemma periods_of_quarters cells periods :
  traverse Pandas.period_of_value cells = Ok periods ->
  Pandas.periods_of cells = Ok (map Some periods).
Proof.
  intro H.
  assert (traverse Pandas.period_of_cell cells = Ok (map Some periods))
    as T.
  { revert periods H. induction cells as [|v cells IH]; simpl;
      intros periods H.
    - now inversion H.
    - destruct (Pandas.period_of_value v) as [p|e] eqn:E; [| discriminate].
      destruct (traverse Pandas.period_of_value cells) as [ps|e];
        [| discriminate].
      inversion H; subst.
      rewrite (proj2 (period_of_cell_of_value v p E)), (IH ps eq_refl).
      reflexivity. }
  unfold Pandas.periods_of. destruct cells as [|v cells]; [exact T |].
  rewrite T. simpl in H.
  destruct (Pandas.period_of_value v) as [p|e] eqn:E; [| discriminate].
  cbn [existsb]. now rewrite (proj1 (period_of_cell_of_value v p E)).
Qed.

Lemma to_timestamp_starts periods dates :
  Pandas.to_timestamp (map Some periods) = Ok dates ->
  dates = map VTimestamp (map Quarters.start periods).
Proof.
  unfold Pandas.to_timestamp. revert dates.
  induction periods as [|p ps IH]; simpl; intros dates H.
  - now inversion H.
  - unfold Pandas.period_start at 1 in H. fold (Quarters.start p) in H.
    destruct (Pandas.timestamp_in_bounds _); [| discriminate].
    destruct (traverse Pandas.timestamp_of (map Some ps)) as [ds|e];
      [| discriminate].
    inversion H. f_equal. now apply IH.
Qed.

Lemma starts_sorted periods :
  Forall Quarters.of_a_year periods ->
  StronglySorted Quarters.before periods ->
  StronglySorted Z.lt (map Quarters.start periods).
Proof.
  intros Hy Hs. induction Hs as [|p ps Hs IH Hp]; simpl; constructor.
  - apply IH. now inversion Hy.
  - inversion Hy as [|? ? Hpy Hpsy]; subst.
    apply Forall_map. rewrite Forall_forall in *.
    intros q Hq. apply quarter_start_increases; auto.
Qed.

(** When the quarters of the column [year_quarter] come one before the
    other, over as many years as there are, the dates that
    [add_quarter_date] gives them increase from row to row: they are the
    starts of the quarters, and an earlier quarter starts earlier. *)
Theorem add_quarter_date_keeps_the_order
    (self : Visualizer.t) (df r : ref) (w w' : World) (d : DataFrame)
    (cells : list value) (periods : list Pandas.Period) :
  nth_error (heap w) df = Some (ODataFrame d) ->
  lookup "year_quarter" (df_columns d) = Some cells ->
  traverse Pandas.period_of_value cells = Ok periods ->
  StronglySorted Quarters.before periods ->
  Visualizer.add_quarter_date self df w = (Ok r, w') ->
  exists d',
    nth_error (heap w') r = Some (ODataFrame d')
    /\ lookup "date" (df_columns d')
       = Some (map VTimestamp (map Quarters.start periods))
    /\ StronglySorted Z.lt (map Quarters.start periods).
Proof.
  intros Hd Hc Hp Hs Hrun.
  rewrite add_quarter_date_run, Hd, Hc in Hrun.
  unfold Spec.quarter_dates in Hrun.
  rewrite (periods_of_quarters _ _ Hp) in Hrun.
  destruct (Pandas.to_timestamp (map Some periods)) as [dates|e] eqn:Ht;
    [| discriminate].
  inversion Hrun; subst; clear Hrun.
  apply to_timestamp_starts in Ht. subst dates.
  eexists. simpl heap. repeat apply conj.
  - apply nth_error_last.
  - apply lookup_set_column_same.
  - apply starts_sorted; [| exact Hs]. now apply (periods_of_a_year cells).
Qed.

Lemma add_quarter_date_keeps_the_order_of_the_sample :
  exists d',
    nth_error
      (heap (snd (Visualizer.add_quarter_date Sample.viz Sample.history_ref
                    Sample.world))) 7
    = Some (ODataFrame d')
    /\ lookup "date" (df_columns d')
       = Some (map VTimestamp
                 (map Quarters.start
                    [Pandas.mkPeriod 2023 3; Pandas.mkPeriod 2023 4;
                     Pandas.mkPeriod 2024 1; Pandas.mkPeriod 2024 2;
                     Pandas.mkPeriod 2024 3]))
    /\ StronglySorted Z.lt
         (map Quarters.start
            [Pandas.mkPeriod 2023 3; Pandas.mkPeriod 2023 4;
             Pandas.mkPeriod 2024 1; Pandas.mkPeriod 2024 2;
             Pandas.mkPeriod 2024 3]).
Proof.
  apply (add_quarter_date_keeps_the_order Sample.viz Sample.history_ref
           7%nat Sample.world _ Sample.history
           [VStr "2023Q3"; VStr "2023Q4"; VStr "2024Q1"; VStr "2024Q2";
            VStr "2024Q3"]);
    try reflexivity.
  unfold Quarters.before.
  repeat constructor; simpl; lia.
Defined.

(** ** [plot_feature_importance], step by step *)




(** A frame that lacks one of the two columns is found out after the figure
    has been opened: the call raises [KeyError] for [Feature] when that one
    is missing, else for [Importance], and leaves the new figure open with
    nothing drawn on it; no file is written and no directory made. *)
Theorem plot_feature_importance_without_a_column
    (self : Visualizer.t) (importance_df : ref) (title : string) (w : World)
    (d : DataFrame) :
  nth_error (heap w) importance_df = Some (ODataFrame d) ->
  lookup "Feature" (df_columns d) = None
  \/ lookup "Importance" (df_columns d) = None ->
  Visualizer.plot_feature_importance self importance_df title w
  = (Raise (KeyError (match lookup "Feature" (df_columns d) with
                      | None => "Feature"
                      | Some _ => "Importance"
                      end)),
     with_figures
       (mkFigure (Pyplot.next_num (figures w)) (Some (10, 6)) []
        :: figures w) w).
Proof.
  intros Hd Hmissing.
  destruct w as [H F S D Fi O]. simpl heap in Hd. world_simpl.
  unfold Visualizer.plot_feature_importance.
  rewrite bind_run, subplots_run by reflexivity; world_simpl.
  rewrite bind_run, getitem_run; world_simpl. rewrite Hd.
  unfold Pandas.column at 1.
  destruct (lookup "Feature" (df_columns d)) as [features|];
    [| reflexivity].
  destruct Hmissing as [Hm | Hm]; [discriminate |].
  world_simpl.
  rewrite bind_run, getitem_run; world_simpl. rewrite Hd.
  unfold Pandas.column at 1. rewrite Hm. reflexivity.
Qed.

Lemma plot_feature_importance_without_features_on_the_sample :
  Visualizer.plot_feature_importance Sample.viz Sample.history_ref "Top 10!"
    Sample.world
  = (Raise (KeyError "Feature"),
     with_figures [mkFigure 1 (Some (10, 6)) []] Sample.world).
Proof.
  exact (plot_feature_importance_without_a_column Sample.viz
           Sample.history_ref "Top 10!" Sample.world Sample.history
           eq_refl (or_introl eq_refl)).
Defined.

(** ** [plot_forecast] on a forecast without predictions *)

(** A forecast frame without the column [predicted_casos_est] is found out
    before the figure is opened: with quarters that can be read and a
    history with a last row, [plot_forecast] raises [KeyError] when it is
    to connect the forecast to the history, and the figures, the files, the
    directories and the output are as they were. *)
Theorem plot_forecast_without_predictions
    (self : Visualizer.t) (forecast_df historical_df : ref)
    (forecast_year : Z) (model_name : string) (hist_start_year : option Z)
    (w : World) (fd hd : DataFrame)
    (cells_f dates_f cells_h dates_h : list value)
    (k : DataFrame) (kd kc : list value) (last_date last_value : value) :
  nth_error (heap w) forecast_df = Some (ODataFrame fd) ->
  nth_error (heap w) historical_df = Some (ODataFrame hd) ->
  lookup "year_quarter" (df_columns fd) = Some cells_f ->
  Spec.quarter_dates cells_f = Ok dates_f ->
  lookup "predicted_casos_est" (df_columns fd) = None ->
  lookup "year_quarter" (df_columns hd) = Some cells_h ->
  Spec.quarter_dates cells_h = Ok dates_h ->
  Spec.kept_rows hist_start_year (Pandas.set_column "date" dates_h hd)
  = Ok k ->
  lookup "date" (df_columns k) = Some kd ->
  lookup "casos_est" (df_columns k) = Some kc ->
  Pandas.iloc_last (mkSeries (df_index k) kd) = Ok last_date ->
  Pandas.iloc_last (mkSeries (df_index k) kc) = Ok last_value ->
  let (r, w') :=
    Visualizer.plot_forecast self forecast_df historical_df forecast_year
      model_name hist_start_year w in
  (exists key, r = Raise (KeyError key))
  /\ figures w' = figures w /\ files w' = files w /\ dirs w' = dirs w
  /\ stdout w' = stdout w /\ shown w' = shown w.
Proof.
  intros Hlf Hlh Hyf Hdf Hpf Hyh Hdh Hk Hkd Hkc Hld Hlv.
  destruct w as [H F S D Fi O]. simpl heap in Hlf, Hlh. world_simpl.
  unfold Visualizer.plot_forecast.
  rewrite bind_run, copy_run; world_simpl. rewrite Hlf; world_simpl.
  rewrite bind_run, add_quarter_date_run; world_simpl.
  rewrite nth_error_last, Hyf, Hdf; world_simpl.
  rewrite bind_run, copy_run; world_simpl.
  erewrite (nth_error_old _ _ historical_df) by heap_lookup; world_simpl.
  rewrite bind_run, add_quarter_date_run; world_simpl.
  rewrite nth_error_last, Hyh, Hdh; world_simpl.
  rewrite bind_run.
  erewrite history_block_run by (world_simpl; apply nth_error_last).
  rewrite Hk. cbv zeta.
  set (t := if Visualizer.truthy hist_start_year then _ else _).
  world_simpl.
  rewrite bind_run, getitem_run; world_simpl.
  rewrite nth_error_last. unfold Pandas.column at 1. rewrite Hkd.
  world_simpl. rewrite bind_run. unfold lift at 1. rewrite Hld.
  world_simpl.
  rewrite bind_run, getitem_run; world_simpl.
  rewrite nth_error_last. unfold Pandas.column at 1. rewrite Hkc.
  world_simpl. rewrite bind_run. unfold lift at 1. rewrite Hlv.
  world_simpl.
  rewrite bind_run. unfold Pandas.new_frame at 1, Pandas.alloc at 1.
  world_simpl.
  rewrite bind_run, getitem_columns_run; world_simpl.
  erewrite (nth_error_old _ _ (length (H ++ _))) by heap_lookup.
  cbn [traverse].
  rewrite (pick_found _ "date" dates_f) by apply lookup_set_column_same.
  unfold Pandas.pick at 1.
  rewrite lookup_set_column_other by reflexivity. rewrite Hpf.
  world_simpl. repeat split. eexists. reflexivity.
Qed.

Lemma plot_forecast_without_predictions_on_the_sample :
  let (r, w') :=
    Visualizer.plot_forecast Sample.viz Sample.history_ref
      Sample.history_ref 2026 "rf" None Sample.world in
  (exists key, r = Raise (KeyError key))
  /\ figures w' = figures Sample.world /\ files w' = files Sample.world
  /\ dirs w' = dirs Sample.world /\ stdout w' = stdout Sample.world
  /\ shown w' = shown Sample.world.
Proof.
  pose (dates := map VTimestamp
                   [1688169600000000000; 1696118400000000000;
                    1704067200000000000; 1711929600000000000;
                    1719792000000000000]).
  exact (plot_forecast_without_predictions Sample.viz Sample.history_ref
           Sample.history_ref 2026 "rf" None Sample.world
           Sample.history Sample.history
           [VStr "2023Q3"; VStr "2023Q4"; VStr "2024Q1"; VStr "2024Q2";
            VStr "2024Q3"]
           dates
           [VStr "2023Q3"; VStr "2023Q4"; VStr "2024Q1"; VStr "2024Q2";
            VStr "2024Q3"]
           dates
           (Pandas.set_column "date" dates Sample.history)
           dates
           [VFloat 10; VFloat 20; VFloat 30; VFloat 40; VFloat 50]
           (VTimestamp 1719792000000000000) (VFloat 50)
           eq_refl eq_refl eq_refl eq_refl eq_refl eq_refl eq_refl eq_refl
           eq_refl eq_refl eq_refl eq_refl).
Defined.

(** ** [plot_actual_vs_predicted] without a history, or with none to show *)








(** ** [print_feature_importance], line by line *)

Lemma print_run (s : string) (w : World) :
  Builtins.print s w = (Ok tt, with_stdout (stdout w ++ [s]) w).
Proof. reflexivity. Qed.

(** The body of the loop prints the line of its row, or raises as the line
    does. *)
Lemma loop_body_run (row : Pandas.Row) (w : World) :
  (bar <- lift (Visualizer.bar row) ;;
   feature <- lift (Pandas.row_get row "Feature") ;;
   name <- lift (Builtins.format_left 25 feature) ;;
   importance <- lift (Pandas.row_get row "Importance") ;;
   number <- lift (Builtins.format_4f importance) ;;
   Builtins.print ("   " +++ name +++ " " +++ number +++ " " +++ bar)) w
  = match Report.row_line row with
    | Ok s => (Ok tt, with_stdout (stdout w ++ [s]) w)
    | Raise e => (Raise e, w)
    end.
Proof.
  unfold Report.row_line.
  rewrite bind_run. unfold lift at 1.
  destruct (Visualizer.bar row) as [bar|e]; [| reflexivity].
  cbv beta iota. rewrite bind_run. unfold lift at 1.
  destruct (Pandas.row_get row "Feature") as [feature|e]; [| reflexivity].
  cbv beta iota. rewrite bind_run. unfold lift at 1.
  destruct (Builtins.format_left 25 feature) as [name|e]; [| reflexivity].
  cbv beta iota. rewrite bind_run. unfold lift at 1.
  destruct (Pandas.row_get row "Importance") as [importance|e];
    [| reflexivity].
  cbv beta iota. rewrite bind_run. unfold lift at 1.
  destruct (Builtins.format_4f importance) as [number|e]; reflexivity.
Qed.

Lemma with_stdout_app (w : World) (a b : list string) :
  with_stdout (stdout (with_stdout (stdout w ++ a) w) ++ b)
    (with_stdout (stdout w ++ a) w)
  = with_stdout (stdout w ++ a ++ b) w.
Proof. destruct w. world_simpl. now rewrite app_assoc. Qed.

Lemma with_stdout_nil (w : World) : with_stdout (stdout w ++ []) w = w.
Proof. destruct w. world_simpl. now rewrite app_nil_r. Qed.

Lemma loop_run (rows : list Pandas.Row) (w : World) :
  for_each rows (fun row =>
    bar <- lift (Visualizer.bar row) ;;
    feature <- lift (Pandas.row_get row "Feature") ;;
    name <- lift (Builtins.format_left 25 feature) ;;
    importance <- lift (Pandas.row_get row "Importance") ;;
    number <- lift (Builtins.format_4f importance) ;;
    Builtins.print ("   " +++ name +++ " " +++ number +++ " " +++ bar)) w
  = (match snd (Report.printed rows) with
     | None => Ok tt
     | Some e => Raise e
     end,
     with_stdout (stdout w ++ fst (Report.printed rows)) w).
Proof.
  revert w. induction rows as [|row rows IH]; intro w.
  - simpl. now rewrite with_stdout_nil.
  - cbn [for_each Report.printed]. rewrite bind_run, loop_body_run.
    destruct (Report.row_line row) as [s|e].
    + rewrite IH. destruct (Report.printed rows) as [ls err].
      cbn [fst snd]. now rewrite with_stdout_app.
    + cbn [fst snd]. now rewrite with_stdout_nil.
Qed.

(** The banner first, whatever the frame; then the lines of the rows up to
    the first that raises. *)
Lemma print_feature_importance_run self df title w d :
  nth_error (heap w) df = Some (ODataFrame d) ->
  Visualizer.print_feature_importance self df title w
  = (match snd (Report.printed (Pandas.rows (df_index d) (df_columns d)))
     with
     | None => Ok tt
     | Some e => Raise e
     end,
     with_stdout
       (stdout w ++ Report.banner title
        ++ fst (Report.printed (Pandas.rows (df_index d) (df_columns d))))
       w).
Proof.
  intro Hd. unfold Visualizer.print_feature_importance.
  do 3 (rewrite bind_run, print_run; cbv beta iota).
  rewrite bind_run. unfold Pandas.iterrows, Pandas.frame_at.
  rewrite bind_run.
  destruct w as [H F S D Fi O]. simpl heap in Hd. world_simpl.
  rewrite Hd. unfold ret at 1. cbv beta iota.
  rewrite loop_run. world_simpl. unfold Report.banner.
  now rewrite <- !app_assoc.
Qed.

Lemma lookup_heads name (cols : list (string * list value)) :
  lookup name (map (fun c => (fst c, hd Pandas.NaN (snd c))) cols)
  = option_map (hd Pandas.NaN) (lookup name cols).
Proof.
  induction cols as [|[k vs] cols IH]; simpl; [reflexivity |].
  now destruct (String.eqb name k).
Qed.






(** A frame without rows prints the banner and nothing more, and the call
    returns, whatever columns the frame has or lacks. *)
Theorem print_feature_importance_of_no_rows
    (self : Visualizer.t) (importance_df : ref) (title : string) (w : World)
    (d : DataFrame) :
  nth_error (heap w) importance_df = Some (ODataFrame d) ->
  df_index d = [] ->
  Visualizer.print_feature_importance self importance_df title w
  = (Ok tt, with_stdout (stdout w ++ Report.banner title) w).
Proof.
  intros Hd Hidx.
  rewrite (print_feature_importance_run _ _ _ _ _ Hd), Hidx.
  cbn [Pandas.rows Report.printed fst snd]. now rewrite app_nil_r.
Qed.

Lemma print_feature_importance_of_the_empty_history :
  Visualizer.print_feature_importance Sample.viz Sample.no_history_ref
    "Nothing" Sample.world
  = (Ok tt,
     with_stdout (stdout Sample.world ++ Report.banner "Nothing")
       Sample.world).
Proof.
  exact (print_feature_importance_of_no_rows Sample.viz
           Sample.no_history_ref "Nothing" Sample.world Sample.no_history
           eq_refl eq_refl).
Defined.

(** A frame with a row and without the column [Importance] makes the call
    raise [KeyError] for that column, also when [Feature] is missing too:
    the bar is computed first.  The banner is printed by then. *)
Theorem print_feature_importance_without_importance
    (self : Visualizer.t) (importance_df : ref) (title : string) (w : World)
    (d : DataFrame) :
  nth_error (heap w) importance_df = Some (ODataFrame d) ->
  df_index d <> [] ->
  lookup "Importance" (df_columns d) = None ->
  Visualizer.print_feature_importance self importance_df title w
  = (Raise (KeyError "Importance"),
     with_stdout (stdout w ++ Report.banner title) w).
Proof.
  intros Hd Hidx Hi.
  rewrite (print_feature_importance_run _ _ _ _ _ Hd).
  destruct (df_index d) as [|i idx]; [congruence |].
  cbn [Pandas.rows Report.printed].
  replace (Report.row_line _) with (@Raise string (KeyError "Importance")).
  - cbn [fst snd]. now rewrite app_nil_r.
  - unfold Report.row_line, Visualizer.bar, Pandas.row_get. cbn [snd].
    now rewrite lookup_heads, Hi.
Qed.

Lemma print_feature_importance_of_the_history :
  Visualizer.print_feature_importance Sample.viz Sample.history_ref
    "History" Sample.world
  = (Raise (KeyError "Importance"),
     with_stdout (stdout Sample.world ++ Report.banner "History")
       Sample.world).
Proof.
  apply (print_feature_importance_without_importance Sample.viz
           Sample.history_ref "History" Sample.world Sample.history);
    [reflexivity | discriminate | reflexivity].
Defined.




(** Whatever it is given, a frame, a series or a reference to nothing, and
    however it ends, [print_feature_importance] has printed the banner
    first, has only added lines to the output, and has changed nothing else:
    no object, no figure, no file. *)
Theorem print_feature_importance_only_prints
    (self : Visualizer.t) (importance_df : ref) (title : string)
    (w : World) :
  exists lines,
    snd (Visualizer.print_feature_importance self importance_df title w)
    = with_stdout (stdout w ++ Report.banner title ++ lines) w.
Proof.
  destruct (nth_error (heap w) importance_df) as [[d|s]|] eqn:Hd.
  - rewrite (print_feature_importance_run _ _ _ _ _ Hd).
    eexists. reflexivity.
  - exists []. unfold Visualizer.print_feature_importance.
    do 3 (rewrite bind_run, print_run; cbv beta iota).
    rewrite bind_run. unfold Pandas.iterrows, Pandas.frame_at.
    rewrite bind_run.
    destruct w as [H F S D Fi O]. simpl heap in Hd. world_simpl.
    rewrite Hd. cbn [snd]. unfold Report.banner.
    now rewrite <- !app_assoc.
  - exists []. unfold Visualizer.print_feature_importance.
    do 3 (rewrite bind_run, print_run; cbv beta iota).
    rewrite bind_run. unfold Pandas.iterrows, Pandas.frame_at.
    rewrite bind_run.
    destruct w as [H F S D Fi O]. simpl heap in Hd. world_simpl.
    rewrite Hd. cbn [snd]. unfold Report.banner.
    now rewrite <- !app_assoc.
Qed.

(** ** The data-quality tests *)

Lemma difference_nil_iff (required columns : list string) :
  DataQuality.difference required columns = [] <-> incl required columns.
Proof.
  unfold DataQuality.difference, incl.
  induction required as [|c required IH]; simpl.
  - split; [intros _ a [] | reflexivity].
  - destruct (Pandas.mem c columns) eqn:E; simpl.
    + apply mem_true_iff in E. rewrite IH. split.
      * intros H a [<- | Ha]; auto.
      * intros H a Ha. apply H. now right.
    + split; [discriminate |]. intro H. exfalso.
      assert (Pandas.mem c columns = true) as T
        by (apply mem_true_iff, H; now left).
      congruence.
Qed.

Lemma in_difference (required columns : list string) (c : string) :
  In c (DataQuality.difference required columns)
  <-> In c required /\ ~ In c columns.
Proof.
  unfold DataQuality.difference. rewrite filter_In, negb_true_iff.
  split; intros [H1 H2]; split; auto.
  - intro I. apply mem_true_iff in I. congruence.
  - destruct (Pandas.mem c columns) eqn:E; [| reflexivity].
    apply mem_true_iff in E. contradiction.
Qed.

(** [test_data_quality] passes exactly when both files are there, pandas
    reads both, and each has its required columns, in any order and among
    any others. *)
Theorem test_data_quality_passes_iff (disk : DataQuality.Disk) :
  DataQuality.test_data_quality disk = DataQuality.Passed
  <-> exists dengue_columns sst_columns,
        lookup DataQuality.dengue_path disk = Some (Ok dengue_columns)
        /\ lookup DataQuality.sst_path disk = Some (Ok sst_columns)
        /\ incl DataQuality.dengue_required dengue_columns
        /\ incl DataQuality.sst_required sst_columns.
Proof.
  unfold DataQuality.test_data_quality, DataQuality.assert_columns. split.
  - destruct (lookup DataQuality.dengue_path disk) as [dr|];
      [| discriminate].
    destruct (lookup DataQuality.sst_path disk) as [sr|]; [| discriminate].
    destruct dr as [dc|e]; [| discriminate].
    destruct sr as [sc|e]; [| discriminate].
    cbv zeta.
    destruct (DataQuality.difference DataQuality.dengue_required dc)
      eqn:D1; [| discriminate].
    destruct (DataQuality.difference DataQuality.sst_required sc)
      eqn:D2; [| discriminate].
    intros _. exists dc, sc.
    repeat split; try reflexivity; now apply difference_nil_iff.
  - intros [dc [sc [E1 [E2 [D1 D2]]]]]. rewrite E1, E2. cbv zeta.
    apply difference_nil_iff in D1, D2. now rewrite D1, D2.
Qed.

Lemma insert_in (s c : string) (l : list string) :
  In c (PyRepr.insert s l) <-> c = s \/ In c l.
Proof.
  induction l as [|x l IH]; simpl.
  - intuition.
  - destruct (String.leb s x); simpl; [intuition |].
    rewrite IH. intuition.
Qed.

Lemma sorted_in (c : string) (l : list string) :
  In c (PyRepr.sorted l) <-> In c l.
Proof.
  unfold PyRepr.sorted. induction l as [|x l IH]; simpl; [tauto |].
  rewrite insert_in, IH. intuition.
Qed.

Lemma insert_sorted (s : string) (l : list string) :
  Sorted (fun a b => String.leb a b = true) l ->
  Sorted (fun a b => String.leb a b = true) (PyRepr.insert s l).
Proof.
  induction 1 as [|x l Hs IH Hd]; simpl.
  - repeat constructor.
  - destruct (String.leb s x) eqn:E.
    + constructor; [now constructor | now constructor].
    + constructor; [exact IH |].
      assert (String.leb x s = true) as Hxs
        by (destruct (String.leb_total s x); congruence).
      destruct Hd as [|y l Hy]; simpl.
      * now constructor.
      * destruct (String.leb s y); now constructor.
Qed.

Lemma sorted_is_sorted (l : list string) :
  Sorted (fun a b => String.leb a b = true) (PyRepr.sorted l).
Proof.
  unfold PyRepr.sorted. induction l as [|x l IH]; simpl.
  - constructor.
  - now apply insert_sorted.
Qed.

(** When both files are there and pandas reads both, and the dengue file
    lacks a required column, the test fails on the dengue columns, whatever
    the columns of the SST file: its message lists the required columns
    that are missing, those and no others, in the order of their code
    points. *)
Theorem test_data_quality_lists_the_missing_columns
    (disk : DataQuality.Disk) (dengue_columns sst_columns : list string) :
  lookup DataQuality.dengue_path disk = Some (Ok dengue_columns) ->
  lookup DataQuality.sst_path disk = Some (Ok sst_columns) ->
  ~ incl DataQuality.dengue_required dengue_columns ->
  exists missing,
    DataQuality.test_data_quality disk
    = DataQuality.AssertionError
        ("[dengue] Missing columns: " +++ PyRepr.repr_list missing)
    /\ Sorted (fun a b => String.leb a b = true) missing
    /\ (forall c, In c missing
                  <-> In c DataQuality.dengue_required
                      /\ ~ In c dengue_columns).
Proof.
  intros Hd Hs Hmissing.
  exists (PyRepr.sorted
            (DataQuality.difference DataQuality.dengue_required
               dengue_columns)).
  repeat apply conj.
  - unfold DataQuality.test_data_quality, DataQuality.assert_columns.
    rewrite Hd, Hs. cbv zeta.
    destruct (DataQuality.difference DataQuality.dengue_required
                dengue_columns) eqn:E; [| reflexivity].
    apply difference_nil_iff in E. contradiction.
  - apply sorted_is_sorted.
  - intro c. rewrite sorted_in. apply in_difference.
Qed.

Lemma test_data_quality_on_a_disk_without_cases :
  exists missing,
    DataQuality.test_data_quality
      [(DataQuality.sst_path, Ok ["YR"]);
       (DataQuality.dengue_path, Ok ["municipio"; "data_iniSE"])]
    = DataQuality.AssertionError
        ("[dengue] Missing columns: " +++ PyRepr.repr_list missing)
    /\ Sorted (fun a b => String.leb a b = true) missing
    /\ (forall c, In c missing
                  <-> In c DataQuality.dengue_required
                      /\ ~ In c ["municipio"; "data_iniSE"]).
Proof.
  apply (test_data_quality_lists_the_missing_columns
           [(DataQuality.sst_path, Ok ["YR"]);
            (DataQuality.dengue_path, Ok ["municipio"; "data_iniSE"])]
           ["municipio"; "data_iniSE"] ["YR"]);
    try reflexivity.
  intro H. specialize (H "casos_est" (or_intror (or_introl eq_refl))).
  destruct H as [E | [E | []]]; discriminate.
Defined.

(** The messages on such a disk, as Python prints them, and the exception
    of a file that pandas cannot read, which escapes the test even when
    the other file lacks columns. *)
Example test_data_quality_messages :
  DataQuality.test_data_quality
    [(DataQuality.sst_path, Ok ["YR"]);
     (DataQuality.dengue_path, Ok ["municipio"])]
  = DataQuality.AssertionError
      "[dengue] Missing columns: ['casos_est', 'data_iniSE']"
  /\ DataQuality.test_data_quality
       [(DataQuality.sst_path, Ok ["YR"; "NINO3"; "MON"]);
        (DataQuality.dengue_path, Ok ["casos_est"; "data_iniSE"])]
     = DataQuality.AssertionError
         "[sst] Missing columns: ['ANOM.3', 'NINO1+2', 'NINO3.4']"
  /\ DataQuality.test_data_quality
       [(DataQuality.dengue_path, Ok ["casos_est"; "data_iniSE"])]
     = DataQuality.AssertionError
         "Missing SST dataset: data/sst_indices.csv"
  /\ DataQuality.test_data_quality
       [(DataQuality.sst_path, Raise ValueError);
        (DataQuality.dengue_path, Ok ["municipio"])]
     = DataQuality.Raised ValueError
  /\ DataQuality.test_data_quality
       [(DataQuality.sst_path, Ok ["YR"]);
        (DataQuality.dengue_path, Raise ValueError)]
     = DataQuality.Raised ValueError.
Proof. repeat split. Qed.

(** *** The feature columns *)

Lemma mem_columns (c : string) (cols : list (string * list value)) :
  Pandas.mem c (map fst cols) = true
  <-> exists cells, lookup c cols = Some cells.
Proof.
  rewrite mem_true_iff. split.
  - intro I. destruct (lookup c cols) as [cells|] eqn:E; [eauto |].
    apply lookup_none_iff in E. contradiction.
  - intros [cells E] . destruct (in_dec string_dec c (map fst cols)) as [I|N];
      [exact I |].
    apply lookup_none_iff in N. congruence.
Qed.

Lemma filter_nil_iff {A} (f : A -> bool) (l : list A) :
  filter f l = [] <-> forall a, In a l -> f a = false.
Proof.
  induction l as [|x l IH]; simpl.
  - split; [intros _ a [] | reflexivity].
  - destruct (f x) eqn:E.
    + split; [discriminate |]. intro H.
      rewrite (H x (or_introl eq_refl)) in E. discriminate.
    + rewrite IH. split.
      * intros H a [<- | Ha]; auto.
      * intros H a Ha. apply H. now right.
Qed.

Lemma select_filter {A} (f : A -> bool) (l : list A) :
  Pandas.select (map f l) l = filter f l.
Proof.
  induction l as [|x l IH]; simpl; [reflexivity |].
  rewrite IH. reflexivity.
Qed.

Lemma forallb_false_iff {A} (f : A -> bool) (l : list A) :
  forallb f l = false <-> exists a, In a l /\ f a = false.
Proof.
  induction l as [|x l IH]; simpl.
  - split; [discriminate | intros [a [[] _]]].
  - rewrite andb_false_iff, IH. split.
    + intros [E | [a [Ha E]]]; eauto.
    + intros [a [[<- | Ha] E]]; eauto.
Qed.

Lemma isna_all_present (d : DataFrame) (l : list string) :
  (forall c, In c l -> exists cells, lookup c (df_columns d) = Some cells) ->
  traverse (DataQuality.isna_all d) l = Ok (map (Features.all_missing d) l).
Proof.
  induction l as [|c l IH]; intro Hp; simpl; [reflexivity |].
  destruct (Hp c (or_introl eq_refl)) as [cells Hc].
  unfold DataQuality.isna_all at 1, Pandas.column, Features.all_missing at 1.
  rewrite Hc. cbn [s_values].
  rewrite IH by (intros c' Hc'; apply Hp; now right). reflexivity.
Qed.

(** The outcome of the test, case by case. *)
Lemma test_features_cases (d : DataFrame) (l : list string) :
  DataQuality.test_features_exist_and_not_all_nan d l
  = match l with
    | [] =>
        DataQuality.AssertionError
          "No feature columns returned by FeatureEngineer"
    | _ :: _ =>
        match filter (fun c => negb (Pandas.mem c (map fst (df_columns d))))
                l with
        | (_ :: _) as missing =>
            DataQuality.AssertionError
              ("Missing engineered features: " +++ PyRepr.repr_list missing)
        | [] =>
            match filter (Features.all_missing d) l with
            | (_ :: _) as all_nan =>
                DataQuality.AssertionError
                  ("All-NaN feature columns: " +++ PyRepr.repr_list all_nan)
            | [] => DataQuality.Passed
            end
        end
    end.
Proof.
  unfold DataQuality.test_features_exist_and_not_all_nan.
  destruct l as [|c0 l0]; [reflexivity |].
  cbv zeta. set (l := c0 :: l0).
  destruct (filter _ l) as [|m ms] eqn:Hm; [| reflexivity].
  rewrite isna_all_present; [cbv zeta; rewrite select_filter;
                              now destruct (filter (Features.all_missing d) l) |].
  intros c Hc. apply mem_columns.
  rewrite filter_nil_iff in Hm. specialize (Hm c Hc).
  now apply negb_false_iff.
Qed.

(** [test_features_exist_and_not_all_nan] passes exactly when there is a
    feature column and each one is a column of the frame with a value that
    is not missing. *)
Theorem test_features_passes_iff
    (df_feat : DataFrame) (feature_cols : list string) :
  DataQuality.test_features_exist_and_not_all_nan df_feat feature_cols
  = DataQuality.Passed
  <-> feature_cols <> []
      /\ forall c, In c feature_cols ->
           exists cells,
             lookup c (df_columns df_feat) = Some cells
             /\ exists v, In v cells /\ DataQuality.isna v = false.
Proof.
  rewrite test_features_cases. split.
  - destruct feature_cols as [|c0 l0]; [discriminate |].
    set (l := c0 :: l0).
    destruct (filter _ l) as [|m ms] eqn:Hm; [| discriminate].
    destruct (filter (Features.all_missing df_feat) l) as [|a al] eqn:Ha;
      [| discriminate].
    intros _. split; [discriminate |]. intros c Hc.
    rewrite filter_nil_iff in Hm, Ha.
    specialize (Hm c Hc). specialize (Ha c Hc).
    apply negb_false_iff, mem_columns in Hm. destruct Hm as [cells E].
    exists cells. split; [exact E |].
    unfold Features.all_missing in Ha. rewrite E in Ha.
    now apply forallb_false_iff.
  - intros [Hne Hall].
    destruct feature_cols as [|c0 l0]; [congruence |].
    set (l := c0 :: l0) in *.
    replace (filter _ l) with (@nil string).
    + replace (filter (Features.all_missing df_feat) l) with (@nil string);
        [reflexivity |].
      symmetry. apply filter_nil_iff. intros c Hc.
      destruct (Hall c Hc) as [cells [E V]].
      unfold Features.all_missing. rewrite E. now apply forallb_false_iff.
    + symmetry. apply filter_nil_iff. intros c Hc.
      destruct (Hall c Hc) as [cells [E _]].
      apply negb_false_iff, mem_columns. eauto.
Qed.

(** The test never ends on an exception: a feature column that the frame
    lacks fails the assertion on the missing columns, which comes before the
    scan for missing values. *)
Theorem test_features_never_raises
    (df_feat : DataFrame) (feature_cols : list string) (e : exn) :
  DataQuality.test_features_exist_and_not_all_nan df_feat feature_cols
  <> DataQuality.Raised e.
Proof.
  rewrite test_features_cases.
  destruct feature_cols as [|c0 l0]; [discriminate |].
  destruct (filter _ (c0 :: l0)); [| discriminate].
  destruct (filter (Features.all_missing df_feat) (c0 :: l0)); discriminate.
Qed.

(** On a frame without rows every feature column counts as missing
    throughout: the test fails and names them all. *)
Theorem test_features_fails_without_rows
    (df_feat : DataFrame) (feature_cols : list string) :
  feature_cols <> [] ->
  (forall c, In c feature_cols -> lookup c (df_columns df_feat) = Some []) ->
  DataQuality.test_features_exist_and_not_all_nan df_feat feature_cols
  = DataQuality.AssertionError
      ("All-NaN feature columns: " +++ PyRepr.repr_list feature_cols).
Proof.
  intros Hne Hempty. rewrite test_features_cases.
  destruct feature_cols as [|c0 l0]; [congruence |].
  set (l := c0 :: l0) in *.
  replace (filter (fun c => negb (Pandas.mem c (map fst (df_columns df_feat))))
             l) with (@nil string).
  - replace (filter (Features.all_missing df_feat) l) with l; [reflexivity |].
    symmetry. apply forallb_filter_id. apply forallb_forall.
    intros c Hc. unfold Features.all_missing. now rewrite (Hempty c Hc).
  - symmetry. apply filter_nil_iff. intros c Hc.
    apply negb_false_iff, mem_columns. eauto.
Qed.

Lemma test_features_fails_on_the_empty_history :
  DataQuality.test_features_exist_and_not_all_nan Sample.no_history
    ["year"; "casos_est"]
  = DataQuality.AssertionError
      ("All-NaN feature columns: "
       +++ PyRepr.repr_list ["year"; "casos_est"]).
Proof.
  apply (test_features_fails_without_rows Sample.no_history
           ["year"; "casos_est"]); [discriminate |].
  intros c [<- | [<- | []]]; reflexivity.
Defined.

(** ** A chart is saved whole or not at all *)

Import Effects.

Lemma silent_bind {A B} (m : M A) (k : A -> M B) :
  silent m -> (forall a, silent (k a)) -> silent (bind m k).
Proof.
  intros Hm Hk w. rewrite bind_run. specialize (Hm w).
  destruct (m w) as [[a|e] w1]; simpl in *; [| exact Hm].
  destruct (Hk a w1) as [F [D O]], Hm as [F' [D' O']].
  repeat split; congruence.
Qed.

Lemma silent_ret {A} (a : A) : silent (ret a).
Proof. intro w. repeat split. Qed.

Lemma silent_lift {A} (r : result A) : silent (lift r).
Proof. intro w. repeat split. Qed.

Lemma silent_alloc o : silent (Pandas.alloc o).
Proof. intro w. repeat split. Qed.

Lemma silent_frame_at r : silent (Pandas.frame_at r).
Proof.
  intro w. unfold Pandas.frame_at.
  destruct (nth_error (heap w) r) as [[d|s]|]; repeat split.
Qed.

Lemma silent_series_at r : silent (Pandas.series_at r).
Proof.
  intro w. unfold Pandas.series_at.
  destruct (nth_error (heap w) r) as [[d|s]|]; repeat split.
Qed.

Lemma silent_store r o : silent (Pandas.store r o).
Proof. intro w. repeat split. Qed.

Lemma silent_open_figure size : silent (Pyplot.open_figure size).
Proof. intro w. repeat split. Qed.

Lemma silent_ax_call ax d : silent (Pyplot.ax_call ax d).
Proof. intro w. repeat split. Qed.

Lemma silent_gcf : silent Pyplot.gcf.
Proof. intro w. unfold Pyplot.gcf. destruct (figures w); repeat split. Qed.

Create HintDb silent.
#[local] Hint Resolve silent_ret silent_lift silent_alloc silent_frame_at
  silent_series_at silent_store silent_open_figure silent_ax_call
  silent_gcf : silent.

Ltac keep_silent :=
  repeat first [ solve [eauto with silent]
               | apply silent_bind; [| intros] ];
  eauto with silent.

Lemma silent_copy df : silent (Pandas.copy df).
Proof. unfold Pandas.copy. keep_silent. Qed.

Lemma silent_getitem df name : silent (Pandas.getitem df name).
Proof. unfold Pandas.getitem. keep_silent. Qed.

Lemma silent_setitem df name vs : silent (Pandas.setitem df name vs).
Proof. unfold Pandas.setitem. keep_silent. Qed.

Lemma silent_getitem_mask df mask : silent (Pandas.getitem_mask df mask).
Proof. unfold Pandas.getitem_mask. keep_silent. Qed.

Lemma silent_new_frame cols : silent (Pandas.new_frame cols).
Proof. unfold Pandas.new_frame. keep_silent. Qed.

Lemma silent_getitem_columns df names :
  silent (Pandas.getitem_columns df names).
Proof. unfold Pandas.getitem_columns. keep_silent. Qed.

Lemma silent_frames_at rs : silent (Pandas.frames_at rs).
Proof. induction rs as [|r rs IH]; simpl; keep_silent. Qed.

Lemma silent_subplots size : silent (Pyplot.subplots size).
Proof.
  unfold Pyplot.subplots. destruct (Pyplot.drawable size); keep_silent.
Qed.

Lemma silent_plt_call d : silent (Pyplot.plt_call d).
Proof.
  unfold Pyplot.plt_call. apply silent_bind; [auto with silent |].
  intro f. destruct d; try destruct (Pyplot.renders f); auto with silent.
Qed.

Lemma silent_plot ax x y fmt label : silent (Pyplot.plot ax x y fmt label).
Proof.
  unfold Pyplot.plot. destruct (Pyplot.plottable _ _); auto with silent.
Qed.

Lemma silent_axvline ax x label : silent (Pyplot.axvline ax x label).
Proof. unfold Pyplot.axvline. destruct x; auto with silent. Qed.

Lemma silent_barh ax y width color : silent (Pyplot.barh ax y width color).
Proof.
  unfold Pyplot.barh. destruct (Pyplot.barrable _ _); auto with silent.
Qed.

#[local] Hint Resolve silent_copy silent_getitem silent_setitem
  silent_getitem_mask silent_new_frame silent_getitem_columns
  silent_frames_at silent_subplots silent_plt_call silent_plot
  silent_axvline silent_barh : silent.

Lemma silent_concat frames : silent (Pandas.concat frames).
Proof. unfold Pandas.concat. keep_silent. Qed.

Lemma silent_add_quarter_date self df :
  silent (Visualizer.add_quarter_date self df).
Proof. unfold Visualizer.add_quarter_date. keep_silent. Qed.

Lemma silent_setitem_aligned align df name series :
  silent (Visualizer.setitem_aligned align df name series).
Proof. unfold Visualizer.setitem_aligned. keep_silent. Qed.

#[local] Hint Resolve silent_concat silent_add_quarter_date
  silent_setitem_aligned : silent.

(** What is silent keeps the files, the directories and the output. *)
Lemma hoare_silent {A} w0 (m : M A) :
  silent m ->
  hoare (untouched w0) m (fun _ => untouched w0) (untouched w0).
Proof.
  intros Hs w [F [D O]]. destruct (Hs w) as [F' [D' O']].
  unfold untouched.
  destruct (m w) as [[a|e] w1]; simpl in *; rewrite D';
    (split; [congruence | split; [exact D | congruence]]).
Qed.

Lemma incl_mem (ds ds' : list string) :
  (forall d, Pandas.mem d ds = true -> Pandas.mem d ds' = true) ->
  incl ds ds'.
Proof. intros H d Hd. now apply mem_true_iff, H, mem_true_iff. Qed.

(** [_save_fig] writes its file or none, and removes no directory. *)
Lemma hoare_saving w0 self filename :
  hoare (untouched w0) (Visualizer._save_fig self filename)
        (fun _ => saved self filename w0) (untouched w0).
Proof.
  intros w [F [D O]]. unfold Visualizer._save_fig.
  destruct (makedirs_dirs (Visualizer.output_dir self) w)
    as [Made [Kept _]].
  apply incl_mem in Kept.
  rewrite bind_run, makedirs_run.
  destruct (fst (Os.makedirs _ w)) as [[]|e].
  - specialize (Made eq_refl).
    unfold Pyplot.savefig, Pyplot.gcf, Pyplot.open_figure.
    rewrite bind_run. destruct w as [H Fg S Dr Fi Ou]. cbn in F, D, O, Kept.
    world_simpl. cbn [dirs] in Made |- *.
    destruct Fg as [|f Fg]; world_simpl;
      (destruct (_ && _); [destruct (Os.is_dir _ _) |]);
      unfold saved, untouched; world_simpl; subst;
      repeat split; eauto using incl_tran.
  - destruct w as [H Fg S Dr Fi Ou]. cbn in *. unfold untouched. cbn.
    repeat split; eauto using incl_tran.
Qed.

Lemma hoare_saved_show_or_close w0 self filename :
  hoare (saved self filename w0) (Visualizer.show_or_close self)
        (fun _ => saved self filename w0) (untouched w0).
Proof.
  intros w Hw. rewrite show_or_close_run.
  destruct (Visualizer.show_plots self); destruct w; exact Hw.
Qed.

Lemma hoare_untouched_ret w0 (a : unit) :
  hoare (untouched w0) (ret a) (fun _ => untouched w0) (untouched w0).
Proof. intros w Hw. exact Hw. Qed.

Create HintDb effects.
#[local] Hint Resolve hoare_saving hoare_saved_show_or_close
  hoare_untouched_ret : effects.
#[local] Hint Extern 3 (hoare (untouched _) _ _ _) =>
  apply hoare_silent; solve [auto with silent] : effects.

Ltac effect_step :=
  cbv beta;
  lazymatch goal with
  | |- hoare _ (bind (if ?c then _ else _) _) _ _ =>
      eapply hoare_bind; [destruct c | intros; cbv beta]
  | |- hoare _ (bind (match ?x with _ => _ end) _) _ _ =>
      eapply hoare_bind; [destruct x | intros; cbv beta]
  | |- hoare _ (bind _ _) _ _ =>
      eapply hoare_bind; [solve [eauto with effects] | intros; cbv beta]
  | |- hoare _ _ _ _ => solve [eauto with effects]
  end.

Ltac effects := repeat effect_step; eauto with effects.

Lemma saves_plot_forecast w0 self forecast_df historical_df forecast_year
    model_name hist_start_year :
  hoare (untouched w0)
    (Visualizer.plot_forecast self forecast_df historical_df forecast_year
       model_name hist_start_year)
    (fun _ =>
       saved self ("forecast_" +++ PyStr.of_int forecast_year +++ "_"
                   +++ model_name +++ ".png") w0)
    (untouched w0).
Proof. unfold Visualizer.plot_forecast. effects. Qed.

Lemma saves_plot_actual_vs_predicted w0 align self test_df predictions
    model_name year historical_df hist_years :
  hoare (untouched w0)
    (Visualizer.plot_actual_vs_predicted align self test_df predictions
       model_name year historical_df hist_years)
    (fun _ =>
       saved self ("actual_vs_predicted_" +++ PyStr.of_int year +++ "_"
                   +++ model_name +++ ".png") w0)
    (untouched w0).
Proof. unfold Visualizer.plot_actual_vs_predicted. effects. Qed.

Lemma saves_plot_feature_importance w0 self importance_df title :
  hoare (untouched w0)
    (Visualizer.plot_feature_importance self importance_df title)
    (fun _ =>
       saved self ("feature_importance_" +++ Visualizer.safe_title title
                   +++ ".png") w0)
    (untouched w0).
Proof. unfold Visualizer.plot_feature_importance. effects. Qed.

Lemma untouched_refl w : untouched w w.
Proof. repeat split. apply incl_refl. Qed.

Lemma all_or_nothing_of_hoare self filename (m : M unit) (w : World) :
  hoare (untouched w) m (fun _ => saved self filename w) (untouched w) ->
  all_or_nothing self filename w (m w).
Proof.
  intro H. specialize (H w (untouched_refl w)).
  unfold all_or_nothing. destruct (m w) as [[a|e] w']; [exact H |].
  now destruct e.
Qed.

(** A plotting method that returns has saved one image, under the name made
    of its arguments, in the output directory, which is there then, and has
    left every other file as it was; one that raises has written no file.
    Neither prints and neither removes a directory. *)
Theorem plotting_saves_all_or_nothing
    (align : DataFrame -> string -> Series -> result DataFrame)
    (self : Visualizer.t) (w : World) :
  (forall test_df predictions model_name year historical_df hist_years,
     all_or_nothing self
       ("actual_vs_predicted_" +++ PyStr.of_int year +++ "_" +++ model_name
        +++ ".png") w
       (Visualizer.plot_actual_vs_predicted align self test_df predictions
          model_name year historical_df hist_years w))
  /\ (forall forecast_df historical_df forecast_year model_name
             hist_start_year,
        all_or_nothing self
          ("forecast_" +++ PyStr.of_int forecast_year +++ "_" +++ model_name
           +++ ".png") w
          (Visualizer.plot_forecast self forecast_df historical_df
             forecast_year model_name hist_start_year w))
  /\ (forall importance_df title,
        all_or_nothing self
          ("feature_importance_" +++ Visualizer.safe_title title +++ ".png")
          w
          (Visualizer.plot_feature_importance self importance_df title w)).
Proof.
  repeat apply conj; intros; apply all_or_nothing_of_hoare.
  - apply saves_plot_actual_vs_predicted.
  - apply saves_plot_forecast.
  - apply saves_plot_feature_importance.
Qed.

(** ** [add_quarter_date] on its own result *)

Lemma assign_twice {A} (k : string) (a b : A) (l : list (string * A)) :
  assign k a (assign k b l) = assign k a l.
Proof.
  induction l as [|[k' c] l IH]; simpl.
  - now rewrite String.eqb_refl.
  - destruct (String.eqb k k') eqn:E; simpl.
    + now rewrite String.eqb_refl.
    + now rewrite E, IH.
Qed.

(** The frame that [add_quarter_date] returns can be given to it again: the
    call returns a new frame with the same rows, columns and dates, in the
    same order, and the frame it was given is as it was. *)
Theorem add_quarter_date_again_changes_nothing
    (self : Visualizer.t) (df r : ref) (w w1 : World) :
  Visualizer.add_quarter_date self df w = (Ok r, w1) ->
  exists d' r2 w2,
    nth_error (heap w1) r = Some (ODataFrame d')
    /\ Visualizer.add_quarter_date self r w1 = (Ok r2, w2)
    /\ r2 <> r
    /\ nth_error (heap w2) r2 = Some (ODataFrame d')
    /\ nth_error (heap w2) r = Some (ODataFrame d').
Proof.
  intro Hrun. rewrite add_quarter_date_run in Hrun.
  destruct (nth_error (heap w) df) as [[d|s]|]; try discriminate.
  destruct (lookup "year_quarter" (df_columns d)) as [cells|] eqn:Hc;
    [| discriminate].
  destruct (Spec.quarter_dates cells) as [dates|e] eqn:Hq; [| discriminate].
  inversion Hrun; subst; clear Hrun.
  exists (Pandas.set_column "date" dates d).
  rewrite add_quarter_date_run. simpl heap. rewrite nth_error_last.
  rewrite lookup_set_column_other by reflexivity. rewrite Hc, Hq.
  do 2 eexists. repeat apply conj; try reflexivity.
  - rewrite length_app. simpl. lia.
  - simpl heap. rewrite nth_error_last.
    unfold Pandas.set_column. simpl. now rewrite assign_twice.
  - simpl heap. apply nth_error_old, nth_error_last.
Qed.

Lemma add_quarter_date_again_on_the_sample :
  exists d' r2 w2,
    nth_error
      (heap (snd (Visualizer.add_quarter_date Sample.viz Sample.history_ref
                    Sample.world))) 7
    = Some (ODataFrame d')
    /\ Visualizer.add_quarter_date Sample.viz 7%nat
         (snd (Visualizer.add_quarter_date Sample.viz Sample.history_ref
                 Sample.world))
       = (Ok r2, w2)
    /\ r2 <> 7%nat
    /\ nth_error (heap w2) r2 = Some (ODataFrame d')
    /\ nth_error (heap w2) 7 = Some (ODataFrame d').
Proof.
  apply (add_quarter_date_again_changes_nothing Sample.viz
           Sample.history_ref 7%nat Sample.world).
  reflexivity.
Defined.

(** ** Where the charts of a new visualizer go *)

Lemma lookup_saved self filename w0 w :
  Effects.saved self filename w0 w ->
  lookup (Os.path_join (Visualizer.output_dir self) filename) (files w)
  <> None
  /\ Pandas.mem (Visualizer.output_dir self) (dirs w) = true.
Proof.
  intros [[image F] [D _]]. rewrite F, lookup_assign_same.
  split; [discriminate | exact D].
Qed.

(** A visualizer made by [__init__], whatever its figure size and whether
    it shows its plots, saves under [outputs/plots]: a plotting method that
    returns has made that directory and written the file named after its
    arguments in it. *)
Theorem charts_go_to_outputs_plots
    (align : DataFrame -> string -> Series -> result DataFrame)
    (figsize : Z * Z) (show_plots : bool) (w : World) :
  let self := Visualizer.__init__ figsize show_plots in
  (forall test_df predictions model_name year historical_df hist_years w',
     Visualizer.plot_actual_vs_predicted align self test_df predictions
       model_name year historical_df hist_years w = (Ok tt, w') ->
     lookup ("outputs/plots/actual_vs_predicted_" +++ PyStr.of_int year
             +++ "_" +++ model_name +++ ".png") (files w') <> None
     /\ Pandas.mem "outputs/plots" (dirs w') = true)
  /\ (forall forecast_df historical_df forecast_year model_name
             hist_start_year w',
        Visualizer.plot_forecast self forecast_df historical_df
          forecast_year model_name hist_start_year w = (Ok tt, w') ->
        lookup ("outputs/plots/forecast_" +++ PyStr.of_int forecast_year
                +++ "_" +++ model_name +++ ".png") (files w') <> None
        /\ Pandas.mem "outputs/plots" (dirs w') = true)
  /\ (forall importance_df title w',
        Visualizer.plot_feature_importance self importance_df title w
        = (Ok tt, w') ->
        lookup ("outputs/plots/feature_importance_"
                +++ Visualizer.safe_title title +++ ".png") (files w')
        <> None
        /\ Pandas.mem "outputs/plots" (dirs w') = true).
Proof.
  intro self. repeat apply conj; intros.
  - pose proof (saves_plot_actual_vs_predicted w align self test_df
                  predictions model_name year historical_df hist_years w
                  (untouched_refl w)) as S.
    rewrite H in S. exact (lookup_saved _ _ _ _ S).
  - pose proof (saves_plot_forecast w self forecast_df historical_df
                  forecast_year model_name hist_start_year w
                  (untouched_refl w)) as S.
    rewrite H in S. exact (lookup_saved _ _ _ _ S).
  - pose proof (saves_plot_feature_importance w self importance_df title w
                  (untouched_refl w)) as S.
    rewrite H in S. exact (lookup_saved _ _ _ _ S).
Qed.

(** ** The exception of an empty history *)

(** When the two frames are well formed and the filter on
    [hist_start_year] leaves no row of history, the exception that
    [plot_forecast] raises is the [IndexError] of
    [hist['date'].iloc[-1]]; the copies it has made are all that has
    changed. *)
Theorem plot_forecast_of_no_history_is_an_index_error
    (self : Visualizer.t) (forecast_df historical_df : ref)
    (forecast_year : Z) (model_name : string) (hist_start_year : option Z)
    (w : World) (fd hd : DataFrame) (cells_f dates_f cells_h dates_h :
    list value) (k : DataFrame) :
  nth_error (heap w) forecast_df = Some (ODataFrame fd) ->
  nth_error (heap w) historical_df = Some (ODataFrame hd) ->
  lookup "year_quarter" (df_columns fd) = Some cells_f ->
  Spec.quarter_dates cells_f = Ok dates_f ->
  lookup "year_quarter" (df_columns hd) = Some cells_h ->
  Spec.quarter_dates cells_h = Ok dates_h ->
  Spec.kept_rows hist_start_year (Pandas.set_column "date" dates_h hd)
  = Ok k ->
  lookup "date" (df_columns k) = Some [] ->
  exists garbage,
    Visualizer.plot_forecast self forecast_df historical_df forecast_year
      model_name hist_start_year w
    = (Raise IndexError, with_heap (heap w ++ garbage) w).
Proof.
  intros Hlf Hlh Hyf Hdf Hyh Hdh Hk Hkd.
  destruct w as [H F S D Fi O]. simpl heap in Hlf, Hlh. world_simpl.
  unfold Visualizer.plot_forecast.
  rewrite bind_run, copy_run; world_simpl. rewrite Hlf; world_simpl.
  rewrite bind_run, add_quarter_date_run; world_simpl.
  rewrite nth_error_last, Hyf, Hdf; world_simpl.
  rewrite bind_run, copy_run; world_simpl.
  erewrite (nth_error_old _ _ historical_df) by heap_lookup; world_simpl.
  rewrite bind_run, add_quarter_date_run; world_simpl.
  rewrite nth_error_last, Hyh, Hdh; world_simpl.
  rewrite bind_run.
  erewrite history_block_run by (world_simpl; apply nth_error_last).
  rewrite Hk. cbv zeta. world_simpl.
  rewrite bind_run, getitem_run; world_simpl.
  rewrite nth_error_last. unfold Pandas.column at 1. rewrite Hkd.
  world_simpl. rewrite bind_run. unfold lift at 1.
  cbn [Pandas.iloc_last s_values rev].
  eexists. rewrite <- !app_assoc. reflexivity.
Qed.

Lemma plot_forecast_of_the_empty_sample_is_an_index_error :
  exists garbage,
    Visualizer.plot_forecast Sample.viz Sample.forecast_ref
      Sample.history_ref 2026 "rf" (Some 2030) Sample.world
    = (Raise IndexError,
       with_heap (heap Sample.world ++ garbage) Sample.world).
Proof.
  apply (plot_forecast_of_no_history_is_an_index_error Sample.viz
           Sample.forecast_ref Sample.history_ref 2026 "rf" (Some 2030)
           Sample.world Sample.forecast Sample.history
           [VStr "2026Q1"; VStr "2026Q2"; VStr "2026Q3"; VStr "2026Q4"]
           (map VTimestamp
              [1767225600000000000; 1775001600000000000;
               1782864000000000000; 1790812800000000000])
           [VStr "2023Q3"; VStr "2023Q4"; VStr "2024Q1"; VStr "2024Q2";
            VStr "2024Q3"]
           (map VTimestamp
              [1688169600000000000; 1696118400000000000;
               1704067200000000000; 1711929600000000000;
               1719792000000000000])
           (Pandas.filter_rows [false; false; false; false; false]
              (Pandas.set_column "date"
                 (map VTimestamp
                    [1688169600000000000; 1696118400000000000;
                     1704067200000000000; 1711929600000000000;
                     1719792000000000000])
                 Sample.history)));
    reflexivity.
Defined.
